(** * Risk-scoring core of the betting-app fraud detection utilities

    A shallow embedding of the three JavaScript classes that carry the
    scoring logic of the repository:

    - [RealTimeMonitor]: [RealTimeFraudMonitor] of
      [test/utils/real-time-monitor.js] (sliding window, profile update,
      the five risk calculators, composite score, alerting);
    - [NetworkAnalyzer]: [NetworkFraudAnalyzer] of
      [test/utils/network-analyzer.js] (category risk, network risk score,
      fraud rings, browser fingerprint);
    - [Biometrics]: [BehavioralBiometricsAnalyzer] of
      [test/utils/behavioral-biometrics.js] (authenticity decision, cosine
      similarity).

    Conventions.  Counters are modelled by [nat], millisecond timestamps
    by [Z], risks, weights and thresholds by [Q], and the typing rhythm,
    which goes through [Math.sqrt], by [R]; rounding of IEEE doubles is
    outside these models.  The cosine similarity, whose range depends on
    the rounding, is modelled in IEEE doubles ([float]).  A [Map] keyed by user id
    is a [gmap string _]; a [Map] or array that the code iterates is a list
    in iteration order; a [Set] of which only the size is read is a
    [gset].  Reads of [Date.now()] and of the random id generator are
    inputs of the embedded functions. *)

From Stdlib Require Import Floats.
From Stdlib Require Import ZArith QArith Qminmax Reals Psatz Lia String Ascii List.
From stdpp Require Import gmap strings list fin_maps pretty.

Open Scope Z_scope.

(** ** Comparisons on [Q] as the JavaScript operators use them *)

Definition Qgeb (a b : Q) : bool := Qle_bool b a.
Definition Qgtb (a b : Q) : bool := negb (Qle_bool a b).

Module RealTimeMonitor.

(** *** Data model *)

(** An activity event.  JavaScript's [x || d] treats a missing field, [0]
    and the empty string alike, so a missing [timestamp] is [0] and a
    missing [eventId] is the empty string.  [amount] and [loginAttempts]
    are only present on some event types. *)
Record Event := {
  eventId : string;
  userId : string;
  type : string;
  timestamp : Z;
  amount : option Q;
  loginAttempts : option Z
}.

(** An entry of [behaviorMetrics.suspiciousActions].  The entries also copy
    payload fields of the event ([amount], [from], [to], ...), which no
    code reads back; they are left out. *)
Record SuspiciousAction := {
  sa_type : string;
  sa_timestamp : Z
}.

Record BehaviorMetrics := {
  bettingVelocity : nat;
  locationChanges : nat;
  deviceSwitches : nat;
  patternDeviations : nat;
  suspiciousActions : list SuspiciousAction
}.

Record RiskHistoryEntry := {
  rh_timestamp : Z;
  rh_risk : Q;
  rh_eventCount : nat
}.

Record UserProfile := {
  up_userId : string;
  firstSeen : Z;
  lastActivity : Z;
  eventCount : nat;
  behaviorMetrics : BehaviorMetrics;
  riskHistory : list RiskHistoryEntry
}.

Record RiskFactor := {
  rf_type : string;
  rf_value : nat;
  rf_impact : string
}.

(** The live entry of [riskScores]: exactly the three fields the code
    stores. *)
Record RiskScoreEntry := {
  score : Q;
  rs_timestamp : Z;
  factors : list RiskFactor
}.

Inductive Severity := critical | high | medium | low.

Record Recommendation := {
  action : string;
  priority : string;
  reason : string
}.

Record Alert := {
  alertId : string;
  al_timestamp : Z;
  al_userId : string;
  riskScore : Q;
  al_event : Event;
  severity : Severity;
  al_userProfile : option UserProfile;
  recommendations : list Recommendation
}.

Record Config := {
  alertThreshold : Q;
  monitoringWindow : Z;
  maxEventsPerWindow : Z
}.

(** The constructor's defaults. *)
Definition defaultConfig : Config :=
  {| alertThreshold := 0.7; monitoringWindow := 300000; maxEventsPerWindow := 1000 |}.

Record Monitor := {
  config : Config;
  activeUsers : gmap string UserProfile;
  eventStream : list Event;
  riskScores : gmap string RiskScoreEntry;
  alertQueue : list Alert;
  processedEvents : nat;
  alertsSent : nat
}.

Definition newMonitor (c : Config) : Monitor :=
  {| config := c; activeUsers := ∅; eventStream := []; riskScores := ∅;
     alertQueue := []; processedEvents := 0%nat; alertsSent := 0%nat |}.

(** What one call of [processIncomingEvent] reads from outside: the three
    readings of [Date.now()] (when stamping the event, when trimming the
    window, when dating the alert) and the two generated identifiers. *)
Record Env := {
  now : Z;
  windowNow : Z;
  alertNow : Z;
  freshEventId : string;
  freshAlertId : string
}.

(** A calculator's answer. *)
Record RiskResult := {
  risk : Q;
  weight : Q
}.

(** A risk calculator as [calculateRealTimeRisk] sees it: called on the
    event inside [try], it returns a result or throws ([None]). *)
Abbreviation Calculator := (Monitor -> Event -> option RiskResult).

(** *** Field updates *)

Definition set_eventStream (s : list Event) (m : Monitor) : Monitor :=
  {| config := config m; activeUsers := activeUsers m; eventStream := s;
     riskScores := riskScores m; alertQueue := alertQueue m;
     processedEvents := processedEvents m; alertsSent := alertsSent m |}.

Definition set_activeUsers (u : gmap string UserProfile) (m : Monitor) : Monitor :=
  {| config := config m; activeUsers := u; eventStream := eventStream m;
     riskScores := riskScores m; alertQueue := alertQueue m;
     processedEvents := processedEvents m; alertsSent := alertsSent m |}.

Definition set_riskScores (r : gmap string RiskScoreEntry) (m : Monitor) : Monitor :=
  {| config := config m; activeUsers := activeUsers m; eventStream := eventStream m;
     riskScores := r; alertQueue := alertQueue m;
     processedEvents := processedEvents m; alertsSent := alertsSent m |}.

Definition set_metrics (b : BehaviorMetrics) (p : UserProfile) : UserProfile :=
  {| up_userId := up_userId p; firstSeen := firstSeen p; lastActivity := lastActivity p;
     eventCount := eventCount p; behaviorMetrics := b; riskHistory := riskHistory p |}.

Definition set_suspiciousActions (l : list SuspiciousAction) (b : BehaviorMetrics) : BehaviorMetrics :=
  {| bettingVelocity := bettingVelocity b; locationChanges := locationChanges b;
     deviceSwitches := deviceSwitches b; patternDeviations := patternDeviations b;
     suspiciousActions := l |}.

(** [metrics.suspiciousActions.push(...)] *)
Definition push_action (t : string) (ts : Z) (b : BehaviorMetrics) : BehaviorMetrics :=
  set_suspiciousActions (suspiciousActions b ++ [{| sa_type := t; sa_timestamp := ts |}]) b.

(** *** Sliding window and per-user counters *)

(** [maintainSlidingWindow]: keep the events newer than
    [Date.now() - monitoringWindow]. *)
Definition maintainSlidingWindow (clock : Z) (m : Monitor) : Monitor :=
  let cutoff := clock - monitoringWindow (config m) in
  set_eventStream (List.filter (fun e => cutoff <? timestamp e) (eventStream m)) m.

(** [calculateBettingVelocity]: the bets of the profile's user in the
    stream whose timestamp is above [event.timestamp - 60000]. *)
Definition calculateBettingVelocity (m : Monitor) (userProfile : UserProfile) (event : Event) : nat :=
  if negb (String.eqb (type event) "bet_placed")
  then bettingVelocity (behaviorMetrics userProfile)
  else
    let timeWindow := 60000 in
    let recentBets :=
      List.filter (fun e =>
        String.eqb (userId e) (up_userId userProfile)
        && String.eqb (type e) "bet_placed"
        && (timestamp event - timeWindow <? timestamp e)) (eventStream m) in
    List.length recentBets.

(** [Array.prototype.sort((a, b) => b.timestamp - a.timestamp)]: a stable
    sort by descending timestamp. *)
Fixpoint insert_desc (x : Event) (l : list Event) : list Event :=
  match l with
  | [] => [x]
  | y :: l' => if timestamp y <=? timestamp x then x :: y :: l' else y :: insert_desc x l'
  end.

Definition sort_desc (l : list Event) : list Event := List.fold_right insert_desc [] l.

(** [isRapidLocationChange]: the second most recent location change of
    the user (index 1 after sorting), when there is one, is less than five
    minutes before the event. *)
Definition isRapidLocationChange (m : Monitor) (userProfile : UserProfile) (event : Event) : bool :=
  let changes :=
    List.filter (fun e =>
      String.eqb (userId e) (up_userId userProfile)
      && String.eqb (type e) "location_change") (eventStream m) in
  match nth_error (sort_desc changes) 1 with
  | None => false
  | Some lastLocationChange => timestamp event - timestamp lastLocationChange <? 300000
  end.

(** The [switch (event.type)] of [updateBehaviorMetrics]. *)
Definition updateMetricsByType (m : Monitor) (userProfile : UserProfile) (event : Event)
  : BehaviorMetrics :=
  let metrics := behaviorMetrics userProfile in
  if String.eqb (type event) "bet_placed" then
    let metrics1 :=
      {| bettingVelocity := calculateBettingVelocity m userProfile event;
         locationChanges := locationChanges metrics;
         deviceSwitches := deviceSwitches metrics;
         patternDeviations := patternDeviations metrics;
         suspiciousActions := suspiciousActions metrics |} in
    match amount event with
    | Some a => if Qgtb a 1000 then push_action "high_value_bet" (timestamp event) metrics1
                else metrics1
    | None => metrics1
    end
  else if String.eqb (type event) "location_change" then
    let metrics1 :=
      {| bettingVelocity := bettingVelocity metrics;
         locationChanges := S (locationChanges metrics);
         deviceSwitches := deviceSwitches metrics;
         patternDeviations := patternDeviations metrics;
         suspiciousActions := suspiciousActions metrics |} in
    if isRapidLocationChange m userProfile event
    then push_action "rapid_location_change" (timestamp event) metrics1
    else metrics1
  else if String.eqb (type event) "device_switch" then
    let metrics1 :=
      {| bettingVelocity := bettingVelocity metrics;
         locationChanges := locationChanges metrics;
         deviceSwitches := S (deviceSwitches metrics);
         patternDeviations := patternDeviations metrics;
         suspiciousActions := suspiciousActions metrics |} in
    push_action "device_switch" (timestamp event) metrics1
  else if String.eqb (type event) "login" then
    match loginAttempts event with
    | Some n => if 3 <? n then push_action "multiple_login_attempts" (timestamp event) metrics
                else metrics
    | None => metrics
    end
  else metrics.

(** [updateBehaviorMetrics]: the type-specific update, then the filter that
    keeps the suspicious actions newer than [event.timestamp] minus one
    day. *)
Definition updateBehaviorMetrics (m : Monitor) (userProfile : UserProfile) (event : Event)
  : UserProfile :=
  let metrics := updateMetricsByType m userProfile event in
  let dayAgo := timestamp event - 24 * 60 * 60 * 1000 in
  set_metrics
    (set_suspiciousActions
       (List.filter (fun a => dayAgo <? sa_timestamp a) (suspiciousActions metrics)) metrics)
    userProfile.

Definition newProfile (event : Event) : UserProfile :=
  {| up_userId := userId event;
     firstSeen := timestamp event;
     lastActivity := timestamp event;
     eventCount := 0%nat;
     behaviorMetrics :=
       {| bettingVelocity := 0%nat; locationChanges := 0%nat; deviceSwitches := 0%nat;
          patternDeviations := 0%nat; suspiciousActions := [] |};
     riskHistory := [] |}.

(** [updateUserBehavior]: get or create the profile of the event's user,
    stamp it, update its metrics, store it back under the same key. *)
Definition updateUserBehavior (m : Monitor) (event : Event) : Monitor :=
  let uid := userId event in
  let existing :=
    match activeUsers m !! uid with
    | Some p => p
    | None => newProfile event
    end in
  let stamped :=
    {| up_userId := up_userId existing; firstSeen := firstSeen existing;
       lastActivity := timestamp event; eventCount := S (eventCount existing);
       behaviorMetrics := behaviorMetrics existing; riskHistory := riskHistory existing |} in
  set_activeUsers (<[uid := updateBehaviorMetrics m stamped event]> (activeUsers m)) m.

(** *** The five risk calculators *)

(** [calculateVelocityRisk] *)
Definition calculateVelocityRisk (m : Monitor) (event : Event) : RiskResult :=
  match activeUsers m !! userId event with
  | None => {| risk := 0; weight := 1 |}
  | Some userProfile =>
    let timeWindow := 60000 in
    let recentEvents :=
      List.filter (fun e =>
        String.eqb (userId e) (userId event)
        && (timestamp event - timeWindow <? timestamp e)) (eventStream m) in
    let velocity := List.length recentEvents in
    let maxNormalVelocity := 10%Q in
    {| risk := Qmin (inject_Z (Z.of_nat velocity) / maxNormalVelocity) 1; weight := 0.25 |}
  end.

(** [calculatePatternRisk] *)
Definition calculatePatternRisk (m : Monitor) (event : Event) : RiskResult :=
  match activeUsers m !! userId event with
  | None => {| risk := 0; weight := 1 |}
  | Some userProfile =>
    let suspiciousActionCount :=
      List.length (suspiciousActions (behaviorMetrics userProfile)) in
    {| risk := Qmin (inject_Z (Z.of_nat suspiciousActionCount) / 5) 1; weight := 0.3 |}
  end.

(** [calculateLocationRisk] *)
Definition calculateLocationRisk (m : Monitor) (event : Event) : RiskResult :=
  if negb (String.eqb (type event) "location_change")
  then {| risk := 0; weight := 1 |}
  else
    match activeUsers m !! userId event with
    | None => {| risk := 0; weight := 1 |}
    | Some userProfile =>
      let locationChanges := locationChanges (behaviorMetrics userProfile) in
      {| risk := Qmin (inject_Z (Z.of_nat locationChanges) / 3) 1; weight := 0.2 |}
    end.

(** [calculateDeviceRisk] *)
Definition calculateDeviceRisk (m : Monitor) (event : Event) : RiskResult :=
  match activeUsers m !! userId event with
  | None => {| risk := 0; weight := 1 |}
  | Some userProfile =>
    let deviceSwitches := deviceSwitches (behaviorMetrics userProfile) in
    {| risk := Qmin (inject_Z (Z.of_nat deviceSwitches) / 2) 1; weight := 0.15 |}
  end.

(** [calculateBehaviorRisk] *)
Definition calculateBehaviorRisk (m : Monitor) (event : Event) : RiskResult :=
  match activeUsers m !! userId event with
  | None => {| risk := 0; weight := 1 |}
  | Some userProfile =>
    let bettingVelocity := bettingVelocity (behaviorMetrics userProfile) in
    {| risk := Qmin (inject_Z (Z.of_nat bettingVelocity) / 100) 1; weight := 0.1 |}
  end.

(** [this.riskCalculators], in the order the constructor inserts them.
    None of the five has a statement that throws on a monitor state. *)
Definition riskCalculators : list (string * Calculator) :=
  [ ("velocity", fun m e => Some (calculateVelocityRisk m e));
    ("pattern", fun m e => Some (calculatePatternRisk m e));
    ("location", fun m e => Some (calculateLocationRisk m e));
    ("device", fun m e => Some (calculateDeviceRisk m e));
    ("behavior", fun m e => Some (calculateBehaviorRisk m e)) ].

(** *** Composite score *)

(** [getDetailedRiskFactors] *)
Definition getDetailedRiskFactors (m : Monitor) (event : Event) : list RiskFactor :=
  match activeUsers m !! userId event with
  | None => []
  | Some userProfile =>
    let metrics := behaviorMetrics userProfile in
    let n := List.length (suspiciousActions metrics) in
    (if (50 <? bettingVelocity metrics)%nat
     then [{| rf_type := "high_betting_velocity"; rf_value := bettingVelocity metrics;
              rf_impact := "high" |}] else [])
    ++ (if (2 <? locationChanges metrics)%nat
        then [{| rf_type := "multiple_location_changes"; rf_value := locationChanges metrics;
                 rf_impact := "medium" |}] else [])
    ++ (if (1 <? deviceSwitches metrics)%nat
        then [{| rf_type := "device_switching"; rf_value := deviceSwitches metrics;
                 rf_impact := "medium" |}] else [])
    ++ (if (3 <? n)%nat
        then [{| rf_type := "multiple_suspicious_actions"; rf_value := n;
                 rf_impact := "high" |}] else [])
  end.

(** One turn of the [for ... of this.riskCalculators] loop: the body of
    the [try] adds to both accumulators, the [catch] adds to neither. *)
Definition riskStep (m : Monitor) (event : Event) (acc : Q * Q) (c : string * Calculator)
  : Q * Q :=
  match snd c m event with
  | Some r => ((fst acc + risk r * weight r)%Q, (snd acc + weight r)%Q)
  | None => acc
  end.

(** [calculateRealTimeRisk]: the monitor with the user's live risk entry
    overwritten, and the returned [normalizedRisk]. *)
Definition calculateRealTimeRisk (calcs : list (string * Calculator)) (m : Monitor)
  (event : Event) : Monitor * Q :=
  let sums := List.fold_left (riskStep m event) calcs (0%Q, 0%Q) in
  let totalRisk := fst sums in
  let weightSum := snd sums in
  let normalizedRisk := if Qgtb weightSum 0 then (totalRisk / weightSum)%Q else 0%Q in
  (set_riskScores
     (<[userId event :=
          {| score := normalizedRisk; rs_timestamp := timestamp event;
             factors := getDetailedRiskFactors m event |}]> (riskScores m)) m,
   normalizedRisk).

(** *** Alerting *)

(** [getSeverityLevel] *)
Definition getSeverityLevel (riskScore : Q) : Severity :=
  if Qgeb riskScore 0.9 then critical
  else if Qgeb riskScore 0.7 then high
  else if Qgeb riskScore 0.5 then medium
  else low.

(** [generateRecommendations] *)
Definition generateRecommendations (event : Event) (riskScore : Q) : list Recommendation :=
  if Qgeb riskScore 0.9 then
    [{| action := "immediate_account_suspension"; priority := "critical";
        reason := "Extremely high fraud risk detected" |}]
  else if Qgeb riskScore 0.7 then
    [{| action := "enhanced_monitoring"; priority := "high";
        reason := "High fraud risk - increase scrutiny" |};
     {| action := "manual_review"; priority := "high";
        reason := "Requires human analysis" |}]
  else if Qgeb riskScore 0.5 then
    [{| action := "additional_verification"; priority := "medium";
        reason := "Medium risk - verify identity" |}]
  else [].

(** The alert record [triggerAlert] builds. *)
Definition makeAlert (env : Env) (m : Monitor) (event : Event) (riskScore : Q) : Alert :=
  {| alertId := freshAlertId env;
     al_timestamp := alertNow env;
     al_userId := userId event;
     riskScore := riskScore;
     al_event := event;
     severity := getSeverityLevel riskScore;
     al_userProfile := activeUsers m !! userId event;
     recommendations := generateRecommendations event riskScore |}.

(** [triggerAlert], up to its first [await]: the alert is queued and
    counted before the webhook is contacted. *)
Definition triggerAlert (env : Env) (m : Monitor) (event : Event) (riskScore : Q) : Monitor :=
  {| config := config m; activeUsers := activeUsers m; eventStream := eventStream m;
     riskScores := riskScores m;
     alertQueue := alertQueue m ++ [makeAlert env m event riskScore];
     processedEvents := processedEvents m;
     alertsSent := S (alertsSent m) |}.

(** *** Ingestion *)

(** [event.timestamp = event.timestamp || Date.now()] and the same for
    [eventId]. *)
Definition stampEvent (env : Env) (event : Event) : Event :=
  {| eventId := if String.eqb (eventId event) "" then freshEventId env else eventId event;
     userId := userId event;
     type := type event;
     timestamp := if timestamp event =? 0 then now env else timestamp event;
     amount := amount event;
     loginAttempts := loginAttempts event |}.

(** [this.eventStream.push(event); this.processedEvents++] *)
Definition pushEvent (event : Event) (m : Monitor) : Monitor :=
  {| config := config m; activeUsers := activeUsers m;
     eventStream := eventStream m ++ [event];
     riskScores := riskScores m; alertQueue := alertQueue m;
     processedEvents := S (processedEvents m); alertsSent := alertsSent m |}.

(** [processIncomingEvent]: the monitor after the event, and the risk score
    emitted with the [fraudEvent] notification. *)
Definition processIncomingEvent (calcs : list (string * Calculator)) (env : Env)
  (m : Monitor) (event0 : Event) : Monitor * Q :=
  let event := stampEvent env event0 in
  let m1 := pushEvent event m in
  let m2 := maintainSlidingWindow (windowNow env) m1 in
  let m3 := updateUserBehavior m2 event in
  let '(m4, riskScore) := calculateRealTimeRisk calcs m3 event in
  if Qgeb riskScore (alertThreshold (config m4))
  then (triggerAlert env m4 event riskScore, riskScore)
  else (m4, riskScore).

End RealTimeMonitor.

Module NetworkAnalyzer.

(** *** Category risk and network risk score *)

(** The fields [calculateCategoryRisk] reads from one category's analysis
    object.  A field read only for its truthiness is a [bool]; a number
    that may be missing is an [option] (a comparison with [undefined] is
    false); [spoofingIndicators] is read for its [length]. *)
Record Indicators := {
  isSharedIP : bool;
  isProxy : bool;
  isVPN : bool;
  isTor : bool;
  sharedUsers : option Q;
  automationSigns : bool;
  spoofingIndicators : option (list string);
  impossibleTravel : bool;
  rapidMovement : bool;
  isCoordinated : bool;
  coordinationScore : option Q
}.

(** [if (c) risk += x] *)
Definition addIf (c : bool) (x : Q) (risk : Q) : Q := if c then (risk + x)%Q else risk.

Definition gtSome (v : option Q) (bound : Q) : bool :=
  match v with Some x => Qgtb x bound | None => false end.

Definition nonEmpty (v : option (list string)) : bool :=
  match v with Some (_ :: _) => true | _ => false end.

(** [calculateCategoryRisk]; [None] is an argument that is falsy or not an
    object. *)
Definition calculateCategoryRisk (indicators : option Indicators) : Q :=
  match indicators with
  | None => 0%Q
  | Some i =>
    let risk := 0%Q in
    let risk := addIf (isSharedIP i) 0.3 risk in
    let risk := addIf (isProxy i) 0.4 risk in
    let risk := addIf (isVPN i) 0.3 risk in
    let risk := addIf (isTor i) 0.8 risk in
    let risk := addIf (gtSome (sharedUsers i) 5) 0.4 risk in
    let risk := addIf (automationSigns i) 0.6 risk in
    let risk := addIf (nonEmpty (spoofingIndicators i)) 0.5 risk in
    let risk := addIf (impossibleTravel i) 0.8 risk in
    let risk := addIf (rapidMovement i) 0.4 risk in
    let risk := addIf (isCoordinated i) 0.7 risk in
    let risk :=
      match coordinationScore i with
      | Some s => addIf (Qgtb s 0.5) (s * 0.5) risk
      | None => risk
      end in
    Qmin risk 1
  end.

(** The [weights] object literal. *)
Definition weights : list (string * Q) :=
  [ ("ipAnalysis", 0.25%Q); ("deviceAnalysis", 0.2%Q); ("proxyVPN", 0.2%Q);
    ("geolocation", 0.15%Q); ("coordination", 0.2%Q) ].

(** The property names every object literal inherits from
    [Object.prototype]; [weights[name]] is then a function (or the
    prototype object), which is truthy and not a number. *)
Definition inheritedKeys : list string :=
  [ "constructor"; "__defineGetter__"; "__defineSetter__"; "hasOwnProperty";
    "__lookupGetter__"; "__lookupSetter__"; "isPrototypeOf"; "propertyIsEnumerable";
    "toString"; "valueOf"; "__proto__"; "toLocaleString" ]%string.

Fixpoint assoc {A} (k : string) (l : list (string * A)) : option A :=
  match l with
  | [] => None
  | (k', v) :: l' => if String.eqb k k' then Some v else assoc k l'
  end.

(** [weights[category] || 0.1]: a number, or [None] for an inherited
    property that is not a number. *)
Definition weightOf (category : string) : option Q :=
  match assoc category weights with
  | Some w => Some w
  | None => if existsb (String.eqb category) inheritedKeys then None else Some 0.1%Q
  end.

(** One turn of the loop over [Object.entries(fraudIndicators)].  The
    accumulators are [(riskScore, weightSum)]; [None] is the state after a
    weight that is not a number was added: [riskScore] is then [NaN] and
    [weightSum] a string that does not read as a number, and both stay
    so. *)
Definition networkStep (acc : option (Q * Q)) (entry : string * option Indicators)
  : option (Q * Q) :=
  match acc, weightOf (fst entry) with
  | Some (riskScore, weightSum), Some w =>
      Some ((riskScore + calculateCategoryRisk (snd entry) * w)%Q, (weightSum + w)%Q)
  | _, _ => None
  end.

(** [calculateNetworkRiskScore]; the final test [weightSum > 0] is false
    when [weightSum] does not read as a number. *)
Definition calculateNetworkRiskScore (fraudIndicators : list (string * option Indicators)) : Q :=
  match List.fold_left networkStep fraudIndicators (Some (0%Q, 0%Q)) with
  | Some (riskScore, weightSum) => if Qgtb weightSum 0 then (riskScore / weightSum)%Q else 0%Q
  | None => 0%Q
  end.

(** *** Fraud rings *)

Record IPCluster := {
  ipAddress : string;
  ip_users : gset string;
  ip_firstSeen : Z;
  ip_lastSeen : Z;
  ip_riskScore : Q
}.

Record DeviceProfile := {
  fingerprint : string;
  dev_users : gset string;
  dev_firstSeen : Z;
  dev_lastSeen : Z;
  suspiciousFeatures : list string
}.

Record FraudRing := {
  ring_type : string;
  ring_key : string;
  ring_users : list string;
  ring_riskScore : Q;
  ring_indicators : list string
}.

(** The analyzer state [detectFraudRings] reads: the two cluster maps in
    their iteration order, and [config.minClusterSize]. *)
Record Analyzer := {
  minClusterSize : Z;
  ipClusters : list (string * IPCluster);
  deviceFingerprints : list (string * DeviceProfile)
}.

(** The helper methods [detectFraudRings] calls. *)
Record ClusterHelpers := {
  analyzeClusterUsers : IPCluster -> list string;
  getClusterSuspiciousIndicators : IPCluster -> list string;
  analyzeDeviceUsers : DeviceProfile -> list string;
  calculateDeviceClusterRisk : DeviceProfile -> Q;
  detectBehavioralClusters : list FraudRing
}.

(** The helpers as the class defines them: each returns its empty value. *)
Definition classHelpers : ClusterHelpers :=
  {| analyzeClusterUsers := fun _ => [];
     getClusterSuspiciousIndicators := fun _ => [];
     analyzeDeviceUsers := fun _ => [];
     calculateDeviceClusterRisk := fun _ => 0%Q;
     detectBehavioralClusters := [] |}.

(** The body of the loop over [this.ipClusters]. *)
Definition ipRing (h : ClusterHelpers) (a : Analyzer) (entry : string * IPCluster)
  : list FraudRing :=
  let cluster := snd entry in
  if minClusterSize a <=? Z.of_nat (size (ip_users cluster)) then
    let suspiciousUsers := analyzeClusterUsers h cluster in
    if minClusterSize a <=? Z.of_nat (List.length suspiciousUsers) then
      [{| ring_type := "ip_cluster"; ring_key := fst entry; ring_users := suspiciousUsers;
          ring_riskScore := ip_riskScore cluster;
          ring_indicators := getClusterSuspiciousIndicators h cluster |}]
    else []
  else [].

(** The body of the loop over [this.deviceFingerprints]. *)
Definition deviceRing (h : ClusterHelpers) (a : Analyzer) (entry : string * DeviceProfile)
  : list FraudRing :=
  let deviceProfile := snd entry in
  if minClusterSize a <=? Z.of_nat (size (dev_users deviceProfile)) then
    let suspiciousUsers := analyzeDeviceUsers h deviceProfile in
    if minClusterSize a <=? Z.of_nat (List.length suspiciousUsers) then
      [{| ring_type := "device_cluster"; ring_key := fst entry; ring_users := suspiciousUsers;
          ring_riskScore := calculateDeviceClusterRisk h deviceProfile;
          ring_indicators := suspiciousFeatures deviceProfile |}]
    else []
  else [].

(** [detectFraudRings], over given helpers. *)
Definition detectFraudRingsWith (h : ClusterHelpers) (a : Analyzer) : list FraudRing :=
  List.flat_map (ipRing h a) (ipClusters a)
  ++ List.flat_map (deviceRing h a) (deviceFingerprints a)
  ++ detectBehavioralClusters h.

(** [detectFraudRings] of the class. *)
Definition detectFraudRings (a : Analyzer) : list FraudRing :=
  detectFraudRingsWith classHelpers a.

(** *** Browser fingerprint *)

(** JavaScript numbers as [JSON.stringify] distinguishes them.  [JInt z] is
    an integer-valued number of magnitude below 10^21, which prints in
    plain decimal; numbers with a fractional part are not modelled. *)
Inductive JSNumber :=
| JInt (z : Z)
| JNaN
| JInfinity (negative : bool).

(** The values a field of the payload can hold. *)
#[local] Unset Elimination Schemes.
Inductive JSValue :=
| JUndefined
| JNull
| JBool (b : bool)
| JNumber (n : JSNumber)
| JString (s : string)
| JArray (items : list JSValue)
| JObject (props : list (string * JSValue)).
#[local] Set Elimination Schemes.

(** The payload handed to [generateBrowserFingerprint]. *)
Record NetworkData := {
  nd_ipAddress : JSValue;
  nd_userAgent : JSValue;
  nd_acceptLanguage : JSValue;
  nd_timezone : JSValue;
  nd_screenResolution : JSValue;
  nd_colorDepth : JSValue;
  nd_platformInfo : JSValue;
  nd_plugins : JSValue;
  nd_cookiesEnabled : JSValue;
  nd_doNotTrack : JSValue;
  nd_connectionType : JSValue;
  nd_bandwidth : JSValue;
  nd_headers : JSValue
}.

Definition quoteChar : ascii := "034"%char.
Definition backslash : ascii := "092"%char.

Definition hexDigit (n : nat) : ascii :=
  nth n ["0"; "1"; "2"; "3"; "4"; "5"; "6"; "7"; "8"; "9"; "a"; "b"; "c"; "d"; "e"; "f"]%char
    "0"%char.

(** One character of a string inside [JSON.stringify]'s quotes. *)
Definition escapeChar (c : ascii) : string :=
  let n := nat_of_ascii c in
  if Nat.eqb n 34 then String backslash (String quoteChar EmptyString)
  else if Nat.eqb n 92 then String backslash (String backslash EmptyString)
  else if Nat.eqb n 8 then String backslash "b"
  else if Nat.eqb n 12 then String backslash "f"
  else if Nat.eqb n 10 then String backslash "n"
  else if Nat.eqb n 13 then String backslash "r"
  else if Nat.eqb n 9 then String backslash "t"
  else if Nat.ltb n 32 then
    String backslash
      ("u00" ++ String (hexDigit (Nat.div n 16)) (String (hexDigit (Nat.modulo n 16)) EmptyString))
  else String c EmptyString.

Fixpoint escapeString (s : string) : string :=
  match s with
  | EmptyString => EmptyString
  | String c s' => escapeChar c ++ escapeString s'
  end.

Definition quoteJSON (s : string) : string :=
  String quoteChar (escapeString s ++ String quoteChar EmptyString).

Definition numberToJSON (n : JSNumber) : string :=
  match n with
  | JInt z => pretty z
  | JNaN => "null"
  | JInfinity _ => "null"
  end.

(** [JSON.stringify] on a value: [None] is the result [undefined], for
    which a property is left out and an array slot is written [null]. *)
Fixpoint stringify (v : JSValue) : option string :=
  match v with
  | JUndefined => None
  | JNull => Some "null"%string
  | JBool b => Some (if b then "true" else "false")%string
  | JNumber n => Some (numberToJSON n)
  | JString s => Some (quoteJSON s)
  | JArray items =>
      let slots :=
        (fix go (l : list JSValue) : list string :=
           match l with
           | [] => []
           | x :: l' =>
               match stringify x with Some t => t | None => "null"%string end :: go l'
           end) items in
      Some ("[" ++ String.concat "," slots ++ "]")%string
  | JObject props =>
      let members :=
        (fix go (l : list (string * JSValue)) : list string :=
           match l with
           | [] => []
           | (k, x) :: l' =>
               match stringify x with
               | Some t => (quoteJSON k ++ ":" ++ t)%string :: go l'
               | None => go l'
               end
           end) props in
      Some ("{" ++ String.concat "," members ++ "}")%string
  end.

(** The properties of the object literal [fingerprintData]: nine, in the
    order the source writes them. *)
Definition fingerprintFields (networkData : NetworkData) : list (string * JSValue) :=
  [ ("userAgent", nd_userAgent networkData);
    ("screenResolution", nd_screenResolution networkData);
    ("timezone", nd_timezone networkData);
    ("language", nd_acceptLanguage networkData);
    ("platform", nd_platformInfo networkData);
    ("colorDepth", nd_colorDepth networkData);
    ("plugins", nd_plugins networkData);
    ("cookiesEnabled", nd_cookiesEnabled networkData);
    ("doNotTrack", nd_doNotTrack networkData) ]%string.

Definition fingerprintData (networkData : NetworkData) : JSValue :=
  JObject (fingerprintFields networkData).

Definition fingerprintString (networkData : NetworkData) : string :=
  match stringify (fingerprintData networkData) with
  | Some s => s
  | None => EmptyString
  end.

(** [generateBrowserFingerprint].  The digest
    [crypto.createHash('sha256').update(s).digest('hex')] belongs to the
    Node.js runtime, not to the repository; it is the parameter
    [sha256hex]. *)
Definition generateBrowserFingerprint (sha256hex : string -> string)
  (networkData : NetworkData) : string :=
  sha256hex (fingerprintString networkData).

End NetworkAnalyzer.

Module Biometrics.

(** *** Authenticity decision *)

Inductive Confidence := conf_high | conf_medium.

(** The object [determineAuthenticity] returns: [authentic] with either a
    [confidence] or a [reason]. *)
Record Authenticity := {
  authentic : bool;
  confidence : option Confidence;
  reason : option string
}.

(** [!compositeBiometricScore]: true for [null] ([None]) and for the
    number zero. *)
Definition falsyScore (compositeBiometricScore : option Q) : bool :=
  match compositeBiometricScore with
  | None => true
  | Some s => Qeq_bool s 0
  end.

(** [determineAuthenticity], over [config.similarityThreshold]. *)
Definition determineAuthenticity (similarityThreshold : Q)
  (compositeBiometricScore : option Q) : Authenticity :=
  match compositeBiometricScore with
  | None =>
      {| authentic := false; confidence := None; reason := Some "insufficient_data"%string |}
  | Some s =>
      if falsyScore (Some s) then
        {| authentic := false; confidence := None; reason := Some "insufficient_data"%string |}
      else if Qgeb s similarityThreshold then
        {| authentic := true; confidence := Some conf_high; reason := None |}
      else if Qgeb s (similarityThreshold - 0.2) then
        {| authentic := true; confidence := Some conf_medium; reason := None |}
      else
        {| authentic := false; confidence := Some conf_high; reason := None |}
  end.

(** The constructor's default for [similarityThreshold]. *)
Definition defaultSimilarityThreshold : Q := 0.85.

(** *** Cosine similarity *)

(** A value of a metrics record, as the analyzers build them: a number,
    which is a double, or a nested pattern object such as [{}], which is
    truthy and which a product reads as [NaN]. *)
Inductive MetricValue :=
| MNum (x : float)
| MObj.

(** A metrics record in the key order [Object.keys] enumerates. *)
Definition Metrics : Type := list (string * MetricValue).

Fixpoint getMetric (key : string) (metrics : Metrics) : option MetricValue :=
  match metrics with
  | [] => None
  | (k, v) :: rest => if String.eqb key k then Some v else getMetric key rest
  end.

(** [Object.keys(metrics1).filter(key => typeof metrics1[key] === 'number')],
    each key with the number it holds; [NaN] is a number. *)
Fixpoint numericEntries (metrics1 : Metrics) : list (string * float) :=
  match metrics1 with
  | [] => []
  | (k, MNum x) :: rest => (k, x) :: numericEntries rest
  | (k, MObj) :: rest => numericEntries rest
  end.

(** [x || 0] on a number: [0], [-0] and [NaN] are falsy. *)
Definition orZero (x : float) : float :=
  if PrimFloat.is_nan x || PrimFloat.is_zero x then 0%float else x.

(** [metrics2[key] || 0] as the products read it.  A key the record does
    not hold is looked up on [Object.prototype]: under an inherited name
    the value is a function (or the prototype object), which like a nested
    object is truthy and reads as [NaN]; under any other name it is
    [undefined], and the value is 0. *)
Definition val2Of (key : string) (metrics2 : Metrics) : float :=
  match getMetric key metrics2 with
  | Some (MNum x) => orZero x
  | Some MObj => PrimFloat.nan
  | None =>
      if existsb (String.eqb key) NetworkAnalyzer.inheritedKeys then PrimFloat.nan else 0%float
  end.

(** The three accumulators of the loop. *)
Record Sums := {
  dotProduct : float;
  norm1 : float;
  norm2 : float
}.

(** The body of [keys.forEach]. *)
Definition similarityStep (metrics2 : Metrics) (acc : Sums) (entry : string * float) : Sums :=
  let val1 := orZero (snd entry) in
  let val2 := val2Of (fst entry) metrics2 in
  {| dotProduct := (dotProduct acc + val1 * val2)%float;
     norm1 := (norm1 acc + val1 * val1)%float;
     norm2 := (norm2 acc + val2 * val2)%float |}.

(** [calculateSimilarity], in the double arithmetic of the code;
    [magnitude > 0] is false when [magnitude] is [NaN]. *)
Definition calculateSimilarity (metrics1 metrics2 : Metrics) : float :=
  let sums :=
    List.fold_left (similarityStep metrics2) (numericEntries metrics1)
      {| dotProduct := 0%float; norm1 := 0%float; norm2 := 0%float |} in
  let magnitude := (PrimFloat.sqrt (norm1 sums) * PrimFloat.sqrt (norm2 sums))%float in
  if (0 <? magnitude)%float then (dotProduct sums / magnitude)%float else 0%float.

End Biometrics.

(** * Specification-side definitions *)

Module MonitorSpec.
Import RealTimeMonitor.

(** A calculator that throws on every call. *)
Definition throwing : Calculator := fun _ _ => None.

(** The calculators with those named by [down] replaced by throwing
    ones. *)
Definition withOutage (down : string -> bool) (calcs : list (string * Calculator))
  : list (string * Calculator) :=
  List.map (fun c => if down (fst c) then (fst c, throwing) else c) calcs.

(** The results of the calculators that do not throw, in order. *)
Fixpoint succeeded (calcs : list (string * Calculator)) (m : Monitor) (e : Event)
  : list RiskResult :=
  match calcs with
  | [] => []
  | c :: rest =>
      match snd c m e with
      | Some r => r :: succeeded rest m e
      | None => succeeded rest m e
      end
  end.

(** Sum of [risk_i * weight_i]. *)
Definition sumRiskWeight (rs : list RiskResult) : Q :=
  List.fold_right (fun r acc => (risk r * weight r + acc)%Q) 0%Q rs.

(** Sum of [weight_i]. *)
Definition sumWeight (rs : list RiskResult) : Q :=
  List.fold_right (fun r acc => (weight r + acc)%Q) 0%Q rs.

(** The weight-normalized average of the spec, 0 over no weight. *)
Definition weightNormalizedAverage (rs : list RiskResult) : Q :=
  if Qgtb (sumWeight rs) 0 then (sumRiskWeight rs / sumWeight rs)%Q else 0%Q.

(** Two live risk entries that hold the same numbers. *)
Definition sameEntry (a b : option RiskScoreEntry) : Prop :=
  match a, b with
  | Some x, Some y =>
      (score x == score y)%Q /\ rs_timestamp x = rs_timestamp y /\ factors x = factors y
  | None, None => True
  | _, _ => False
  end.

(** The number of events of user [uid] in the store with a timestamp
    above [t]. *)
Definition userEventsSince (store : list Event) (uid : string) (t : Z) : nat :=
  length (filter (fun x => userId x = uid /\ (t < timestamp x)%Z) store).

(** The number of bets of user [uid] in the store with a timestamp above
    [t]. *)
Definition betsSince (store : list Event) (uid : string) (t : Z) : nat :=
  length (filter (fun x => userId x = uid /\ type x = "bet_placed"%string
                           /\ (t < timestamp x)%Z) store).

(** The spec's count: the bets of user [uid] in the store with a timestamp
    in the closed window from [lo] to [hi]. *)
Definition betsInWindow (store : list Event) (uid : string) (lo hi : Z) : nat :=
  length (filter (fun x => userId x = uid /\ type x = "bet_placed"%string
                           /\ (lo <= timestamp x)%Z /\ (timestamp x <= hi)%Z) store).

(** Every profile is stored under its own user id, as [updateUserBehavior]
    creates them. *)
Definition profilesKeyed (m : Monitor) : Prop :=
  forall uid p, activeUsers m !! uid = Some p -> up_userId p = uid.

(** Results with a risk in [0,1] and a weight that is not negative. *)
Definition boundedResult (r : RiskResult) : Prop :=
  (0 <= risk r /\ risk r <= 1 /\ 0 <= weight r)%Q.

(** A calculator list all of whose answers are bounded, on this state and
    event. *)
Definition boundedCalculators (calcs : list (string * Calculator)) (m : Monitor) (e : Event)
  : Prop :=
  Forall (fun c => forall r, snd c m e = Some r -> boundedResult r) calcs.

(** The monitor on which [processIncomingEvent] runs the profile update:
    the event pushed and the window trimmed. *)
Definition windowed (env : Env) (m : Monitor) (e0 : Event) : Monitor :=
  maintainSlidingWindow (windowNow env) (pushEvent (stampEvent env e0) m).

End MonitorSpec.

(** ** Sample runs of the monitor *)

Module MonitorExamples.
Import RealTimeMonitor MonitorSpec.

(** An outage of every calculator. *)
Definition allDown : string -> bool := fun _ => true.

(** A login that arrives long after it happened: the sliding window drops
    it at once, so it counts for no velocity. *)
Definition staleLogin : Event :=
  {| eventId := "e1"; userId := "user_001"; type := "login"; timestamp := 1000;
     amount := None; loginAttempts := Some 1 |}.

Definition staleEnv : Env :=
  {| now := 1000000; windowNow := 1000000; alertNow := 1000001;
     freshEventId := "evt_a"; freshAlertId := "evt_b" |}.

Definition outageRun : Monitor * Q :=
  processIncomingEvent (withOutage allDown riskCalculators) staleEnv
    (newMonitor defaultConfig) staleLogin.

Definition quietRun : Monitor * Q :=
  processIncomingEvent riskCalculators staleEnv (newMonitor defaultConfig) staleLogin.

(** A monitor that has seen one bet of [user_001], and that bet. *)
Definition firstBet : Event :=
  {| eventId := "e1"; userId := "user_001"; type := "bet_placed"; timestamp := 100000;
     amount := Some 50%Q; loginAttempts := None |}.

Definition firstBetEnv : Env :=
  {| now := 100000; windowNow := 100000; alertNow := 100001;
     freshEventId := "evt_a"; freshAlertId := "evt_b" |}.

Definition afterFirstBet : Monitor :=
  fst (processIncomingEvent riskCalculators firstBetEnv (newMonitor defaultConfig) firstBet).

(** A bet placed a minute before [firstBet] that reaches the monitor after
    it. *)
Definition lateBet : Event :=
  {| eventId := "e0"; userId := "user_001"; type := "bet_placed"; timestamp := 40000;
     amount := Some 50%Q; loginAttempts := None |}.

Definition lateBetEnv : Env :=
  {| now := 100002; windowNow := 100002; alertNow := 100003;
     freshEventId := "evt_c"; freshAlertId := "evt_d" |}.

Definition afterLateBet : Monitor :=
  fst (processIncomingEvent riskCalculators lateBetEnv afterFirstBet lateBet).

(** The same two bets in the other arrival order: the older bet first. *)
Definition afterOlderBet : Monitor :=
  fst (processIncomingEvent riskCalculators firstBetEnv (newMonitor defaultConfig) lateBet).

Definition afterOlderThenNewer : Monitor :=
  fst (processIncomingEvent riskCalculators lateBetEnv afterOlderBet firstBet).

(** A monitor configured to alert from a score of 0.01. *)
Definition eagerConfig : Config :=
  {| alertThreshold := 0.01; monitoringWindow := 300000; maxEventsPerWindow := 1000 |}.

(** A device switch of [user_001], and a login of [user_002] twenty-five
    hours later. *)
Definition switchEvent : Event :=
  {| eventId := "e1"; userId := "user_001"; type := "device_switch"; timestamp := 1000;
     amount := None; loginAttempts := None |}.

Definition nextDayLogin : Event :=
  {| eventId := "e2"; userId := "user_002"; type := "login"; timestamp := 90001000;
     amount := None; loginAttempts := Some 1 |}.

Definition afterSwitch : Monitor :=
  updateUserBehavior (newMonitor defaultConfig) switchEvent.

Definition afterNextDayLogin : Monitor :=
  updateUserBehavior afterSwitch nextDayLogin.

End MonitorExamples.

(** ** Fraud rings and JSON text *)

Module NetworkSpec.
Import NetworkAnalyzer.

(** The two tests a cluster passes before [detectFraudRings] reports it:
    enough members, and enough users returned by the cluster analysis. *)
Definition ipGate (h : ClusterHelpers) (a : Analyzer) (c : IPCluster) : Prop :=
  minClusterSize a <= Z.of_nat (size (ip_users c))
  /\ minClusterSize a <= Z.of_nat (List.length (analyzeClusterUsers h c)).

Definition deviceGate (h : ClusterHelpers) (a : Analyzer) (d : DeviceProfile) : Prop :=
  minClusterSize a <= Z.of_nat (size (dev_users d))
  /\ minClusterSize a <= Z.of_nat (List.length (analyzeDeviceUsers h d)).

Definition ipRecord (h : ClusterHelpers) (key : string) (c : IPCluster) : FraudRing :=
  {| ring_type := "ip_cluster"; ring_key := key; ring_users := analyzeClusterUsers h c;
     ring_riskScore := ip_riskScore c;
     ring_indicators := getClusterSuspiciousIndicators h c |}.

Definition deviceRecord (h : ClusterHelpers) (key : string) (d : DeviceProfile) : FraudRing :=
  {| ring_type := "device_cluster"; ring_key := key; ring_users := analyzeDeviceUsers h d;
     ring_riskScore := calculateDeviceClusterRisk h d;
     ring_indicators := suspiciousFeatures d |}.

End NetworkSpec.

Module JsonSpec.
Import NetworkAnalyzer.
Local Open Scope string_scope.

(** The members [JSON.stringify] writes for a list of properties. *)
Fixpoint members (props : list (string * JSValue)) : list string :=
  match props with
  | [] => []
  | (k, x) :: rest =>
      match stringify x with
      | Some t => (quoteJSON k ++ ":" ++ t) :: members rest
      | None => members rest
      end
  end.

Definition isChar (n : nat) (c : ascii) : bool := Nat.eqb (nat_of_ascii c) n.

Definition hexValue (c : ascii) : option nat :=
  let n := nat_of_ascii c in
  if (48 <=? n)%nat && (n <=? 57)%nat then Some (n - 48)%nat
  else if (97 <=? n)%nat && (n <=? 102)%nat then Some (n - 87)%nat
  else None.

(** A reader for what [quoteJSON] writes after the opening quote: the
    string up to the closing quote, and the text after that quote. *)
Fixpoint unquoteBody (s : string) : option (string * string) :=
  match s with
  | EmptyString => None
  | String c s1 =>
      if isChar 34 c then Some (EmptyString, s1)
      else if isChar 92 c then
        match s1 with
        | EmptyString => None
        | String e s2 =>
            let plain (d : nat) :=
              match unquoteBody s2 with
              | Some (r, t) => Some (String (ascii_of_nat d) r, t)
              | None => None
              end in
            if isChar 34 e then plain 34%nat
            else if isChar 92 e then plain 92%nat
            else if isChar 98 e then plain 8%nat
            else if isChar 102 e then plain 12%nat
            else if isChar 110 e then plain 10%nat
            else if isChar 114 e then plain 13%nat
            else if isChar 116 e then plain 9%nat
            else if isChar 117 e then
              match s2 with
              | String _ (String _ (String h1 (String h2 s6))) =>
                  match hexValue h1, hexValue h2, unquoteBody s6 with
                  | Some a, Some b, Some (r, t) =>
                      Some (String (ascii_of_nat (16 * a + b)) r, t)
                  | _, _, _ => None
                  end
              | _ => None
              end
            else None
        end
      else
        match unquoteBody s1 with
        | Some (r, t) => Some (String c r, t)
        | None => None
        end
  end.

(** The text [String.concat] puts before a member that follows the
    members [before], and after one that precedes the members [after]. *)
Fixpoint joinBefore (before : list string) : string :=
  match before with
  | [] => EmptyString
  | x :: rest => x ++ "," ++ joinBefore rest
  end.

Definition joinAfter (after : list string) : string :=
  match after with
  | [] => EmptyString
  | _ :: _ => "," ++ String.concat "," after
  end.

(** Two payloads with the same values in the nine fields that enter the
    fingerprint. *)
Definition sameFingerprintFields (d1 d2 : NetworkData) : Prop :=
  nd_userAgent d1 = nd_userAgent d2
  /\ nd_screenResolution d1 = nd_screenResolution d2
  /\ nd_timezone d1 = nd_timezone d2
  /\ nd_acceptLanguage d1 = nd_acceptLanguage d2
  /\ nd_platformInfo d1 = nd_platformInfo d2
  /\ nd_colorDepth d1 = nd_colorDepth d2
  /\ nd_plugins d1 = nd_plugins d2
  /\ nd_cookiesEnabled d1 = nd_cookiesEnabled d2
  /\ nd_doNotTrack d1 = nd_doNotTrack d2.

(** Two payloads whose fingerprint fields differ in one at most, the
    field [k], which holds [v1] in the first and [v2] in the second. *)
Definition differInField (d1 d2 : NetworkData) (k : string) (v1 v2 : JSValue) : Prop :=
  exists pre suf,
    fingerprintFields d1 = (pre ++ (k, v1) :: suf)%list
    /\ fingerprintFields d2 = (pre ++ (k, v2) :: suf)%list.

(** The member [JSON.stringify] writes for one property: none for a value
    it leaves out. *)
Definition memberOf (k : string) (v : JSValue) : list string :=
  match stringify v with
  | Some t => [quoteJSON k ++ ":" ++ t]
  | None => []
  end.

(** The slots [JSON.stringify] writes for the items of an array. *)
Fixpoint slots (items : list JSValue) : list string :=
  match items with
  | [] => []
  | x :: rest => match stringify x with Some t => t | None => "null" end :: slots rest
  end.

End JsonSpec.

(** ** Sample analyzer states and payloads *)

Module NetworkExamples.
Import NetworkAnalyzer.

(** Three users seen on one IP address and on one device, with the default
    [minClusterSize] of 3. *)
Definition threeUsers : gset string := {[ "user_001"; "user_002"; "user_003" ]}.

Definition sharedAnalyzer : Analyzer :=
  {| minClusterSize := 3;
     ipClusters :=
       [("10.0.0.1"%string,
         {| ipAddress := "10.0.0.1"; ip_users := threeUsers; ip_firstSeen := 1000;
            ip_lastSeen := 2000; ip_riskScore := 0%Q |})];
     deviceFingerprints :=
       [("ab12"%string,
         {| fingerprint := "ab12"; dev_users := threeUsers; dev_firstSeen := 1000;
            dev_lastSeen := 2000; suspiciousFeatures := [] |})] |}.

(** A desktop browser: its address, screen resolution and colour depth
    vary, the rest is fixed. *)
Definition desktopPayload (ip resolution : string) (depth : JSValue) : NetworkData :=
  {| nd_ipAddress := JString ip;
     nd_userAgent := JString "Mozilla/5.0 (X11; Linux x86_64)";
     nd_acceptLanguage := JString "en-US";
     nd_timezone := JString "Europe/Madrid";
     nd_screenResolution := JString resolution;
     nd_colorDepth := depth;
     nd_platformInfo := JString "Linux";
     nd_plugins := JArray [JString "pdf"];
     nd_cookiesEnabled := JBool true;
     nd_doNotTrack := JNull;
     nd_connectionType := JString "wifi";
     nd_bandwidth := JUndefined;
     nd_headers := JUndefined |}.

End NetworkExamples.

(** ** Authenticity and similarity *)

Module AuthenticitySpec.
Import Biometrics.

Definition insufficientData : Authenticity :=
  {| authentic := false; confidence := None; reason := Some "insufficient_data"%string |}.

End AuthenticitySpec.

Module SimilaritySpec.
Import Biometrics.

(** The two vectors the similarity compares, as the list of pairs
    [(val1, val2)] over the numeric keys of the first record. *)
Definition projectedPairs (metrics1 metrics2 : Metrics) : list (float * float) :=
  List.map (fun entry => (orZero (snd entry), val2Of (fst entry) metrics2))
    (numericEntries metrics1).

(** A sum of doubles, added from the left as the loop does. *)
Definition sumLeft (f : float * float -> float) (l : list (float * float)) : float :=
  List.fold_left (fun s p => (s + f p)%float) l 0%float.

Definition dot (l : list (float * float)) : float := sumLeft (fun p => (fst p * snd p)%float) l.
Definition sq1 (l : list (float * float)) : float := sumLeft (fun p => (fst p * fst p)%float) l.
Definition sq2 (l : list (float * float)) : float := sumLeft (fun p => (snd p * snd p)%float) l.

(** The cosine formula in double arithmetic, 0 unless the magnitude is
    greater than 0. *)
Definition cosine (l : list (float * float)) : float :=
  if (0 <? PrimFloat.sqrt (sq1 l) * PrimFloat.sqrt (sq2 l))%float
  then (dot l / (PrimFloat.sqrt (sq1 l) * PrimFloat.sqrt (sq2 l)))%float
  else 0%float.

(** The numeric keys of a record. *)
Definition numericKeys (metrics1 : Metrics) : list string :=
  List.map fst (numericEntries metrics1).

(** A double that is [NaN]. *)
Definition isNaN (x : float) : Prop := Prim2SF x = S754_nan.

End SimilaritySpec.

(** ** Sample metrics records *)

Module BiometricsExamples.
Import Biometrics.

(** A mouse profile of a session and the stored baseline: numbers and a
    nested pattern object. *)
Definition currentMouse : Metrics :=
  [ ("averageVelocity"%string, MNum 120); ("velocityVariation"%string, MNum 0.25);
    ("movementSmoothness"%string, MNum 0) ].

Definition baselineMouse : Metrics :=
  [ ("averageVelocity"%string, MNum 100); ("velocityVariation"%string, MNum 0.5);
    ("movementSmoothness"%string, MNum 0); ("clickTiming"%string, MObj) ].

(** A record of three equal metrics. *)
Definition evenMetrics : Metrics :=
  [ ("a"%string, MNum 1); ("b"%string, MNum 1); ("c"%string, MNum 1) ].

(** A record with one metric too large for its square to be a finite
    double. *)
Definition hugeMetric : Metrics := [ ("a"%string, MNum 0x1p+700) ].

(** A record whose one metric goes by an inherited name. *)
Definition namedConstructor : Metrics := [ ("constructor"%string, MNum 1) ].

End BiometricsExamples.

(** * Further operations of the three classes *)

Module MonitorSweep.
Import RealTimeMonitor.

(** *** Retention *)

(** [cleanupOldData]: one reading of the clock; events and alerts are
    kept when newer than the cutoff, users and risk entries unless older
    than it. *)
Definition cleanupOldData (clock : Z) (m : Monitor) : Monitor :=
  let cutoff := clock - monitoringWindow (config m) in
  {| config := config m;
     activeUsers := filter (fun kv => ~ lastActivity (snd kv) < cutoff) (activeUsers m);
     eventStream := List.filter (fun e => cutoff <? timestamp e) (eventStream m);
     riskScores := filter (fun kv => ~ rs_timestamp (snd kv) < cutoff) (riskScores m);
     alertQueue := List.filter (fun a => cutoff <? al_timestamp a) (alertQueue m);
     processedEvents := processedEvents m;
     alertsSent := alertsSent m |}.

(** *** Aggregate risk *)

(** One turn of [events.map(e => this.calculateRealTimeRisk(e))]: the
    risk entry of the event's user is overwritten, the risk collected. *)
Definition aggregateStep (calcs : list (string * Calculator)) (acc : Monitor * list Q)
  (e : Event) : Monitor * list Q :=
  (fst (calculateRealTimeRisk calcs (fst acc) e),
   snd acc ++ [snd (calculateRealTimeRisk calcs (fst acc) e)]).

(** [risks.reduce((sum, risk) => sum + risk, 0)] *)
Definition sumRisks (risks : list Q) : Q := List.fold_left Qplus risks 0%Q.

(** [calculateAggregateRisk] *)
Definition calculateAggregateRisk (calcs : list (string * Calculator)) (m : Monitor)
  (events : list Event) : Monitor * Q :=
  match events with
  | [] => (m, 0%Q)
  | _ :: _ =>
      let done := List.fold_left (aggregateStep calcs) events (m, []) in
      (fst done, (sumRisks (snd done) / inject_Z (Z.of_nat (List.length (snd done))))%Q)
  end.

(** The three readings of [Date.now()] in one turn of the loop of
    [calculateAggregateRisks]. *)
Record SweepClock := {
  cutoffNow : Z;
  stampNow : Z;
  dayNow : Z
}.

Definition set_riskHistory (h : list RiskHistoryEntry) (p : UserProfile) : UserProfile :=
  {| up_userId := up_userId p; firstSeen := firstSeen p; lastActivity := lastActivity p;
     eventCount := eventCount p; behaviorMetrics := behaviorMetrics p; riskHistory := h |}.

(** The body of the loop of [calculateAggregateRisks] for the user stored
    under [uid]. *)
Definition aggregateUser (calcs : list (string * Calculator)) (ck : SweepClock)
  (m : Monitor) (uid : string) : Monitor :=
  match activeUsers m !! uid with
  | None => m
  | Some userProfile =>
      let cutoff := cutoffNow ck - monitoringWindow (config m) in
      let recentEvents :=
        List.filter (fun e => String.eqb (userId e) uid && (cutoff <? timestamp e))
          (eventStream m) in
      match recentEvents with
      | [] => m
      | _ :: _ =>
          let aggregate := calculateAggregateRisk calcs m recentEvents in
          let pushed :=
            riskHistory userProfile
            ++ [{| rh_timestamp := stampNow ck; rh_risk := snd aggregate;
                   rh_eventCount := List.length recentEvents |}] in
          let dayAgo := dayNow ck - 24 * 60 * 60 * 1000 in
          set_activeUsers
            (<[uid := set_riskHistory
                        (List.filter (fun r => dayAgo <? rh_timestamp r) pushed) userProfile]>
               (activeUsers (fst aggregate)))
            (fst aggregate)
      end
  end.

(** [calculateAggregateRisks]: the loop over [this.activeUsers].  The
    order in which the Map yields its users is not recorded by a [gmap];
    they are visited in the order of [map_to_list], each turn reading its
    own clock. *)
Definition calculateAggregateRisks (calcs : list (string * Calculator))
  (clockOf : string -> SweepClock) (m : Monitor) : Monitor :=
  List.fold_left (fun acc uid => aggregateUser calcs (clockOf uid) acc uid)
    (List.map fst (map_to_list (activeUsers m))) m.

(** *** Runs *)

(** A sequence of calls of [processIncomingEvent], each with what it
    reads from outside. *)
Definition ingest (calcs : list (string * Calculator)) (steps : list (Env * Event))
  (m : Monitor) : Monitor :=
  List.fold_left (fun acc step => fst (processIncomingEvent calcs (fst step) acc (snd step)))
    steps m.

End MonitorSweep.

Module SweepSpec.
Import RealTimeMonitor MonitorSweep.

(** The events of user [uid] among the steps of a run, and those of one
    type. *)
Definition eventsOf (uid : string) (steps : list (Env * Event)) : nat :=
  List.length (List.filter (fun step => String.eqb (userId (snd step)) uid) steps).

Definition eventsOfType (uid t : string) (steps : list (Env * Event)) : nat :=
  List.length
    (List.filter (fun step => String.eqb (userId (snd step)) uid
                              && String.eqb (type (snd step)) t) steps).

(** The name [generateRecommendations] gives the priority of a
    severity. *)
Definition severityName (s : Severity) : string :=
  match s with
  | critical => "critical"
  | high => "high"
  | medium => "medium"
  | low => "low"
  end.

(** The counters of a profile, or zeros when there is none. *)
Definition countersOf (o : option UserProfile) : nat * nat * nat :=
  match o with
  | Some p => (eventCount p, locationChanges (behaviorMetrics p),
               deviceSwitches (behaviorMetrics p))
  | None => (0, 0, 0)%nat
  end.

(** The location changes of user [uid] in a store. *)
Definition locationChangesOf (uid : string) (store : list Event) : list Event :=
  List.filter (fun x => String.eqb (userId x) uid && String.eqb (type x) "location_change")
    store.

(** What the aggregation leaves alone: everything but the live risk
    entries. *)
Definition sameButRiskScores (m m' : Monitor) : Prop :=
  config m' = config m /\ activeUsers m' = activeUsers m /\ eventStream m' = eventStream m
  /\ alertQueue m' = alertQueue m /\ processedEvents m' = processedEvents m
  /\ alertsSent m' = alertsSent m.

(** What one turn of the periodic aggregation leaves alone: the event
    store, the alerts and counters, the set of users and everything on a
    profile but its risk history. *)
Definition sameButHistory (m m' : Monitor) : Prop :=
  config m' = config m /\ eventStream m' = eventStream m
  /\ alertQueue m' = alertQueue m /\ alertsSent m' = alertsSent m
  /\ processedEvents m' = processedEvents m
  /\ (forall uid,
        set_riskHistory [] <$> (activeUsers m' !! uid)
        = set_riskHistory [] <$> (activeUsers m !! uid)).

(** A first location change of a user the monitor has not seen. *)
Definition firstMove : Event :=
  {| eventId := "e1"; userId := "user_001"; type := "location_change"; timestamp := 100000;
     amount := None; loginAttempts := None |}.

End SweepSpec.

Module NetworkProfiles.
Import NetworkAnalyzer.

(** *** Fingerprint similarity *)

(** The loop of [calculateFingerprintSimilarity]: the positions, up to the
    shorter length, at which the two strings hold the same character. *)
Fixpoint matchingPositions (fingerprint1 fingerprint2 : string) : nat :=
  match fingerprint1, fingerprint2 with
  | String a rest1, String b rest2 =>
      (if Ascii.eqb a b then 1 else 0) + matchingPositions rest1 rest2
  | _, _ => 0
  end.

(** [calculateFingerprintSimilarity]: [matches / total]; for two empty
    strings this is [0 / 0], that is [NaN] ([None]). *)
Definition calculateFingerprintSimilarity (fingerprint1 fingerprint2 : string) : option Q :=
  let matches := matchingPositions fingerprint1 fingerprint2 in
  let total := Nat.max (String.length fingerprint1) (String.length fingerprint2) in
  match total with
  | O => None
  | S _ => Some (inject_Z (Z.of_nat matches) / inject_Z (Z.of_nat total))%Q
  end.

(** An entry of the result of [findSimilarFingerprints]. *)
Record SimilarFingerprint := {
  sf_fingerprint : string;
  sf_similarity : Q;
  sf_users : gset string
}.

(** [findSimilarFingerprints], over [config.deviceFingerprintSimilarity];
    a comparison with [NaN] is false. *)
Definition findSimilarFingerprints (deviceFingerprintSimilarity : Q)
  (deviceFingerprints : list (string * DeviceProfile)) (targetFingerprint : string)
  : list SimilarFingerprint :=
  List.flat_map
    (fun entry =>
       if String.eqb (fst entry) targetFingerprint then []
       else
         match calculateFingerprintSimilarity targetFingerprint (fst entry) with
         | Some similarity =>
             if Qgeb similarity deviceFingerprintSimilarity
             then [{| sf_fingerprint := fst entry; sf_similarity := similarity;
                      sf_users := dev_users (snd entry) |}]
             else []
         | None => []
         end)
    deviceFingerprints.

(** *** Network profiles *)

Record Location := {
  country : string;
  region : string;
  city : string;
  latitude : Q;
  longitude : Q;
  loc_timezone : string
}.

Record NetworkPatterns := {
  preferredIPs : gset string;
  preferredDevices : gset string;
  typicalLocations : gset string
}.

Record NetworkProfile := {
  np_userId : string;
  createdAt : Z;
  ipHistory : list (string * Z);
  deviceHistory : list (string * Z);
  locationHistory : list (Location * Z);
  networkPatterns : NetworkPatterns
}.

(** The two fields of the extracted network information that the profile
    update reads. *)
Record NetworkInfo := {
  ni_ipAddress : string;
  ni_browserFingerprint : string
}.

(** [array.slice(-n)]: the last [n] elements, all of them when there are
    fewer. *)
Definition sliceLast {A} (n : nat) (l : list A) : list A :=
  skipn (List.length l - n) l.

Definition maxHistorySize : nat := 100.

(** [if (h.length > maxHistorySize) h = h.slice(-maxHistorySize)] *)
Definition capHistory {A} (h : list A) : list A :=
  if (maxHistorySize <? List.length h)%nat then sliceLast maxHistorySize h else h.

(** [maintainHistorySize] *)
Definition maintainHistorySize (profile : NetworkProfile) : NetworkProfile :=
  {| np_userId := np_userId profile;
     createdAt := createdAt profile;
     ipHistory := capHistory (ipHistory profile);
     deviceHistory := capHistory (deviceHistory profile);
     locationHistory := capHistory (locationHistory profile);
     networkPatterns := networkPatterns profile |}.

(** The readings of [Date.now()] in [updateUserNetworkProfile]. *)
Record ProfileClock := {
  createdNow : Z;
  ipNow : Z;
  deviceNow : Z;
  locationNow : Z
}.

Definition newNetworkProfile (ck : ProfileClock) (userId : string) : NetworkProfile :=
  {| np_userId := userId; createdAt := createdNow ck;
     ipHistory := []; deviceHistory := []; locationHistory := [];
     networkPatterns :=
       {| preferredIPs := ∅; preferredDevices := ∅; typicalLocations := ∅ |} |}.

(** The template string [`${location.country}_${location.city}`]. *)
Definition locationKey (l : Location) : string :=
  (country l ++ "_" ++ city l)%string.

(** [updateUserNetworkProfile].  The geolocation lookup
    [geoAnalyzer.getLocation] reads the [geoip-lite] database; it is the
    parameter [getLocation]. *)
Definition updateUserNetworkProfile (getLocation : string -> option Location)
  (ck : ProfileClock) (profiles : gmap string NetworkProfile) (userId : string)
  (networkInfo : NetworkInfo) : gmap string NetworkProfile :=
  let profile :=
    match profiles !! userId with
    | Some p => p
    | None => newNetworkProfile ck userId
    end in
  let location := getLocation (ni_ipAddress networkInfo) in
  let pushed :=
    {| np_userId := np_userId profile;
       createdAt := createdAt profile;
       ipHistory := ipHistory profile ++ [(ni_ipAddress networkInfo, ipNow ck)];
       deviceHistory :=
         deviceHistory profile ++ [(ni_browserFingerprint networkInfo, deviceNow ck)];
       locationHistory :=
         match location with
         | Some l => locationHistory profile ++ [(l, locationNow ck)]
         | None => locationHistory profile
         end;
       networkPatterns :=
         {| preferredIPs :=
              preferredIPs (networkPatterns profile) ∪ {[ ni_ipAddress networkInfo ]};
            preferredDevices :=
              preferredDevices (networkPatterns profile)
              ∪ {[ ni_browserFingerprint networkInfo ]};
            typicalLocations :=
              match location with
              | Some l => typicalLocations (networkPatterns profile) ∪ {[ locationKey l ]}
              | None => typicalLocations (networkPatterns profile)
              end |} |} in
  <[userId := maintainHistorySize pushed]> profiles.

(** *** IP clusters *)

(** The answers of the proxy detector and of the reputation check, which
    [analyzeIPBehavior] awaits and copies into its result. *)
Record DetectorAnswers := {
  da_isProxy : bool;
  da_isVPN : bool;
  da_isTor : bool
}.

(** The fields of the result of [analyzeIPBehavior] that are computed
    from the cluster or copied from the detector. *)
Record IPAnalysis := {
  ia_sharedUsers : nat;
  ia_isSharedIP : bool;
  ia_isProxy : bool;
  ia_isVPN : bool;
  ia_isTor : bool
}.

(** The two readings of [Date.now()] in [analyzeIPBehavior]: when a
    cluster is created, and when it is last seen. *)
Record ClusterClock := {
  clusterCreatedNow : Z;
  clusterSeenNow : Z
}.

(** The cluster of [ipAddress] after the visit of [userId]:
    [ipCluster.users.add(userId)], [lastSeen] refreshed, and [riskScore]
    set to what [calculateIPRiskScore] returns, which is 0. *)
Definition visitCluster (ck : ClusterClock) (ipAddress userId : string)
  (existing : option IPCluster) : IPCluster :=
  match existing with
  | Some c =>
      {| NetworkAnalyzer.ipAddress := NetworkAnalyzer.ipAddress c;
         ip_users := ip_users c ∪ {[ userId ]};
         ip_firstSeen := ip_firstSeen c;
         ip_lastSeen := clusterSeenNow ck;
         ip_riskScore := 0%Q |}
  | None =>
      {| NetworkAnalyzer.ipAddress := ipAddress;
         ip_users := {[ userId ]};
         ip_firstSeen := clusterCreatedNow ck;
         ip_lastSeen := clusterSeenNow ck;
         ip_riskScore := 0%Q |}
  end.

(** [Map.get] on the cluster map. *)
Fixpoint getCluster (ipAddress : string) (clusters : list (string * IPCluster))
  : option IPCluster :=
  match clusters with
  | [] => None
  | (k, c) :: rest => if String.eqb k ipAddress then Some c else getCluster ipAddress rest
  end.

(** [Map.set] on the cluster map: an existing key keeps its place, a new
    one goes last. *)
Fixpoint setCluster (ipAddress : string) (c : IPCluster) (clusters : list (string * IPCluster))
  : list (string * IPCluster) :=
  match clusters with
  | [] => [(ipAddress, c)]
  | (k, old) :: rest =>
      if String.eqb k ipAddress then (k, c) :: rest
      else (k, old) :: setCluster ipAddress c rest
  end.

(** [analyzeIPBehavior]: the cluster map after the visit, and the
    analysis. *)
Definition analyzeIPBehavior (suspiciousNetworkThreshold : Z) (detector : DetectorAnswers)
  (ck : ClusterClock) (clusters : list (string * IPCluster)) (userId ipAddress : string)
  : list (string * IPCluster) * IPAnalysis :=
  let ipCluster := visitCluster ck ipAddress userId (getCluster ipAddress clusters) in
  (setCluster ipAddress ipCluster clusters,
   {| ia_sharedUsers := size (ip_users ipCluster);
      ia_isSharedIP := suspiciousNetworkThreshold <? Z.of_nat (size (ip_users ipCluster));
      ia_isProxy := da_isProxy detector;
      ia_isVPN := da_isVPN detector;
      ia_isTor := da_isTor detector |}).

(** The IP analysis as [calculateCategoryRisk] reads it: the fields it
    does not hold are [undefined]. *)
Definition ipIndicators (a : IPAnalysis) : Indicators :=
  {| isSharedIP := ia_isSharedIP a;
     isProxy := ia_isProxy a;
     isVPN := ia_isVPN a;
     isTor := ia_isTor a;
     sharedUsers := Some (inject_Z (Z.of_nat (ia_sharedUsers a)));
     automationSigns := false;
     spoofingIndicators := None;
     impossibleTravel := false;
     rapidMovement := false;
     isCoordinated := false;
     coordinationScore := None |}.

(** A sequence of visits to one address. *)
Definition visitAll (suspiciousNetworkThreshold : Z) (detector : DetectorAnswers)
  (ck : ClusterClock) (ipAddress : string) (users : list string)
  (clusters : list (string * IPCluster)) : list (string * IPCluster) :=
  List.fold_left
    (fun acc userId =>
       fst (analyzeIPBehavior suspiciousNetworkThreshold detector ck acc userId ipAddress))
    users clusters.

(** A run of [updateUserNetworkProfile]. *)
Definition updateProfiles (getLocation : string -> option Location)
  (visits : list (ProfileClock * string * NetworkInfo))
  (profiles : gmap string NetworkProfile) : gmap string NetworkProfile :=
  List.fold_left
    (fun acc v => updateUserNetworkProfile getLocation (fst (fst v)) acc (snd (fst v)) (snd v))
    visits profiles.

End NetworkProfiles.

Module ProfilesSpec.
Import NetworkAnalyzer NetworkProfiles.

(** The visits recorded for one user, oldest first. *)
Definition visitsOf (userId : string) (visits : list (ProfileClock * string * NetworkInfo))
  : list (ProfileClock * NetworkInfo) :=
  List.flat_map (fun v => if String.eqb (snd (fst v)) userId then [(fst (fst v), snd v)] else [])
    visits.

(** The state of one user's profile that a list of that user's visits
    determines. *)
Definition locationsOf (getLocation : string -> option Location)
  (visits : list (ProfileClock * NetworkInfo)) : list (Location * Z) :=
  List.flat_map
    (fun v => match getLocation (ni_ipAddress (snd v)) with
              | Some l => [(l, locationNow (fst v))]
              | None => []
              end) visits.

Definition profileMatches (getLocation : string -> option Location) (userId : string)
  (mine : list (ProfileClock * NetworkInfo)) (p : NetworkProfile) : Prop :=
  np_userId p = userId
  /\ ipHistory p
     = sliceLast 100 (List.map (fun v => (ni_ipAddress (snd v), ipNow (fst v))) mine)
  /\ deviceHistory p
     = sliceLast 100 (List.map (fun v => (ni_browserFingerprint (snd v), deviceNow (fst v))) mine)
  /\ locationHistory p = sliceLast 100 (locationsOf getLocation mine)
  /\ preferredIPs (networkPatterns p)
     = list_to_set (List.map (fun v => ni_ipAddress (snd v)) mine)
  /\ preferredDevices (networkPatterns p)
     = list_to_set (List.map (fun v => ni_browserFingerprint (snd v)) mine)
  /\ typicalLocations (networkPatterns p)
     = list_to_set (List.map (fun l => locationKey (fst l)) (locationsOf getLocation mine)).

(** The users recorded for an address; none when it has no cluster. *)
Definition usersAt (ipAddress : string) (clusters : list (string * IPCluster)) : gset string :=
  from_option ip_users ∅ (getCluster ipAddress clusters).

(** An analysis that raises none of the indicators [calculateCategoryRisk]
    reads. *)
Definition quietIndicators (indicators : option Indicators) : bool :=
  match indicators with
  | None => true
  | Some i =>
      negb (isSharedIP i) && negb (isProxy i)
      && negb (isVPN i) && negb (isTor i)
      && negb (gtSome (sharedUsers i) 5)
      && negb (automationSigns i)
      && negb (nonEmpty (spoofingIndicators i))
      && negb (impossibleTravel i) && negb (rapidMovement i)
      && negb (isCoordinated i)
      && negb (gtSome (coordinationScore i) 0.5)
  end.

(** The analysis of an address that six users share, and a set of
    categories that holds it. *)
Definition crowdedAddress : IPAnalysis :=
  {| ia_sharedUsers := 6; ia_isSharedIP := true;
     ia_isProxy := false; ia_isVPN := false; ia_isTor := false |}.

Definition crowdedIndicators : list (string * option Indicators) :=
  [ ("ipAnalysis"%string, Some (ipIndicators crowdedAddress));
    ("geolocation"%string, None) ].

End ProfilesSpec.

Module BiometricsHelpers.
Import Biometrics.

(** *** Keystroke timing *)

(** A collected keystroke, with the fields the timing helpers read. *)
Record KeystrokeRecord := {
  ks_timestamp : Z;
  ks_key : string;
  ks_type : string
}.

(** The keystroke event being collected. *)
Record KeystrokeEvent := {
  ke_timestamp : Z;
  ke_key : string;
  ke_type : string
}.

(** The loop [for (let i = data.length - 1; i >= 0; i--)] that returns at
    the first record passing [test]. *)
Definition findLast {A} (test : A -> bool) (data : list A) : option A :=
  List.find test (List.rev data).

(** [calculateDwellTime]; [None] is [null]. *)
Definition calculateDwellTime (keystrokeData : list KeystrokeRecord)
  (currentEvent : KeystrokeEvent) : option Z :=
  if negb (String.eqb (ke_type currentEvent) "keyup") then None
  else
    match findLast (fun event => String.eqb (ks_key event) (ke_key currentEvent)
                                 && String.eqb (ks_type event) "keydown") keystrokeData with
    | Some event => Some (ke_timestamp currentEvent - ks_timestamp event)
    | None => None
    end.

(** [calculateFlightTime] *)
Definition calculateFlightTime (keystrokeData : list KeystrokeRecord)
  (currentEvent : KeystrokeEvent) : option Z :=
  if negb (String.eqb (ke_type currentEvent) "keydown")
     || Nat.eqb (List.length keystrokeData) 0
  then None
  else
    match findLast (fun event => String.eqb (ks_type event) "keyup") keystrokeData with
    | Some event => Some (ke_timestamp currentEvent - ks_timestamp event)
    | None => None
    end.

(** *** Data window *)

(** [maintainDataWindow]: [splice(0, length - maxDataPoints)] when the
    array is longer than three times [config.minDataPoints]. *)
Definition maintainDataWindow {A} (minDataPoints : nat) (dataArray : list A) : list A :=
  let maxDataPoints := (minDataPoints * 3)%nat in
  if (maxDataPoints <? List.length dataArray)%nat
  then skipn (List.length dataArray - maxDataPoints) dataArray
  else dataArray.

(** *** Averages *)



(** [MouseMovementAnalyzer.calculateAverageVelocity], over the [velocity]
    of each sample. *)
Definition calculateAverageVelocity (mouseData : list Q) : Q :=
  let velocities := List.filter (fun v => Qgtb v 0) mouseData in
  if (0 <? List.length velocities)%nat
  then (List.fold_left Qplus velocities 0 / inject_Z (Z.of_nat (List.length velocities)))%Q
  else 0%Q.


(** The [intervals] of [calculateTypingRhythm]: the differences of
    consecutive timestamps. *)
Fixpoint intervalsOf (timestamps : list Z) : list Z :=
  match timestamps with
  | [] => []
  | previous :: rest =>
      match rest with
      | [] => []
      | current :: _ => (current - previous) :: intervalsOf rest
      end
  end.

(** [KeystrokeDynamicsAnalyzer.calculateTypingRhythm], over the real
    numbers. *)
Definition calculateTypingRhythm (keystrokeData : list KeystrokeRecord) : R :=
  let intervals :=
    List.map IZR (intervalsOf (List.map ks_timestamp keystrokeData)) in
  if (List.length intervals <? 2)%nat then 0%R
  else
    let avg := (List.fold_left Rplus intervals 0 / INR (List.length intervals))%R in
    let variance :=
      (List.fold_left (fun sum i => sum + (i - avg) ^ 2) intervals 0
       / INR (List.length intervals))%R in
    (1 / (1 + sqrt variance))%R.

End BiometricsHelpers.

Module KeystrokeSpec.
Import BiometricsHelpers.




(** The positive velocities, and their sum from the left. *)
Definition positiveVelocities (mouseData : list Q) : list Q :=
  List.filter (fun v => Qgtb v 0) mouseData.

Definition totalVelocity (mouseData : list Q) : Q :=
  List.fold_left Qplus (positiveVelocities mouseData) 0%Q.

End KeystrokeSpec.

Module MLDetector.

(** [MLFraudDetector]'s [riskThresholds]. *)
Record RiskThresholds := {
  th_low : Q;
  th_medium : Q;
  th_high : Q;
  th_critical : Q
}.

Definition riskThresholds : RiskThresholds :=
  {| th_low := 0.3; th_medium := 0.6; th_high := 0.8; th_critical := 0.9 |}.

Inductive RiskLevel := lvl_critical | lvl_high | lvl_medium | lvl_low | lvl_very_low.

(** [getRiskLevel] *)
Definition getRiskLevel (t : RiskThresholds) (score : Q) : RiskLevel :=
  if Qgeb score (th_critical t) then lvl_critical
  else if Qgeb score (th_high t) then lvl_high
  else if Qgeb score (th_medium t) then lvl_medium
  else if Qgeb score (th_low t) then lvl_low
  else lvl_very_low.

(** [generateRecommendations] of the detector. *)
Definition generateRecommendations (t : RiskThresholds) (score : Q) : list string :=
  if Qgtb score (th_critical t)
  then ["IMMEDIATE_BLOCK"; "MANUAL_REVIEW"; "IDENTITY_VERIFICATION"]%string
  else if Qgtb score (th_high t)
  then ["ENHANCED_MONITORING"; "TRANSACTION_LIMITS"; "ADDITIONAL_VERIFICATION"]%string
  else if Qgtb score (th_medium t)
  then ["INCREASED_MONITORING"; "CAPTCHA_VERIFICATION"]%string
  else if Qgtb score (th_low t)
  then ["STANDARD_MONITORING"]%string
  else ["NORMAL_PROCESSING"]%string.

(** The [weights] of [calculateCompositeScore]. *)
Definition scoreWeights : list (string * Q) :=
  [ ("anomaly", 0.25%Q); ("behavior", 0.30%Q); ("network", 0.20%Q);
    ("biometric", 0.15%Q); ("temporal", 0.10%Q) ]%string.

(** [weights[type]]: a number for the five analysis names; for any other
    name [undefined] or an inherited function, with which the sums become
    [NaN] ([None]). *)
Definition scoreWeight (type : string) : option Q :=
  NetworkAnalyzer.assoc type scoreWeights.

(** One turn of the loop of [calculateCompositeScore]; a score that is
    [null], [undefined] or [NaN] is [None] and is passed over. *)
Definition compositeStep (acc : option (Q * Q)) (entry : string * option Q)
  : option (Q * Q) :=
  match snd entry with
  | None => acc
  | Some score =>
      match acc, scoreWeight (fst entry) with
      | Some (compositeScore, totalWeight), Some w =>
          Some ((compositeScore + score * w)%Q, (totalWeight + w)%Q)
      | _, _ => None
      end
  end.

(** [calculateCompositeScore]: the test [totalWeight > 0] fails on [NaN],
    and the neutral 0.5 is returned. *)
Definition calculateCompositeScore (scores : list (string * option Q)) : Q :=
  match List.fold_left compositeStep scores (Some (0%Q, 0%Q)) with
  | Some (compositeScore, totalWeight) =>
      if Qgtb totalWeight 0 then (compositeScore / totalWeight)%Q else 0.5%Q
  | None => 0.5%Q
  end.

End MLDetector.

Module DetectorSpec.
Import MLDetector.

(** The recommendations that go with a risk level. *)
Definition recommendationsFor (level : RiskLevel) : list string :=
  match level with
  | lvl_critical => ["IMMEDIATE_BLOCK"; "MANUAL_REVIEW"; "IDENTITY_VERIFICATION"]
  | lvl_high => ["ENHANCED_MONITORING"; "TRANSACTION_LIMITS"; "ADDITIONAL_VERIFICATION"]
  | lvl_medium => ["INCREASED_MONITORING"; "CAPTCHA_VERIFICATION"]
  | lvl_low => ["STANDARD_MONITORING"]
  | lvl_very_low => ["NORMAL_PROCESSING"]
  end%string.

(** The level below a level. *)
Definition levelBelow (level : RiskLevel) : RiskLevel :=
  match level with
  | lvl_critical => lvl_high
  | lvl_high => lvl_medium
  | lvl_medium => lvl_low
  | _ => lvl_very_low
  end.

(** A score that is one of the four thresholds. *)
Definition onThreshold (t : RiskThresholds) (score : Q) : bool :=
  Qeq_bool score (th_low t) || Qeq_bool score (th_medium t)
  || Qeq_bool score (th_high t) || Qeq_bool score (th_critical t).

(** The two sums of [calculateCompositeScore] over the scores that are
    present, added from the left. *)
Definition weightedTotal (scores : list (string * option Q)) : Q :=
  List.fold_left
    (fun acc entry =>
       match snd entry, scoreWeight (fst entry) with
       | Some score, Some w => (acc + score * w)%Q
       | _, _ => acc
       end) scores 0%Q.

Definition weightTotal (scores : list (string * option Q)) : Q :=
  List.fold_left
    (fun acc entry =>
       match snd entry, scoreWeight (fst entry) with
       | Some _, Some w => (acc + w)%Q
       | _, _ => acc
       end) scores 0%Q.

End DetectorSpec.

(** * Properties of the real-time monitor *)

Section CompositeScore.
Import RealTimeMonitor MonitorSpec.
Local Open Scope Q_scope.

Lemma Qgtb_true (a b : Q) : Qgtb a b = true <-> b < a.
Proof.
  unfold Qgtb. rewrite negb_true_iff. split.
  - intros H. apply Qnot_le_lt. intros Hle. apply Qle_bool_iff in Hle. congruence.
  - intros H. destruct (Qle_bool a b) eqn:E; [|reflexivity].
    apply Qle_bool_iff in E. exfalso. exact (Qlt_not_le _ _ H E).
Qed.

Lemma Qgtb_false (a b : Q) : Qgtb a b = false <-> a <= b.
Proof.
  unfold Qgtb. rewrite negb_false_iff. apply Qle_bool_iff.
Qed.

Lemma Qgeb_true (a b : Q) : Qgeb a b = true <-> b <= a.
Proof. unfold Qgeb. apply Qle_bool_iff. Qed.

Lemma Qgeb_false (a b : Q) : Qgeb a b = false <-> a < b.
Proof.
  unfold Qgeb. split.
  - intros H. apply Qnot_le_lt. intros Hle. apply Qle_bool_iff in Hle. congruence.
  - intros H. destruct (Qle_bool b a) eqn:E; [|reflexivity].
    apply Qle_bool_iff in E. exfalso. exact (Qlt_not_le _ _ H E).
Qed.

#[local] Instance Qgtb_proper : Proper (Qeq ==> Qeq ==> eq) Qgtb.
Proof. intros a a' Ha b b' Hb. unfold Qgtb. now rewrite Ha, Hb. Qed.

(** The loop of [calculateRealTimeRisk] adds, to each accumulator, the sum
    over the calculators that returned. *)
Lemma riskStep_fold (m : Monitor) (e : Event) (calcs : list (string * Calculator)) :
  forall acc : Q * Q,
    fst (List.fold_left (riskStep m e) calcs acc)
      == fst acc + sumRiskWeight (succeeded calcs m e)
    /\ snd (List.fold_left (riskStep m e) calcs acc)
      == snd acc + sumWeight (succeeded calcs m e).
Proof.
  induction calcs as [|c rest IH]; intros acc; simpl.
  - split; ring.
  - unfold riskStep at 2 4. destruct (snd c m e) as [r|]; simpl.
    + destruct (IH ((fst acc + risk r * weight r), (snd acc + weight r))) as [H1 H2].
      simpl in H1, H2. split; [rewrite H1 | rewrite H2]; ring.
    + apply IH.
Qed.

Lemma calculateRealTimeRisk_average (calcs : list (string * Calculator)) (m : Monitor) (e : Event) :
  snd (calculateRealTimeRisk calcs m e) == weightNormalizedAverage (succeeded calcs m e).
Proof.
  unfold calculateRealTimeRisk, weightNormalizedAverage. simpl.
  destruct (riskStep_fold m e calcs (0, 0)) as [H1 H2]. simpl in H1, H2.
  rewrite Qplus_0_l in H1, H2.
  rewrite H2.
  destruct (Qgtb (sumWeight (succeeded calcs m e)) 0); [|reflexivity].
  now rewrite H1, H2.
Qed.

Lemma sums_bounded (rs : list RiskResult) :
  Forall boundedResult rs ->
  0 <= sumRiskWeight rs /\ sumRiskWeight rs <= sumWeight rs.
Proof.
  induction 1 as [|r rs [H0 [H1 Hw]] _ [IH0 IH1]]; simpl.
  - split; apply Qle_refl.
  - split; nra.
Qed.

Lemma average_bounded (rs : list RiskResult) :
  Forall boundedResult rs ->
  0 <= weightNormalizedAverage rs /\ weightNormalizedAverage rs <= 1.
Proof.
  intros H. destruct (sums_bounded rs H) as [H0 H1].
  unfold weightNormalizedAverage.
  destruct (Qgtb (sumWeight rs) 0) eqn:E.
  - apply Qgtb_true in E. split.
    + apply Qle_shift_div_l; [exact E|]. now rewrite Qmult_0_l.
    + apply Qle_shift_div_r; [exact E|]. now rewrite Qmult_1_l.
  - split; [apply Qle_refl | discriminate].
Qed.

End CompositeScore.

Section FiveCalculators.
Import RealTimeMonitor MonitorSpec.
Local Open Scope Q_scope.

Lemma capped_ratio_bounds (n : nat) (k : Q) :
  0 < k -> 0 <= Qmin (inject_Z (Z.of_nat n) / k) 1 /\ Qmin (inject_Z (Z.of_nat n) / k) 1 <= 1.
Proof.
  intros Hk. split.
  - apply Q.min_glb; [|discriminate].
    apply Qle_shift_div_l; [exact Hk|]. rewrite Qmult_0_l.
    change 0 with (inject_Z 0). rewrite <- Zle_Qle. lia.
  - apply Q.le_min_r.
Qed.

Lemma unknown_bounded : boundedResult {| risk := 0; weight := 1 |}.
Proof. repeat split; simpl; discriminate. Qed.

Lemma calculateVelocityRisk_bounded m e : boundedResult (calculateVelocityRisk m e).
Proof.
  unfold calculateVelocityRisk. destruct (activeUsers m !! userId e); [|apply unknown_bounded].
  unfold boundedResult; simpl.
  pose proof (capped_ratio_bounds
    (List.length (List.filter (fun e0 => String.eqb (userId e0) (userId e)
       && (timestamp e - 60000 <? timestamp e0)%Z) (eventStream m))) 10 eq_refl) as [? ?].
  repeat split; try assumption; discriminate.
Qed.

Lemma calculatePatternRisk_bounded m e : boundedResult (calculatePatternRisk m e).
Proof.
  unfold calculatePatternRisk. destruct (activeUsers m !! userId e) as [p|]; [|apply unknown_bounded].
  unfold boundedResult; simpl.
  pose proof (capped_ratio_bounds (List.length (suspiciousActions (behaviorMetrics p))) 5 eq_refl)
    as [? ?].
  repeat split; try assumption; discriminate.
Qed.

Lemma calculateLocationRisk_bounded m e : boundedResult (calculateLocationRisk m e).
Proof.
  unfold calculateLocationRisk.
  destruct (negb (String.eqb (type e) "location_change")); [apply unknown_bounded|].
  destruct (activeUsers m !! userId e) as [p|]; [|apply unknown_bounded].
  unfold boundedResult; simpl.
  pose proof (capped_ratio_bounds (locationChanges (behaviorMetrics p)) 3 eq_refl) as [? ?].
  repeat split; try assumption; discriminate.
Qed.

Lemma calculateDeviceRisk_bounded m e : boundedResult (calculateDeviceRisk m e).
Proof.
  unfold calculateDeviceRisk. destruct (activeUsers m !! userId e) as [p|]; [|apply unknown_bounded].
  unfold boundedResult; simpl.
  pose proof (capped_ratio_bounds (deviceSwitches (behaviorMetrics p)) 2 eq_refl) as [? ?].
  repeat split; try assumption; discriminate.
Qed.

Lemma calculateBehaviorRisk_bounded m e : boundedResult (calculateBehaviorRisk m e).
Proof.
  unfold calculateBehaviorRisk. destruct (activeUsers m !! userId e) as [p|]; [|apply unknown_bounded].
  unfold boundedResult; simpl.
  pose proof (capped_ratio_bounds (bettingVelocity (behaviorMetrics p)) 100 eq_refl) as [? ?].
  repeat split; try assumption; discriminate.
Qed.

Lemma succeeded_bounded calcs m e :
  boundedCalculators calcs m e -> Forall boundedResult (succeeded calcs m e).
Proof.
  induction 1 as [|c rest Hc _ IH]; [constructor|].
  cbn [succeeded]. destruct (snd c m e) as [r|]; [constructor; auto | exact IH].
Qed.

Lemma riskCalculators_bounded m e : boundedCalculators riskCalculators m e.
Proof.
  unfold boundedCalculators, riskCalculators.
  repeat (constructor; [simpl; intros r [= <-]|]); [..|constructor].
  - apply calculateVelocityRisk_bounded.
  - apply calculatePatternRisk_bounded.
  - apply calculateLocationRisk_bounded.
  - apply calculateDeviceRisk_bounded.
  - apply calculateBehaviorRisk_bounded.
Qed.

Lemma withOutage_bounded down calcs m e :
  boundedCalculators calcs m e -> boundedCalculators (withOutage down calcs) m e.
Proof.
  induction 1 as [|c rest Hc _ IH]; simpl; constructor; [|exact IH].
  destruct (down (fst c)); [simpl; unfold throwing; discriminate | exact Hc].
Qed.

(** Under an outage, the calculators that return are those that are not
    down, with the answers they give without the outage. *)
Lemma succeeded_withOutage down calcs m e :
  succeeded (withOutage down calcs) m e
  = succeeded (List.filter (fun c => negb (down (fst c))) calcs) m e.
Proof.
  induction calcs as [|c rest IH]; simpl; [reflexivity|].
  destruct (down (fst c)); simpl; [exact IH|].
  destruct (snd c m e); [f_equal|]; exact IH.
Qed.

Lemma succeeded_all_down down calcs m e :
  forallb (fun c => down (fst c)) calcs = true ->
  succeeded (withOutage down calcs) m e = [].
Proof.
  induction calcs as [|c rest IH]; simpl; [reflexivity|].
  intros H. apply andb_true_iff in H as [Hc Hr]. rewrite Hc. simpl. auto.
Qed.

Lemma calculateRealTimeRisk_none calcs m e :
  succeeded calcs m e = [] -> snd (calculateRealTimeRisk calcs m e) = 0.
Proof.
  intros H. unfold calculateRealTimeRisk. simpl.
  assert (Hf : forall acc, List.fold_left (riskStep m e) calcs acc = acc).
  { clear - H. induction calcs as [|c rest IH]; intros acc; simpl; [reflexivity|].
    simpl in H. unfold riskStep at 2. destruct (snd c m e); [discriminate|]. now apply IH. }
  rewrite Hf. reflexivity.
Qed.

(** C1 (as amended).  Whatever subset [down] of the five risk calculators
    throws, the score [calculateRealTimeRisk] returns is the
    weight-normalized average of the answers of the calculators that are
    not down (a calculator that throws adds neither risk nor weight), it
    lies in [0,1], it is 0 when all five throw, and the entry stored in
    [riskScores] holds that score, the event's timestamp and the risk
    factors and nothing else. *)
Theorem calculateRealTimeRisk_composite :
  forall (down : string -> bool) (m : Monitor) (e : Event),
    succeeded (withOutage down riskCalculators) m e
      = succeeded (List.filter (fun c => negb (down (fst c))) riskCalculators) m e
    /\ snd (calculateRealTimeRisk (withOutage down riskCalculators) m e)
       == weightNormalizedAverage
            (succeeded (List.filter (fun c => negb (down (fst c))) riskCalculators) m e)
    /\ 0 <= snd (calculateRealTimeRisk (withOutage down riskCalculators) m e)
    /\ snd (calculateRealTimeRisk (withOutage down riskCalculators) m e) <= 1
    /\ (forallb (fun c => down (fst c)) riskCalculators = true ->
        snd (calculateRealTimeRisk (withOutage down riskCalculators) m e) = 0)
    /\ riskScores (fst (calculateRealTimeRisk (withOutage down riskCalculators) m e))
         !! userId e
       = Some {| score := snd (calculateRealTimeRisk (withOutage down riskCalculators) m e);
                 rs_timestamp := timestamp e;
                 factors := getDetailedRiskFactors m e |}.
Proof.
  intros down m e.
  pose proof (calculateRealTimeRisk_average (withOutage down riskCalculators) m e) as Havg.
  pose proof (average_bounded _
    (succeeded_bounded _ m e (withOutage_bounded down _ m e (riskCalculators_bounded m e))))
    as [H0 H1].
  split; [apply succeeded_withOutage|].
  split; [rewrite <- succeeded_withOutage; exact Havg|].
  split; [rewrite Havg; exact H0|].
  split; [rewrite Havg; exact H1|].
  split.
  - intros Hall. apply calculateRealTimeRisk_none. now apply succeeded_all_down.
  - unfold calculateRealTimeRisk. simpl. apply lookup_insert_eq.
Qed.

End FiveCalculators.

Section CompositeScoreExamples.
Import RealTimeMonitor MonitorSpec MonitorExamples.

(** The theorem at an outage of all five calculators. *)
Lemma calculateRealTimeRisk_composite_witness :
  snd (calculateRealTimeRisk (withOutage allDown riskCalculators)
         (newMonitor defaultConfig) staleLogin) = 0%Q.
Proof.
  apply (calculateRealTimeRisk_composite allDown (newMonitor defaultConfig) staleLogin).
  reflexivity.
Defined.

(** C1, counterexample to the flag.  With all five calculators throwing,
    and with all five answering on a quiet user, [processIncomingEvent]
    yields the same score 0, the same stored risk entry, the same
    profiles and no alert: nothing marks the first run as lacking data. *)
Lemma insufficient_data_not_flagged :
  succeeded (withOutage allDown riskCalculators) (fst outageRun) staleLogin = []
  /\ List.length (succeeded riskCalculators (fst quietRun) staleLogin) = 5%nat
  /\ snd outageRun = 0%Q
  /\ (snd quietRun == 0)%Q
  /\ sameEntry (riskScores (fst outageRun) !! "user_001")
               (riskScores (fst quietRun) !! "user_001")
  /\ activeUsers (fst outageRun) = activeUsers (fst quietRun)
  /\ alertQueue (fst outageRun) = [] /\ alertQueue (fst quietRun) = [].
Proof.
  vm_compute. repeat split; reflexivity.
Qed.

End CompositeScoreExamples.

Section CalculatorResults.
Import RealTimeMonitor MonitorSpec MonitorExamples.
Local Open Scope Q_scope.

Lemma filter_bool_prop {A} (f : A -> bool) (P : A -> Prop) `{!forall x, Decision (P x)}
  (l : list A) :
  (forall x, f x = true <-> P x) -> List.filter f l = filter P l.
Proof.
  intros Hf. induction l as [|x l IH]; [reflexivity|].
  simpl. rewrite filter_cons. destruct (f x) eqn:E.
  - rewrite decide_True by (now apply Hf). now rewrite IH.
  - rewrite decide_False; [exact IH|]. intros HP. apply Hf in HP. congruence.
Qed.

Lemma velocity_count (m : Monitor) (e : Event) :
  List.length (List.filter (fun e0 => String.eqb (userId e0) (userId e)
       && (timestamp e - 60000 <? timestamp e0)%Z) (eventStream m))
  = userEventsSince (eventStream m) (userId e) (timestamp e - 60000).
Proof.
  unfold userEventsSince. f_equal. apply filter_bool_prop. intros x.
  rewrite andb_true_iff, String.eqb_eq, Z.ltb_lt. reflexivity.
Qed.

(** C2 (as amended).  For a user with a profile, velocity, pattern, device
    and behavior risk are the stated capped ratios with weights 0.25,
    0.30, 0.15 and 0.10, the velocity count being the user's events in the
    store with a timestamp above [event.timestamp - 60000]; location risk
    is the capped ratio with weight 0.20 on a [location_change] event and
    risk 0 with weight 1 on any other event; and for a user without a
    profile every calculator returns risk 0 with weight 1. *)
Theorem calculators_results :
  forall (m : Monitor) (e : Event),
    (forall p, activeUsers m !! userId e = Some p ->
       calculateVelocityRisk m e
         = {| risk := Qmin (inject_Z (Z.of_nat
                 (userEventsSince (eventStream m) (userId e) (timestamp e - 60000))) / 10) 1;
              weight := 0.25 |}
       /\ calculatePatternRisk m e
         = {| risk := Qmin (inject_Z (Z.of_nat
                 (List.length (suspiciousActions (behaviorMetrics p)))) / 5) 1;
              weight := 0.3 |}
       /\ (type e = "location_change"%string ->
           calculateLocationRisk m e
           = {| risk := Qmin (inject_Z (Z.of_nat (locationChanges (behaviorMetrics p))) / 3) 1;
                weight := 0.2 |})
       /\ calculateDeviceRisk m e
         = {| risk := Qmin (inject_Z (Z.of_nat (deviceSwitches (behaviorMetrics p))) / 2) 1;
              weight := 0.15 |}
       /\ calculateBehaviorRisk m e
         = {| risk := Qmin (inject_Z (Z.of_nat (bettingVelocity (behaviorMetrics p))) / 100) 1;
              weight := 0.1 |})
    /\ (type e <> "location_change"%string ->
        calculateLocationRisk m e = {| risk := 0; weight := 1 |})
    /\ (activeUsers m !! userId e = None ->
        calculateVelocityRisk m e = {| risk := 0; weight := 1 |}
        /\ calculatePatternRisk m e = {| risk := 0; weight := 1 |}
        /\ calculateLocationRisk m e = {| risk := 0; weight := 1 |}
        /\ calculateDeviceRisk m e = {| risk := 0; weight := 1 |}
        /\ calculateBehaviorRisk m e = {| risk := 0; weight := 1 |}).
Proof.
  intros m e. split; [|split].
  - intros p Hp.
    unfold calculateVelocityRisk, calculatePatternRisk, calculateLocationRisk,
      calculateDeviceRisk, calculateBehaviorRisk.
    rewrite Hp. cbv zeta. rewrite velocity_count.
    repeat split; try reflexivity.
    intros Ht. rewrite Ht. reflexivity.
  - intros Ht. unfold calculateLocationRisk.
    apply String.eqb_neq in Ht. rewrite Ht. reflexivity.
  - intros Hn.
    unfold calculateVelocityRisk, calculatePatternRisk, calculateLocationRisk,
      calculateDeviceRisk, calculateBehaviorRisk.
    rewrite Hn. repeat split; try reflexivity.
    destruct (negb (String.eqb (type e) "location_change")); reflexivity.
Qed.

(** The theorem on the first bet of a user: one event in the last minute,
    no suspicious action, and the location calculator answering with
    weight 1. *)
Lemma calculators_results_witness :
  calculateVelocityRisk afterFirstBet firstBet
    = {| risk := Qmin (inject_Z (Z.of_nat
            (userEventsSince (eventStream afterFirstBet) "user_001" 40000)) / 10) 1;
         weight := 0.25 |}
  /\ calculateLocationRisk afterFirstBet firstBet = {| risk := 0; weight := 1 |}.
Proof.
  destruct (calculators_results afterFirstBet firstBet) as [Hprofile [Hother _]].
  split.
  - destruct (activeUsers afterFirstBet !! userId firstBet) as [p|] eqn:Hp;
      [|vm_compute in Hp; discriminate].
    exact (proj1 (Hprofile p eq_refl)).
  - apply Hother. discriminate.
Defined.

(** C2, counterexample to the constant weights.  On a bet of a user with a
    profile the location calculator returns weight 1, not 0.20; the sum of
    the five weights is then 1.8. *)
Lemma location_weight_not_constant :
  is_Some (activeUsers afterFirstBet !! "user_001")
  /\ calculateLocationRisk afterFirstBet firstBet = {| risk := 0; weight := 1 |}
  /\ Qeq_bool (weight (calculateLocationRisk afterFirstBet firstBet)) 0.2 = false
  /\ (sumWeight (succeeded riskCalculators afterFirstBet firstBet) == 1.8).
Proof.
  split; [vm_compute; eauto|]. vm_compute. repeat split; reflexivity.
Qed.

End CalculatorResults.

Section Ingestion.
Import RealTimeMonitor MonitorSpec.

Lemma processIncomingEvent_activeUsers calcs env m e0 :
  activeUsers (fst (processIncomingEvent calcs env m e0))
  = activeUsers (updateUserBehavior (windowed env m e0) (stampEvent env e0)).
Proof.
  unfold processIncomingEvent, calculateRealTimeRisk. cbv zeta.
  match goal with |- context [if ?c then _ else _] => destruct c end; reflexivity.
Qed.

Lemma processIncomingEvent_eventStream calcs env m e0 :
  eventStream (fst (processIncomingEvent calcs env m e0))
  = List.filter (fun x => windowNow env - monitoringWindow (config m) <? timestamp x)
      (eventStream m ++ [stampEvent env e0]).
Proof.
  unfold processIncomingEvent, calculateRealTimeRisk. cbv zeta.
  match goal with |- context [if ?c then _ else _] => destruct c end; reflexivity.
Qed.

Lemma processIncomingEvent_score calcs env m e0 :
  snd (processIncomingEvent calcs env m e0)
  = snd (calculateRealTimeRisk calcs
           (updateUserBehavior (windowed env m e0) (stampEvent env e0)) (stampEvent env e0)).
Proof.
  unfold processIncomingEvent, calculateRealTimeRisk. cbv zeta.
  match goal with |- context [if ?c then _ else _] => destruct c end; reflexivity.
Qed.

Lemma updateUserBehavior_lookup m e :
  activeUsers (updateUserBehavior m e) !! userId e
  = Some (updateBehaviorMetrics m
            {| up_userId := up_userId (default (newProfile e) (activeUsers m !! userId e));
               firstSeen := firstSeen (default (newProfile e) (activeUsers m !! userId e));
               lastActivity := timestamp e;
               eventCount := S (eventCount (default (newProfile e) (activeUsers m !! userId e)));
               behaviorMetrics :=
                 behaviorMetrics (default (newProfile e) (activeUsers m !! userId e));
               riskHistory := riskHistory (default (newProfile e) (activeUsers m !! userId e)) |}
            e).
Proof.
  unfold updateUserBehavior. simpl. rewrite lookup_insert_eq.
  destruct (activeUsers m !! userId e); reflexivity.
Qed.

Lemma updateUserBehavior_other m e uid :
  uid <> userId e -> activeUsers (updateUserBehavior m e) !! uid = activeUsers m !! uid.
Proof.
  intros Hne. unfold updateUserBehavior. simpl. rewrite lookup_insert_ne; [reflexivity|].
  congruence.
Qed.

Lemma updateUserBehavior_eventStream m e :
  eventStream (updateUserBehavior m e) = eventStream m.
Proof. reflexivity. Qed.

Lemma profilesKeyed_default m e :
  profilesKeyed m -> up_userId (default (newProfile e) (activeUsers m !! userId e)) = userId e.
Proof.
  intros Hk. destruct (activeUsers m !! userId e) as [p|] eqn:Hp; simpl; [|reflexivity].
  now apply Hk.
Qed.

(** The invariant holds initially and every ingested event keeps it. *)
Lemma profilesKeyed_new c : profilesKeyed (newMonitor c).
Proof. intros uid p H. simpl in H. rewrite lookup_empty in H. discriminate. Qed.

Lemma profilesKeyed_updateUserBehavior m e :
  profilesKeyed m -> profilesKeyed (updateUserBehavior m e).
Proof.
  intros Hk uid p. destruct (decide (uid = userId e)) as [->|Hne].
  - rewrite updateUserBehavior_lookup. intros [= <-]. simpl. now apply profilesKeyed_default.
  - rewrite updateUserBehavior_other by exact Hne. apply Hk.
Qed.

Lemma profilesKeyed_processIncomingEvent calcs env m e0 :
  profilesKeyed m -> profilesKeyed (fst (processIncomingEvent calcs env m e0)).
Proof.
  intros Hk uid p. rewrite processIncomingEvent_activeUsers.
  apply profilesKeyed_updateUserBehavior. exact Hk.
Qed.

Lemma calculateBettingVelocity_bet m p e :
  type e = "bet_placed"%string ->
  calculateBettingVelocity m p e = betsSince (eventStream m) (up_userId p) (timestamp e - 60000).
Proof.
  intros Ht. unfold calculateBettingVelocity, betsSince. rewrite Ht. simpl.
  f_equal. apply filter_bool_prop. intros x.
  rewrite !andb_true_iff, !String.eqb_eq, Z.ltb_lt. tauto.
Qed.

Lemma bettingVelocity_push t ts b : bettingVelocity (push_action t ts b) = bettingVelocity b.
Proof. reflexivity. Qed.

Lemma updateBehaviorMetrics_bet m p e :
  type e = "bet_placed"%string ->
  bettingVelocity (behaviorMetrics (updateBehaviorMetrics m p e))
  = betsSince (eventStream m) (up_userId p) (timestamp e - 60000).
Proof.
  intros Ht. unfold updateBehaviorMetrics, updateMetricsByType. rewrite Ht. simpl.
  rewrite <- (calculateBettingVelocity_bet m p e Ht).
  destruct (amount e) as [a|]; [destruct (Qgtb a 1000)|]; reflexivity.
Qed.

(** C3 (as amended).  After [processIncomingEvent] on a [bet_placed]
    event, the profile of the event's user holds as [bettingVelocity] the
    number of that user's [bet_placed] events in the event store whose
    timestamp is strictly above [event.timestamp - 60000], with no upper
    bound on the timestamp.  The store is then what had arrived before,
    followed by the event itself, less what the sliding window drops:
    a bet that arrives later is not in the count. *)
Theorem bettingVelocity_after_bet :
  forall (calcs : list (string * Calculator)) (env : Env) (m : Monitor) (e0 : Event),
    profilesKeyed m ->
    type e0 = "bet_placed"%string ->
    exists p,
      activeUsers (fst (processIncomingEvent calcs env m e0)) !! userId e0 = Some p
      /\ bettingVelocity (behaviorMetrics p)
         = betsSince (eventStream (fst (processIncomingEvent calcs env m e0)))
             (userId e0) (timestamp (stampEvent env e0) - 60000)
      /\ eventStream (fst (processIncomingEvent calcs env m e0))
         = List.filter (fun x => windowNow env - monitoringWindow (config m) <? timestamp x)
             (eventStream m ++ [stampEvent env e0]).
Proof.
  intros calcs env m e0 Hk Ht.
  rewrite processIncomingEvent_activeUsers, processIncomingEvent_eventStream.
  change (userId e0) with (userId (stampEvent env e0)).
  rewrite updateUserBehavior_lookup. eexists. split; [reflexivity|].
  split; [|reflexivity].
  rewrite updateBehaviorMetrics_bet by exact Ht. simpl up_userId.
  pose proof (profilesKeyed_default (windowed env m e0) (stampEvent env e0)) as Hd.
  simpl in Hd. rewrite Hd; [reflexivity|].
  intros uid p Hp. apply (Hk uid p). exact Hp.
Qed.

End Ingestion.

Section BettingVelocityExamples.
Import RealTimeMonitor MonitorSpec MonitorExamples.

(** The theorem on the late bet. *)
Lemma bettingVelocity_after_bet_witness :
  exists p,
    activeUsers afterLateBet !! "user_001" = Some p
    /\ bettingVelocity (behaviorMetrics p)
       = betsSince (eventStream afterLateBet) "user_001" (40000 - 60000)
    /\ eventStream afterLateBet
       = List.filter
           (fun x => windowNow lateBetEnv - monitoringWindow (config afterFirstBet)
                     <? timestamp x)
           (eventStream afterFirstBet ++ [stampEvent lateBetEnv lateBet]).
Proof.
  apply (bettingVelocity_after_bet riskCalculators lateBetEnv afterFirstBet lateBet).
  - apply profilesKeyed_processIncomingEvent, profilesKeyed_new.
  - reflexivity.
Defined.

(** C3, counterexample to the closed window and to the independence of
    the arrival order.  The store holds a bet at 100000 and the late bet
    at 40000.  After the late bet is processed the profile's
    [bettingVelocity] is 2, while one bet only has its timestamp between
    40000 - 60000 and 40000.  When the same two bets arrive in the other
    order, the store holds the same two events and the profile's
    [bettingVelocity] is 1. *)
Lemma bettingVelocity_window_and_order :
  List.map timestamp (eventStream afterLateBet) = [100000; 40000]
  /\ (bettingVelocity <$> (behaviorMetrics <$> activeUsers afterLateBet !! "user_001"))
     = Some 2%nat
  /\ betsInWindow (eventStream afterLateBet) "user_001" (40000 - 60000) 40000 = 1%nat
  /\ List.map timestamp (eventStream afterOlderThenNewer) = [40000; 100000]
  /\ (bettingVelocity <$> (behaviorMetrics <$> activeUsers afterOlderThenNewer !! "user_001"))
     = Some 1%nat.
Proof.
  vm_compute. repeat split; reflexivity.
Qed.

End BettingVelocityExamples.

Section Alerting.
Import RealTimeMonitor MonitorSpec MonitorExamples.
Local Open Scope Q_scope.

Lemma processIncomingEvent_config calcs env m e0 :
  config (fst (processIncomingEvent calcs env m e0)) = config m.
Proof.
  unfold processIncomingEvent, calculateRealTimeRisk. cbv zeta.
  match goal with |- context [if ?c then _ else _] => destruct c end; reflexivity.
Qed.

Lemma processIncomingEvent_alert calcs env m e0 :
  alertThreshold (config m) <= snd (processIncomingEvent calcs env m e0) ->
  exists m4,
    alertQueue (fst (processIncomingEvent calcs env m e0))
    = alertQueue m
      ++ [makeAlert env m4 (stampEvent env e0) (snd (processIncomingEvent calcs env m e0))].
Proof.
  unfold processIncomingEvent, calculateRealTimeRisk. cbv zeta.
  match goal with |- context [if ?c then _ else _] => destruct c eqn:E end; simpl; intros H.
  - eexists. reflexivity.
  - apply Qgeb_false in E. simpl in E. exfalso. exact (Qlt_not_le _ _ E H).
Qed.

Lemma processIncomingEvent_no_alert calcs env m e0 :
  snd (processIncomingEvent calcs env m e0) < alertThreshold (config m) ->
  alertQueue (fst (processIncomingEvent calcs env m e0)) = alertQueue m.
Proof.
  unfold processIncomingEvent, calculateRealTimeRisk. cbv zeta.
  match goal with |- context [if ?c then _ else _] => destruct c eqn:E end; simpl; intros H.
  - apply Qgeb_true in E. simpl in E. exfalso. exact (Qlt_not_le _ _ H E).
  - reflexivity.
Qed.

Lemma getSeverityLevel_bands (s : Q) :
  (0.9 <= s -> getSeverityLevel s = critical)
  /\ (0.7 <= s -> s < 0.9 -> getSeverityLevel s = high)
  /\ (0.5 <= s -> s < 0.7 -> getSeverityLevel s = medium)
  /\ (s < 0.5 -> getSeverityLevel s = low).
Proof.
  unfold getSeverityLevel.
  destruct (Qgeb s 0.9) eqn:E9; [apply Qgeb_true in E9 | apply Qgeb_false in E9];
  destruct (Qgeb s 0.7) eqn:E7; [apply Qgeb_true in E7 | apply Qgeb_false in E7 | apply Qgeb_true in E7 | apply Qgeb_false in E7];
  destruct (Qgeb s 0.5) eqn:E5; [apply Qgeb_true in E5 | apply Qgeb_false in E5 | apply Qgeb_true in E5 | apply Qgeb_false in E5 | apply Qgeb_true in E5 | apply Qgeb_false in E5 | apply Qgeb_true in E5 | apply Qgeb_false in E5];
  repeat split; intros; try reflexivity; exfalso; lra.
Qed.

(** C4.  [processIncomingEvent] appends one alert to the alert queue when
    the composite score it computed is at least [config.alertThreshold],
    and leaves the queue as it was when the score is below it.  The alert
    carries that score and the severity [getSeverityLevel] gives it, whose
    bands are closed below: from 0.9 critical, from 0.7 high, from 0.5
    medium, below 0.5 low; a score of exactly 0.7 is high. *)
Theorem alert_iff_threshold :
  forall (calcs : list (string * Calculator)) (env : Env) (m : Monitor) (e0 : Event),
    (alertThreshold (config m) <= snd (processIncomingEvent calcs env m e0) ->
     exists a,
       alertQueue (fst (processIncomingEvent calcs env m e0)) = alertQueue m ++ [a]
       /\ riskScore a = snd (processIncomingEvent calcs env m e0)
       /\ al_userId a = userId e0
       /\ severity a = getSeverityLevel (snd (processIncomingEvent calcs env m e0)))
    /\ (snd (processIncomingEvent calcs env m e0) < alertThreshold (config m) ->
        alertQueue (fst (processIncomingEvent calcs env m e0)) = alertQueue m)
    /\ (forall s : Q,
          (0.9 <= s -> getSeverityLevel s = critical)
          /\ (0.7 <= s -> s < 0.9 -> getSeverityLevel s = high)
          /\ (0.5 <= s -> s < 0.7 -> getSeverityLevel s = medium)
          /\ (s < 0.5 -> getSeverityLevel s = low))
    /\ getSeverityLevel 0.7 = high
    /\ alertThreshold defaultConfig = 0.7.
Proof.
  intros calcs env m e0. split; [|split; [|split; [|split]]].
  - intros H. destruct (processIncomingEvent_alert calcs env m e0 H) as [m4 Hq].
    eexists. split; [exact Hq|]. repeat split.
  - apply processIncomingEvent_no_alert.
  - apply getSeverityLevel_bands.
  - reflexivity.
  - reflexivity.
Qed.

(** The theorem on two runs of the first bet: with the eager threshold the
    score is at least the threshold and one alert is queued; with the
    default threshold it is below and none is. *)
Lemma alert_iff_threshold_witness :
  (exists a,
     alertQueue (fst (processIncomingEvent riskCalculators firstBetEnv
                        (newMonitor eagerConfig) firstBet)) = [] ++ [a]
     /\ riskScore a = snd (processIncomingEvent riskCalculators firstBetEnv
                             (newMonitor eagerConfig) firstBet)
     /\ al_userId a = "user_001"%string
     /\ severity a = getSeverityLevel
                       (snd (processIncomingEvent riskCalculators firstBetEnv
                               (newMonitor eagerConfig) firstBet)))
  /\ alertQueue (fst (processIncomingEvent riskCalculators firstBetEnv
                        (newMonitor defaultConfig) firstBet)) = [].
Proof.
  split.
  - apply (alert_iff_threshold riskCalculators firstBetEnv (newMonitor eagerConfig) firstBet).
    vm_compute. discriminate.
  - apply (alert_iff_threshold riskCalculators firstBetEnv (newMonitor defaultConfig) firstBet).
    vm_compute. reflexivity.
Defined.

End Alerting.

Section Eviction.
Import RealTimeMonitor MonitorSpec MonitorExamples.

Lemma updateBehaviorMetrics_recent m p e :
  Forall (fun a => timestamp e - 86400000 < sa_timestamp a)
    (suspiciousActions (behaviorMetrics (updateBehaviorMetrics m p e))).
Proof.
  unfold updateBehaviorMetrics. simpl.
  apply List.Forall_forall. intros a Ha.
  apply List.filter_In in Ha as [_ Ha]. apply Z.ltb_lt in Ha. exact Ha.
Qed.

(** C5 (as amended).  After [updateUserBehavior] on an event, the profile
    of the event's user holds no suspicious action whose timestamp is 24
    hours or more before the event's timestamp, and the profile of every
    other user is the one it was before the call. *)
Theorem suspiciousActions_eviction :
  forall (m : Monitor) (e : Event),
    (exists p,
       activeUsers (updateUserBehavior m e) !! userId e = Some p
       /\ Forall (fun a => timestamp e - 24 * 60 * 60 * 1000 < sa_timestamp a)
            (suspiciousActions (behaviorMetrics p)))
    /\ (forall uid,
          uid <> userId e ->
          activeUsers (updateUserBehavior m e) !! uid = activeUsers m !! uid).
Proof.
  intros m e. split.
  - rewrite updateUserBehavior_lookup. eexists. split; [reflexivity|].
    apply updateBehaviorMetrics_recent.
  - intros uid Hne. now apply updateUserBehavior_other.
Qed.

(** The theorem on the login: the profile of [user_001] is untouched. *)
Lemma suspiciousActions_eviction_witness :
  activeUsers afterNextDayLogin !! "user_001" = activeUsers afterSwitch !! "user_001".
Proof.
  apply (suspiciousActions_eviction afterSwitch nextDayLogin). discriminate.
Defined.

(** C5, counterexample to eviction on every profile.  After the update for
    the login of [user_002] at 90001000, the profile of [user_001] still
    holds the device switch recorded at 1000, more than 24 hours
    (86400000 ms) earlier. *)
Lemma stale_action_on_other_profile :
  (List.map sa_timestamp
     <$> (suspiciousActions <$> (behaviorMetrics <$> activeUsers afterNextDayLogin !! "user_001")))
  = Some [1000]
  /\ 1000 < timestamp nextDayLogin - 24 * 60 * 60 * 1000.
Proof.
  split; [vm_compute; reflexivity | vm_compute; reflexivity].
Qed.

End Eviction.

(** * Properties of the network analyzer *)

Section NetworkRisk.
Import NetworkAnalyzer.
Local Open Scope Q_scope.

Lemma addIf_nonneg c x risk : 0 <= x -> 0 <= risk -> 0 <= addIf c x risk.
Proof. intros Hx Hr. unfold addIf. destruct c; [lra | exact Hr]. Qed.

Lemma calculateCategoryRisk_bounds (indicators : option Indicators) :
  0 <= calculateCategoryRisk indicators /\ calculateCategoryRisk indicators <= 1.
Proof.
  destruct indicators as [i|]; simpl; [|split; discriminate].
  split; [|apply Q.le_min_r].
  apply Q.min_glb; [|discriminate].
  assert (Hbase :
    0 <= addIf (isCoordinated i) 0.7
           (addIf (rapidMovement i) 0.4
              (addIf (impossibleTravel i) 0.8
                 (addIf (nonEmpty (spoofingIndicators i)) 0.5
                    (addIf (automationSigns i) 0.6
                       (addIf (gtSome (sharedUsers i) 5) 0.4
                          (addIf (isTor i) 0.8
                             (addIf (isVPN i) 0.3
                                (addIf (isProxy i) 0.4 (addIf (isSharedIP i) 0.3 0)))))))))).
  { repeat (apply addIf_nonneg; [discriminate|]). apply Qle_refl. }
  destruct (coordinationScore i) as [s|]; [|exact Hbase].
  unfold addIf at 1. destruct (Qgtb s 0.5) eqn:E; [|exact Hbase].
  apply Qgtb_true in E. nra.
Qed.

Lemma weightOf_positive category w : weightOf category = Some w -> 0 < w.
Proof.
  unfold weightOf. destruct (assoc category weights) as [w'|] eqn:E.
  - intros [= <-]. unfold weights in E. simpl in E.
    repeat match type of E with
    | (if ?c then _ else _) = _ => destruct c; [injection E as <-; reflexivity|]
    end.
    discriminate.
  - destruct (existsb _ _); [discriminate|]. intros [= <-]. reflexivity.
Qed.

Lemma networkStep_None l : List.fold_left networkStep l None = None.
Proof. induction l as [|x l IH]; simpl; [reflexivity | exact IH]. Qed.

(** The loop keeps [0 <= riskScore <= weightSum] while both are numbers. *)
Lemma networkStep_invariant l :
  forall riskScore weightSum,
    0 <= riskScore -> riskScore <= weightSum ->
    match List.fold_left networkStep l (Some (riskScore, weightSum)) with
    | Some (r, w) => 0 <= r /\ r <= w
    | None => True
    end.
Proof.
  induction l as [|entry l IH]; intros r w H0 H1; simpl; [split; assumption|].
  destruct (weightOf (fst entry)) as [wt|] eqn:E.
  - apply weightOf_positive in E.
    destruct (calculateCategoryRisk_bounds (snd entry)) as [Hc0 Hc1].
    apply IH; nra.
  - rewrite networkStep_None. exact I.
Qed.

(** C10.  [calculateCategoryRisk] returns a value in [0,1] for every
    indicators argument: its additive contributions are capped at 1 by the
    final [Math.min].  [calculateNetworkRiskScore], the weight-normalized
    combination of the category risks, returns a value in [0,1] for every
    fraud-indicators object. *)
Theorem network_risk_bounds :
  forall (indicators : option Indicators) (fraudIndicators : list (string * option Indicators)),
    0 <= calculateCategoryRisk indicators
    /\ calculateCategoryRisk indicators <= 1
    /\ 0 <= calculateNetworkRiskScore fraudIndicators
    /\ calculateNetworkRiskScore fraudIndicators <= 1.
Proof.
  intros indicators fraudIndicators.
  destruct (calculateCategoryRisk_bounds indicators) as [H0 H1].
  split; [exact H0|]. split; [exact H1|].
  unfold calculateNetworkRiskScore.
  pose proof (networkStep_invariant fraudIndicators 0 0 (Qle_refl 0) (Qle_refl 0)) as Hinv.
  destruct (List.fold_left networkStep fraudIndicators (Some (0, 0))) as [[r w]|];
    [|split; discriminate].
  destruct Hinv as [Hr Hw].
  destruct (Qgtb w 0) eqn:E; [|split; discriminate].
  apply Qgtb_true in E. split.
  - apply Qle_shift_div_l; [exact E|]. now rewrite Qmult_0_l.
  - apply Qle_shift_div_r; [exact E|]. now rewrite Qmult_1_l.
Qed.

End NetworkRisk.

Section FraudRings.
Import NetworkAnalyzer NetworkSpec NetworkExamples.

Lemma ipRing_In h a key c r :
  List.In r (ipRing h a (key, c)) <-> ipGate h a c /\ r = ipRecord h key c.
Proof.
  unfold ipRing, ipGate, ipRecord. simpl.
  destruct (minClusterSize a <=? Z.of_nat (size (ip_users c))) eqn:E1;
    [apply Z.leb_le in E1 | apply Z.leb_gt in E1].
  - destruct (minClusterSize a <=? Z.of_nat (List.length (analyzeClusterUsers h c))) eqn:E2;
      [apply Z.leb_le in E2 | apply Z.leb_gt in E2]; simpl.
    + split; [intros [<-|[]]; auto | intros [_ ->]; auto].
    + split; [intros [] | intros [[_ H] _]; lia].
  - simpl. split; [intros [] | intros [[H _] _]; lia].
Qed.

Lemma deviceRing_In h a key d r :
  List.In r (deviceRing h a (key, d)) <-> deviceGate h a d /\ r = deviceRecord h key d.
Proof.
  unfold deviceRing, deviceGate, deviceRecord. simpl.
  destruct (minClusterSize a <=? Z.of_nat (size (dev_users d))) eqn:E1;
    [apply Z.leb_le in E1 | apply Z.leb_gt in E1].
  - destruct (minClusterSize a <=? Z.of_nat (List.length (analyzeDeviceUsers h d))) eqn:E2;
      [apply Z.leb_le in E2 | apply Z.leb_gt in E2]; simpl.
    + split; [intros [<-|[]]; auto | intros [_ ->]; auto].
    + split; [intros [] | intros [[_ H] _]; lia].
  - simpl. split; [intros [] | intros [[H _] _]; lia].
Qed.

Lemma ipRing_class_empty a entry :
  0 < minClusterSize a -> ipRing classHelpers a entry = [].
Proof.
  intros Hpos. unfold ipRing. simpl.
  destruct (minClusterSize a <=? Z.of_nat (size (ip_users (snd entry)))); [|reflexivity].
  change (Z.of_nat 0) with 0.
  destruct (minClusterSize a <=? 0) eqn:E; [apply Z.leb_le in E; lia | reflexivity].
Qed.

Lemma deviceRing_class_empty a entry :
  0 < minClusterSize a -> deviceRing classHelpers a entry = [].
Proof.
  intros Hpos. unfold deviceRing. simpl.
  destruct (minClusterSize a <=? Z.of_nat (size (dev_users (snd entry)))); [|reflexivity].
  change (Z.of_nat 0) with 0.
  destruct (minClusterSize a <=? 0) eqn:E; [apply Z.leb_le in E; lia | reflexivity].
Qed.

Lemma flat_map_nil {A B} (f : A -> list B) (l : list A) :
  (forall x, f x = []) -> List.flat_map f l = [].
Proof.
  intros H. induction l as [|x l IH]; simpl; [reflexivity|]. now rewrite H, IH.
Qed.

(** C6 (as amended).  [detectFraudRings] reports an IP or device cluster
    exactly when the cluster has at least [minClusterSize] members and its
    cluster analysis ([analyzeClusterUsers], [analyzeDeviceUsers]) returns
    at least [minClusterSize] users; the record then carries those users,
    the risk score and the indicators.  With the helpers as the class
    defines them, which return no user, and a [minClusterSize] of at
    least 1, the returned list is empty. *)
Theorem detectFraudRings_gated :
  forall (h : ClusterHelpers) (a : Analyzer),
    (forall r,
       List.In r (detectFraudRingsWith h a) <->
         (exists key c, List.In (key, c) (ipClusters a) /\ ipGate h a c /\ r = ipRecord h key c)
         \/ (exists key d, List.In (key, d) (deviceFingerprints a)
                           /\ deviceGate h a d /\ r = deviceRecord h key d)
         \/ List.In r (detectBehavioralClusters h))
    /\ (0 < minClusterSize a -> detectFraudRings a = []).
Proof.
  intros h a. split.
  - intros r. unfold detectFraudRingsWith. rewrite !List.in_app_iff, !List.in_flat_map.
    split.
    + intros [[[key c] [Hin Hr]] | [[[key d] [Hin Hr]] | Hb]].
      * left. apply ipRing_In in Hr as [Hg ->]. eauto.
      * right; left. apply deviceRing_In in Hr as [Hg ->]. eauto.
      * right; right. exact Hb.
    + intros [[key [c [Hin [Hg ->]]]] | [[key [d [Hin [Hg ->]]]] | Hb]].
      * left. exists (key, c). split; [exact Hin|]. apply ipRing_In. auto.
      * right; left. exists (key, d). split; [exact Hin|]. apply deviceRing_In. auto.
      * right; right. exact Hb.
  - intros Hpos. unfold detectFraudRings, detectFraudRingsWith.
    rewrite (flat_map_nil (ipRing classHelpers a)) by (intros; now apply ipRing_class_empty).
    rewrite (flat_map_nil (deviceRing classHelpers a))
      by (intros; now apply deviceRing_class_empty).
    reflexivity.
Qed.

(** The theorem on the shared analyzer. *)
Lemma detectFraudRings_gated_witness : detectFraudRings sharedAnalyzer = [].
Proof.
  apply (detectFraudRings_gated classHelpers sharedAnalyzer). reflexivity.
Defined.

(** C6, counterexample to sufficiency.  The IP cluster and the device
    cluster of the shared analyzer both have 3 members, which is the
    [minClusterSize], and [detectFraudRings] returns no ring. *)
Lemma full_cluster_not_reported :
  List.map (fun e => minClusterSize sharedAnalyzer <=? Z.of_nat (size (ip_users (snd e))))
    (ipClusters sharedAnalyzer) = [true]
  /\ List.map (fun e => minClusterSize sharedAnalyzer <=? Z.of_nat (size (dev_users (snd e))))
       (deviceFingerprints sharedAnalyzer) = [true]
  /\ detectFraudRings sharedAnalyzer = [].
Proof.
  vm_compute. repeat split; reflexivity.
Qed.

End FraudRings.

Section JsonText.
Import NetworkAnalyzer JsonSpec.
Local Open Scope string_scope.

Lemma stringify_object props :
  stringify (JObject props) = Some ("{" ++ String.concat "," (members props) ++ "}").
Proof. reflexivity. Qed.

Lemma append_cons (x : ascii) (a b : string) : String x a ++ b = String x (a ++ b).
Proof. reflexivity. Qed.

Lemma append_nil (b : string) : EmptyString ++ b = b.
Proof. reflexivity. Qed.

Lemma append_nil_r (a : string) : a ++ EmptyString = a.
Proof. induction a as [|x a IH]; [reflexivity|]. now rewrite append_cons, IH. Qed.

Lemma append_assoc_s (a b c : string) : (a ++ b) ++ c = a ++ (b ++ c).
Proof.
  induction a as [|x a IH]; [reflexivity|]. now rewrite !append_cons, IH.
Qed.

(** Reading back one escaped character, whatever follows it. *)
Lemma unquoteBody_escapeChar (c : ascii) (rest : string) :
  unquoteBody (escapeChar c ++ rest)
  = match unquoteBody rest with
    | Some (r, t) => Some (String c r, t)
    | None => None
    end.
Proof.
  destruct c as [[] [] [] [] [] [] [] []]; reflexivity.
Qed.

Lemma unquoteBody_escapeString (s t : string) :
  unquoteBody (escapeString s ++ String quoteChar t) = Some (s, t).
Proof.
  induction s as [|c s IH]; [reflexivity|].
  cbn [escapeString]. rewrite append_assoc_s, unquoteBody_escapeChar, IH. reflexivity.
Qed.

(** A quoted string can be read back from the front of any text. *)
Lemma quoteJSON_inj (s1 s2 t1 t2 : string) :
  quoteJSON s1 ++ t1 = quoteJSON s2 ++ t2 -> s1 = s2 /\ t1 = t2.
Proof.
  unfold quoteJSON. rewrite !append_cons, !append_assoc_s, !append_cons, !append_nil.
  intros [= H].
  pose proof (unquoteBody_escapeString s1 t1) as H1.
  rewrite H, unquoteBody_escapeString in H1.
  injection H1 as -> ->. split; reflexivity.
Qed.

Lemma concat_middle (before : list string) (x : string) (after : list string) :
  String.concat "," (before ++ x :: after) = joinBefore before ++ x ++ joinAfter after.
Proof.
  induction before as [|y before IH].
  - destruct after; [|reflexivity]. cbn. now rewrite append_nil_r.
  - cbn [joinBefore app String.concat].
    destruct (before ++ x :: after)%list eqn:E; [destruct before; discriminate|].
    rewrite IH, !append_assoc_s. reflexivity.
Qed.

Lemma members_app pre rest : members (pre ++ rest) = (members pre ++ members rest)%list.
Proof.
  induction pre as [|[k x] pre IH]; [reflexivity|].
  cbn [members app]. destruct (stringify x); cbn [app]; now rewrite IH.
Qed.

Lemma length_append_s (a b : string) :
  String.length (a ++ b) = (String.length a + String.length b)%nat.
Proof.
  induction a as [|x a IH]; [reflexivity|].
  rewrite append_cons. cbn [String.length]. now rewrite IH.
Qed.

Lemma app_inv_tail_s (a b r : string) : a ++ r = b ++ r -> a = b.
Proof.
  revert b. induction a as [|x a IH]; intros [|y b] H.
  - reflexivity.
  - exfalso. apply (f_equal String.length) in H.
    rewrite append_nil, length_append_s in H. cbn [String.length] in H. lia.
  - exfalso. apply (f_equal String.length) in H.
    rewrite append_nil, length_append_s in H. cbn [String.length] in H. lia.
  - rewrite !append_cons in H. injection H as -> H. f_equal. now apply IH.
Qed.

Lemma concat_length (l : list string) :
  String.length (String.concat "," l)
  = (list_sum (List.map String.length l) + (List.length l - 1))%nat.
Proof.
  induction l as [|x [|y l] IH]; [reflexivity| |].
  - cbn. lia.
  - change (String.concat "," (x :: y :: l)) with (x ++ "," ++ String.concat "," (y :: l)).
    rewrite !length_append_s, IH. simpl. lia.
Qed.

Lemma members_field pre k v suf :
  members (pre ++ (k, v) :: suf) = (members pre ++ memberOf k v ++ members suf)%list.
Proof.
  rewrite members_app. f_equal. unfold memberOf. cbn [members].
  destruct (stringify v); reflexivity.
Qed.

Lemma quoteJSON_length k : (2 <= String.length (quoteJSON k))%nat.
Proof.
  unfold quoteJSON. cbn [String.length]. rewrite length_append_s. cbn [String.length]. lia.
Qed.

(** Two objects that differ in one property are written alike exactly
    when the two values of that property are. *)
Lemma stringify_object_field pre k v1 v2 suf :
  stringify (JObject (pre ++ (k, v1) :: suf)) = stringify (JObject (pre ++ (k, v2) :: suf))
  <-> stringify v1 = stringify v2.
Proof.
  rewrite !stringify_object, !members_field. unfold memberOf. split.
  - intros [= H].
    apply String.app_inj in H. apply app_inv_tail_s in H.
    destruct (stringify v1) as [t1|], (stringify v2) as [t2|]; [| | |reflexivity].
    + cbn [app] in H. rewrite !concat_middle in H.
      apply String.app_inj in H. rewrite !append_assoc_s in H.
      apply String.app_inj in H. apply String.app_inj in H.
      apply app_inv_tail_s in H. now rewrite H.
    + exfalso. apply (f_equal String.length) in H. rewrite !concat_length in H.
      rewrite !List.map_app, !list_sum_app, !List.length_app in H.
      simpl in H.
      rewrite !length_append_s in H. pose proof (quoteJSON_length k). simpl in H. lia.
    + exfalso. apply (f_equal String.length) in H. rewrite !concat_length in H.
      rewrite !List.map_app, !list_sum_app, !List.length_app in H.
      simpl in H.
      rewrite !length_append_s in H. pose proof (quoteJSON_length k). simpl in H. lia.
  - intros ->. reflexivity.
Qed.

Lemma stringify_string_inj s1 s2 :
  stringify (JString s1) = stringify (JString s2) -> s1 = s2.
Proof.
  cbn [stringify]. intros H.
  assert (H0 : quoteJSON s1 = quoteJSON s2) by congruence.
  assert (H' : quoteJSON s1 ++ "" = quoteJSON s2 ++ "") by now rewrite !append_nil_r.
  now apply quoteJSON_inj in H'.
Qed.

Lemma stringify_int_inj z1 z2 :
  stringify (JNumber (JInt z1)) = stringify (JNumber (JInt z2)) -> z1 = z2.
Proof.
  cbn [stringify numberToJSON]. intros H.
  assert (H0 : pretty z1 = pretty z2) by congruence. now apply pretty_Z_inj in H0.
Qed.

Lemma stringify_bool_inj b1 b2 :
  stringify (JBool b1) = stringify (JBool b2) -> b1 = b2.
Proof. destruct b1, b2; cbn; intros H; try reflexivity; discriminate. Qed.

Lemma stringify_array items :
  stringify (JArray items) = Some ("[" ++ String.concat "," (slots items) ++ "]").
Proof. reflexivity. Qed.

Lemma slots_strings (l : list string) : slots (List.map JString l) = List.map quoteJSON l.
Proof.
  induction l as [|x l IH]; [reflexivity|]. cbn [List.map slots stringify]. now rewrite IH.
Qed.

Lemma concat_head (x : string) (l : list string) :
  String.concat "," (x :: l) = x ++ joinAfter l.
Proof. exact (concat_middle [] x l). Qed.

Lemma quoteJSON_head s t : exists r, quoteJSON s ++ t = String quoteChar r.
Proof. unfold quoteJSON. rewrite append_cons. eexists. reflexivity. Qed.

Lemma quoted_list_inj (l1 l2 : list string) (t1 t2 : string) :
  String.concat "," (List.map quoteJSON l1) ++ String "]" t1
  = String.concat "," (List.map quoteJSON l2) ++ String "]" t2 ->
  l1 = l2.
Proof.
  revert l2. induction l1 as [|a l1 IH]; intros [|b l2] H.
  - reflexivity.
  - exfalso. cbn [List.map] in H. rewrite concat_head, append_assoc_s in H.
    destruct (quoteJSON_head b (joinAfter (List.map quoteJSON l2) ++ String "]" t2)) as [r Hr].
    rewrite Hr in H. discriminate.
  - exfalso. cbn [List.map] in H. rewrite concat_head, append_assoc_s in H.
    destruct (quoteJSON_head a (joinAfter (List.map quoteJSON l1) ++ String "]" t1)) as [r Hr].
    rewrite Hr in H. discriminate.
  - cbn [List.map] in H. rewrite !concat_head, !append_assoc_s in H.
    apply quoteJSON_inj in H as [-> H]. f_equal.
    destruct l1 as [|a1 l1], l2 as [|b1 l2]; cbn [List.map joinAfter] in H.
    + reflexivity.
    + discriminate.
    + discriminate.
    + rewrite !append_assoc_s in H. injection H as H. now apply IH.
Qed.

Lemma stringify_strings_inj l1 l2 :
  stringify (JArray (List.map JString l1)) = stringify (JArray (List.map JString l2)) ->
  l1 = l2.
Proof.
  rewrite !stringify_array, !slots_strings. intros H.
  assert (H0 : String.concat "," (List.map quoteJSON l1) ++ "]"
               = String.concat "," (List.map quoteJSON l2) ++ "]").
  { injection H as H. exact H. }
  now apply quoted_list_inj in H0.
Qed.

End JsonText.

Section Fingerprint.
Import NetworkAnalyzer JsonSpec NetworkExamples.

Lemma fingerprintData_same d1 d2 :
  sameFingerprintFields d1 d2 -> fingerprintData d1 = fingerprintData d2.
Proof.
  intros (H1 & H2 & H3 & H4 & H5 & H6 & H7 & H8 & H9).
  unfold fingerprintData, fingerprintFields.
  now rewrite H1, H2, H3, H4, H5, H6, H7, H8, H9.
Qed.

Lemma fingerprintString_field d1 d2 k v1 v2 :
  differInField d1 d2 k v1 v2 ->
  (fingerprintString d1 = fingerprintString d2 <-> stringify v1 = stringify v2).
Proof.
  intros (pre & suf & E1 & E2). unfold fingerprintString, fingerprintData.
  rewrite E1, E2. rewrite <- (stringify_object_field pre k v1 v2 suf).
  rewrite !stringify_object. split; intros H; congruence.
Qed.

(** C8 (as amended).  The fingerprint is a function of the JSON text of
    the nine canonical fields: two payloads with identical values for
    these fields have the same fingerprint, whatever their other fields
    hold, and so have two payloads whose nine fields are written alike by
    [JSON.stringify].  Two payloads that differ in exactly one of these
    fields have different JSON texts exactly when [JSON.stringify] writes
    the two values of that field differently, and their fingerprints can
    then only be equal by a collision of the digest.  Two different
    strings, two different integers, two different booleans and two
    different arrays of strings are written differently. *)
Theorem fingerprint_deterministic :
  forall (sha256hex : string -> string) (d1 d2 : NetworkData),
    (sameFingerprintFields d1 d2 ->
     generateBrowserFingerprint sha256hex d1 = generateBrowserFingerprint sha256hex d2)
    /\ (stringify (fingerprintData d1) = stringify (fingerprintData d2) ->
        generateBrowserFingerprint sha256hex d1 = generateBrowserFingerprint sha256hex d2)
    /\ (forall k v1 v2,
          differInField d1 d2 k v1 v2 ->
          (fingerprintString d1 = fingerprintString d2 <-> stringify v1 = stringify v2)
          /\ (stringify v1 <> stringify v2 ->
              generateBrowserFingerprint sha256hex d1 = generateBrowserFingerprint sha256hex d2 ->
              exists x y, x <> y /\ sha256hex x = sha256hex y))
    /\ (forall s1 s2, s1 <> s2 -> stringify (JString s1) <> stringify (JString s2))
    /\ (forall z1 z2, z1 <> z2 ->
          stringify (JNumber (JInt z1)) <> stringify (JNumber (JInt z2)))
    /\ (forall b1 b2, b1 <> b2 -> stringify (JBool b1) <> stringify (JBool b2))
    /\ (forall l1 l2, l1 <> l2 ->
          stringify (JArray (List.map JString l1)) <> stringify (JArray (List.map JString l2))).
Proof.
  intros sha256hex d1 d2. split; [|split; [|split; [|split; [|split; [|split]]]]].
  - intros H. unfold generateBrowserFingerprint, fingerprintString.
    now rewrite (fingerprintData_same d1 d2 H).
  - intros H. unfold generateBrowserFingerprint, fingerprintString. now rewrite H.
  - intros k v1 v2 H.
    pose proof (fingerprintString_field d1 d2 k v1 v2 H) as Hiff.
    split; [exact Hiff|].
    intros Hne Heq. exists (fingerprintString d1), (fingerprintString d2).
    split; [|exact Heq]. intros Hs. apply Hne. now apply Hiff.
  - intros s1 s2 Hne H. apply Hne. now apply stringify_string_inj.
  - intros z1 z2 Hne H. apply Hne. now apply stringify_int_inj.
  - intros b1 b2 Hne H. apply Hne. now apply stringify_bool_inj.
  - intros l1 l2 Hne H. apply Hne. now apply stringify_strings_inj.
Qed.

(** The theorem on a stand-in digest (the text itself): two payloads that
    differ in the IP address only have one fingerprint, and two that
    differ in the colour depth, 24 against 32, have different JSON
    texts. *)
Lemma fingerprint_deterministic_witness :
  generateBrowserFingerprint (fun s => s)
    (desktopPayload "10.0.0.1" "1920x1080" (JNumber (JInt 24)))
  = generateBrowserFingerprint (fun s => s)
      (desktopPayload "10.0.0.2" "1920x1080" (JNumber (JInt 24)))
  /\ fingerprintString (desktopPayload "10.0.0.1" "1920x1080" (JNumber (JInt 24)))
     <> fingerprintString (desktopPayload "10.0.0.1" "1920x1080" (JNumber (JInt 32))).
Proof.
  split.
  - apply (fingerprint_deterministic (fun s => s)
             (desktopPayload "10.0.0.1" "1920x1080" (JNumber (JInt 24)))
             (desktopPayload "10.0.0.2" "1920x1080" (JNumber (JInt 24)))).
    repeat split.
  - destruct (fingerprint_deterministic (fun s => s)
                (desktopPayload "10.0.0.1" "1920x1080" (JNumber (JInt 24)))
                (desktopPayload "10.0.0.1" "1920x1080" (JNumber (JInt 32))))
      as (_ & _ & Hdiff & _ & Hint & _).
    intros Heq. apply (Hint 24 32); [discriminate|].
    apply (Hdiff "colorDepth"%string (JNumber (JInt 24)) (JNumber (JInt 32))); [|exact Heq].
    exists [("userAgent"%string, JString "Mozilla/5.0 (X11; Linux x86_64)");
            ("screenResolution"%string, JString "1920x1080");
            ("timezone"%string, JString "Europe/Madrid");
            ("language"%string, JString "en-US");
            ("platform"%string, JString "Linux")].
    eexists. split; reflexivity.
Defined.

(** C8, counterexample to distinct fingerprints.  Two payloads that differ
    in [colorDepth] only, one holding [NaN] and the other [null], have the
    same JSON text and so the same fingerprint under every digest. *)
Lemma fingerprint_collision_on_one_field :
  nd_colorDepth (desktopPayload "10.0.0.1" "1920x1080" (JNumber JNaN)) = JNumber JNaN
  /\ nd_colorDepth (desktopPayload "10.0.0.1" "1920x1080" JNull) = JNull
  /\ List.filter (fun kv => negb (String.eqb (fst kv) "colorDepth"))
       (fingerprintFields (desktopPayload "10.0.0.1" "1920x1080" (JNumber JNaN)))
     = List.filter (fun kv => negb (String.eqb (fst kv) "colorDepth"))
         (fingerprintFields (desktopPayload "10.0.0.1" "1920x1080" JNull))
  /\ fingerprintString (desktopPayload "10.0.0.1" "1920x1080" (JNumber JNaN))
     = fingerprintString (desktopPayload "10.0.0.1" "1920x1080" JNull)
  /\ (forall sha256hex : string -> string,
        generateBrowserFingerprint sha256hex
          (desktopPayload "10.0.0.1" "1920x1080" (JNumber JNaN))
        = generateBrowserFingerprint sha256hex (desktopPayload "10.0.0.1" "1920x1080" JNull)).
Proof.
  assert (H : fingerprintString (desktopPayload "10.0.0.1" "1920x1080" (JNumber JNaN))
              = fingerprintString (desktopPayload "10.0.0.1" "1920x1080" JNull))
    by (vm_compute; reflexivity).
  split; [reflexivity|]. split; [reflexivity|]. split; [reflexivity|]. split; [exact H|].
  intros sha256hex. unfold generateBrowserFingerprint. now rewrite H.
Qed.

End Fingerprint.

(** * Properties of the biometrics analyzer *)

Section Authenticity.
Import Biometrics AuthenticitySpec.
Local Open Scope Q_scope.

Lemma Qeq_bool_false_iff (a b : Q) : Qeq_bool a b = false <-> ~ a == b.
Proof.
  split.
  - apply Qeq_bool_neq.
  - intros H. destruct (Qeq_bool a b) eqn:E; [|reflexivity].
    apply Qeq_bool_eq in E. contradiction.
Qed.

(** C7 (as amended).  For every composite score other than zero,
    [determineAuthenticity] answers authentic with high confidence from
    [similarityThreshold] up, authentic with medium confidence from
    [similarityThreshold - 0.2] up to the threshold, and not authentic
    with high confidence below; for the score zero, as for a missing
    score, it answers not authentic with the reason [insufficient_data]
    and no confidence. *)
Theorem determineAuthenticity_bands :
  forall (similarityThreshold s : Q),
    (~ s == 0 -> similarityThreshold <= s ->
     determineAuthenticity similarityThreshold (Some s)
     = {| authentic := true; confidence := Some conf_high; reason := None |})
    /\ (~ s == 0 -> similarityThreshold - 0.2 <= s -> s < similarityThreshold ->
        determineAuthenticity similarityThreshold (Some s)
        = {| authentic := true; confidence := Some conf_medium; reason := None |})
    /\ (~ s == 0 -> s < similarityThreshold - 0.2 ->
        determineAuthenticity similarityThreshold (Some s)
        = {| authentic := false; confidence := Some conf_high; reason := None |})
    /\ (s == 0 -> determineAuthenticity similarityThreshold (Some s) = insufficientData)
    /\ determineAuthenticity similarityThreshold None = insufficientData.
Proof.
  intros thr s. unfold determineAuthenticity, falsyScore.
  split; [|split; [|split; [|split]]].
  - intros Hnz Hge. apply Qeq_bool_false_iff in Hnz. rewrite Hnz.
    apply Qgeb_true in Hge. now rewrite Hge.
  - intros Hnz Hge Hlt. apply Qeq_bool_false_iff in Hnz. rewrite Hnz.
    apply Qgeb_false in Hlt. rewrite Hlt. apply Qgeb_true in Hge. now rewrite Hge.
  - intros Hnz Hlt. apply Qeq_bool_false_iff in Hnz. rewrite Hnz.
    assert (Hlt' : s < thr) by lra.
    apply Qgeb_false in Hlt'. rewrite Hlt'. apply Qgeb_false in Hlt. now rewrite Hlt.
  - intros Hz. apply Qeq_eq_bool in Hz. now rewrite Hz.
  - reflexivity.
Qed.

(** The theorem at the default threshold: 0.9, 0.7 and 0.3 fall in the
    three bands. *)
Lemma determineAuthenticity_bands_witness :
  determineAuthenticity defaultSimilarityThreshold (Some 0.9)
    = {| authentic := true; confidence := Some conf_high; reason := None |}
  /\ determineAuthenticity defaultSimilarityThreshold (Some 0.7)
    = {| authentic := true; confidence := Some conf_medium; reason := None |}
  /\ determineAuthenticity defaultSimilarityThreshold (Some 0.3)
    = {| authentic := false; confidence := Some conf_high; reason := None |}.
Proof.
  split; [|split].
  - apply (determineAuthenticity_bands defaultSimilarityThreshold 0.9); vm_compute; discriminate.
  - apply (determineAuthenticity_bands defaultSimilarityThreshold 0.7);
      vm_compute; try discriminate; reflexivity.
  - apply (determineAuthenticity_bands defaultSimilarityThreshold 0.3);
      vm_compute; try discriminate; reflexivity.
Defined.

(** C7, counterexample to the banding at zero.  The score 0 is below
    [0.85 - 0.2], yet the answer is not "not authentic with high
    confidence": it carries no confidence and the reason
    [insufficient_data]. *)
Lemma zero_score_is_insufficient_data :
  Qgtb (defaultSimilarityThreshold - 0.2) 0 = true
  /\ determineAuthenticity defaultSimilarityThreshold (Some 0) = insufficientData
  /\ confidence (determineAuthenticity defaultSimilarityThreshold (Some 0)) = None
  /\ reason (determineAuthenticity defaultSimilarityThreshold (Some 0))
     = Some "insufficient_data"%string.
Proof.
  repeat split.
Qed.

End Authenticity.

Section Similarity.
Import Biometrics SimilaritySpec.

Lemma similarityStep_fold metrics2 entries :
  forall d n1 n2,
    let l := List.map (fun entry => (orZero (snd entry), val2Of (fst entry) metrics2)) entries in
    List.fold_left (similarityStep metrics2) entries
      {| dotProduct := d; norm1 := n1; norm2 := n2 |}
    = {| dotProduct := List.fold_left (fun s p => (s + fst p * snd p)%float) l d;
         norm1 := List.fold_left (fun s p => (s + fst p * fst p)%float) l n1;
         norm2 := List.fold_left (fun s p => (s + snd p * snd p)%float) l n2 |}.
Proof.
  induction entries as [|entry rest IH]; intros d n1 n2; [reflexivity|].
  cbn [List.fold_left List.map]. unfold similarityStep at 2.
  cbn [dotProduct norm1 norm2 fst snd]. apply IH.
Qed.

Lemma calculateSimilarity_spec metrics1 metrics2 :
  calculateSimilarity metrics1 metrics2 = cosine (projectedPairs metrics1 metrics2).
Proof.
  unfold calculateSimilarity, cosine, projectedPairs, dot, sq1, sq2, sumLeft.
  rewrite similarityStep_fold. reflexivity.
Qed.

(** Facts of double arithmetic, from the specification of the
    operations. *)
Lemma ltb_zero_mul_l (y : float) : (0 <? 0 * y)%float = false.
Proof.
  rewrite ltb_spec, mul_spec. change (Prim2SF 0) with (S754_zero false).
  destruct (Prim2SF y) as [s|s| |s m e]; try reflexivity; destruct s; reflexivity.
Qed.

Lemma ltb_zero_mul_r (x : float) : (0 <? x * 0)%float = false.
Proof.
  rewrite ltb_spec, mul_spec. change (Prim2SF 0) with (S754_zero false).
  destruct (Prim2SF x) as [s|s| |s m e]; try reflexivity; destruct s; reflexivity.
Qed.

Lemma isNaN_nan : isNaN PrimFloat.nan.
Proof. reflexivity. Qed.

Lemma isNaN_add_l x y : isNaN x -> isNaN (x + y)%float.
Proof. unfold isNaN. intros H. rewrite add_spec, H. reflexivity. Qed.

Lemma isNaN_add_r x y : isNaN y -> isNaN (x + y)%float.
Proof.
  unfold isNaN. intros H. rewrite add_spec, H.
  destruct (Prim2SF x); reflexivity.
Qed.

Lemma isNaN_mul_l x y : isNaN x -> isNaN (x * y)%float.
Proof. unfold isNaN. intros H. rewrite mul_spec, H. reflexivity. Qed.

Lemma isNaN_mul_r x y : isNaN y -> isNaN (x * y)%float.
Proof.
  unfold isNaN. intros H. rewrite mul_spec, H.
  destruct (Prim2SF x); reflexivity.
Qed.

Lemma isNaN_sqrt x : isNaN x -> isNaN (PrimFloat.sqrt x).
Proof. unfold isNaN. intros H. rewrite sqrt_spec, H. reflexivity. Qed.

Lemma ltb_zero_nan x : isNaN x -> (0 <? x)%float = false.
Proof. unfold isNaN. intros H. rewrite ltb_spec, H. reflexivity. Qed.

Lemma sumLeft_zero (f : float * float -> float) l :
  Forall (fun p => f p = 0%float) l -> sumLeft f l = 0%float.
Proof.
  unfold sumLeft. induction 1 as [|p l Hp _ IH]; [reflexivity|].
  cbn [List.fold_left]. rewrite Hp. exact IH.
Qed.

Lemma fold_isNaN (f : float * float -> float) l :
  forall a, isNaN a -> isNaN (List.fold_left (fun s p => (s + f p)%float) l a).
Proof.
  induction l as [|p l IH]; intros a Ha; [exact Ha|].
  cbn [List.fold_left]. apply IH. now apply isNaN_add_l.
Qed.

Lemma sumLeft_isNaN (f : float * float -> float) l :
  Exists (fun p => isNaN (f p)) l -> isNaN (sumLeft f l).
Proof.
  unfold sumLeft. generalize 0%float.
  induction l as [|p l IH]; intros a Hex; [inversion Hex|].
  cbn [List.fold_left]. inversion Hex as [? ? Hp|? ? Hl]; subst.
  - apply fold_isNaN. now apply isNaN_add_r.
  - now apply IH.
Qed.

End Similarity.

Section SimilarityResults.
Import Biometrics SimilaritySpec BiometricsExamples.

Lemma val2Of_not_number key metrics2 :
  getMetric key metrics2 = Some MObj
  \/ (getMetric key metrics2 = None /\ existsb (String.eqb key) NetworkAnalyzer.inheritedKeys = true) ->
  val2Of key metrics2 = PrimFloat.nan.
Proof.
  unfold val2Of. intros [->|[-> ->]]; reflexivity.
Qed.

Lemma projectedPairs_ext metrics1 metrics2 metrics2' :
  (forall key, List.In key (numericKeys metrics1) ->
     getMetric key metrics2' = getMetric key metrics2) ->
  projectedPairs metrics1 metrics2' = projectedPairs metrics1 metrics2.
Proof.
  unfold projectedPairs, numericKeys. intros H.
  apply List.map_ext_in. intros entry Hin. f_equal.
  unfold val2Of. rewrite H; [reflexivity|]. now apply List.in_map.
Qed.

Lemma cosine_zero_left l :
  Forall (fun p => fst p = 0%float) l -> cosine l = 0%float.
Proof.
  intros H. unfold cosine.
  assert (Hs : sq1 l = 0%float).
  { apply sumLeft_zero. eapply List.Forall_impl; [|exact H].
    intros p Hp. cbn beta. rewrite Hp. reflexivity. }
  rewrite Hs. change (PrimFloat.sqrt 0) with 0%float.
  now rewrite ltb_zero_mul_l.
Qed.

Lemma cosine_zero_right l :
  Forall (fun p => snd p = 0%float) l -> cosine l = 0%float.
Proof.
  intros H. unfold cosine.
  assert (Hs : sq2 l = 0%float).
  { apply sumLeft_zero. eapply List.Forall_impl; [|exact H].
    intros p Hp. cbn beta. rewrite Hp. reflexivity. }
  rewrite Hs. change (PrimFloat.sqrt 0) with 0%float.
  now rewrite ltb_zero_mul_r.
Qed.

Lemma cosine_nan_right l :
  Exists (fun p => snd p = PrimFloat.nan) l -> cosine l = 0%float.
Proof.
  intros H. unfold cosine.
  assert (Hs : isNaN (sq2 l)).
  { apply sumLeft_isNaN. eapply List.Exists_impl; [|exact H].
    intros p Hp. cbn beta. rewrite Hp. reflexivity. }
  now rewrite (ltb_zero_nan _ (isNaN_mul_r _ _ (isNaN_sqrt _ Hs))).
Qed.

(** C9 (as amended).  [calculateSimilarity] evaluates the cosine formula
    in double arithmetic over the numeric-valued keys of its first
    argument, a value that is 0 or [NaN] counting as 0 and a key the
    second record lacks counting as 0 there.  It divides only when the
    magnitude is greater than 0 and returns 0 otherwise: when every value
    of the first record is 0, when every value read from the second is 0,
    and when the second record holds under one of these keys a value that
    is not a number, be it a nested object or a member inherited from
    [Object.prototype].  What the second record holds under other keys
    does not matter. *)
Theorem calculateSimilarity_cosine :
  forall (metrics1 metrics2 : Metrics),
    calculateSimilarity metrics1 metrics2 = cosine (projectedPairs metrics1 metrics2)
    /\ (calculateSimilarity metrics1 metrics2 = 0%float
        \/ (0 <? PrimFloat.sqrt (sq1 (projectedPairs metrics1 metrics2))
                 * PrimFloat.sqrt (sq2 (projectedPairs metrics1 metrics2)))%float = true)
    /\ (Forall (fun entry => orZero (snd entry) = 0%float) (numericEntries metrics1) ->
        calculateSimilarity metrics1 metrics2 = 0%float)
    /\ (Forall (fun key => val2Of key metrics2 = 0%float) (numericKeys metrics1) ->
        calculateSimilarity metrics1 metrics2 = 0%float)
    /\ (forall key,
          List.In key (numericKeys metrics1) ->
          getMetric key metrics2 = Some MObj
          \/ (getMetric key metrics2 = None
              /\ existsb (String.eqb key) NetworkAnalyzer.inheritedKeys = true) ->
          calculateSimilarity metrics1 metrics2 = 0%float)
    /\ (forall metrics2',
          (forall key, List.In key (numericKeys metrics1) ->
             getMetric key metrics2' = getMetric key metrics2) ->
          calculateSimilarity metrics1 metrics2' = calculateSimilarity metrics1 metrics2).
Proof.
  intros metrics1 metrics2.
  pose proof (calculateSimilarity_spec metrics1 metrics2) as Hs.
  split; [exact Hs|]. split; [|split; [|split; [|split]]].
  - rewrite Hs. unfold cosine.
    destruct (0 <? _)%float; [right; reflexivity | left; reflexivity].
  - intros H. rewrite Hs. apply cosine_zero_left.
    unfold projectedPairs. apply List.Forall_map.
    eapply List.Forall_impl; [|exact H]. intros entry He. exact He.
  - intros H. rewrite Hs. apply cosine_zero_right.
    unfold projectedPairs, numericKeys in *. apply List.Forall_map.
    rewrite List.Forall_map in H.
    eapply List.Forall_impl; [|exact H]. intros entry He. exact He.
  - intros key Hin Hnot. rewrite Hs. apply cosine_nan_right.
    unfold projectedPairs, numericKeys in *.
    apply List.in_map_iff in Hin as (entry & <- & Hin).
    apply List.Exists_exists. eexists. split.
    + apply List.in_map. exact Hin.
    + cbn [snd]. now apply val2Of_not_number.
  - intros metrics2' H. rewrite Hs, calculateSimilarity_spec.
    now rewrite (projectedPairs_ext metrics1 metrics2 metrics2' H).
Qed.

(** The theorem on a record whose metric goes by an inherited name, and
    on a baseline that holds nothing but a pattern object. *)
Lemma calculateSimilarity_cosine_witness :
  calculateSimilarity namedConstructor [] = 0%float
  /\ calculateSimilarity currentMouse [("clickTiming"%string, MObj)] = 0%float.
Proof.
  split.
  - destruct (calculateSimilarity_cosine namedConstructor []) as (_ & _ & _ & _ & H & _).
    apply (H "constructor"%string); [left; reflexivity|].
    right. split; reflexivity.
  - destruct (calculateSimilarity_cosine currentMouse [("clickTiming"%string, MObj)])
      as (_ & _ & _ & H & _).
    apply H. repeat constructor.
Defined.

(** C9, counterexample to the range.  A metric of 1 against a baseline of
    -1 has similarity -1; a record of three metrics equal to 1 compared
    with itself has similarity 1.0000000000000002, the quotient of 3 by
    the rounded product of the two square roots of 3; and a metric whose
    square overflows gives [NaN]. *)
Lemma similarity_outside_unit_interval :
  calculateSimilarity [("averageVelocity"%string, MNum 1)]
                      [("averageVelocity"%string, MNum (-1))] = (-1)%float
  /\ calculateSimilarity evenMetrics evenMetrics = 0x1.0000000000001p+0%float
  /\ (1 <? calculateSimilarity evenMetrics evenMetrics)%float = true
  /\ PrimFloat.is_nan (calculateSimilarity hugeMetric hugeMetric) = true.
Proof. vm_compute. repeat split; reflexivity. Qed.


(** A key that only the first record holds still counts in its
    magnitude: against a baseline that shares one of two equal metrics the
    similarity is below 1, not the 1 of the shared key alone. *)
Lemma similarity_counts_unshared_keys :
  (calculateSimilarity
     [("averageVelocity"%string, MNum 1); ("velocityVariation"%string, MNum 1)]
     [("averageVelocity"%string, MNum 1)] <? 1)%float = true
  /\ calculateSimilarity
       [("averageVelocity"%string, MNum 1)] [("averageVelocity"%string, MNum 1)]
     = 1%float.
Proof. vm_compute. split; reflexivity. Qed.

End SimilarityResults.

(** * Further properties of the real-time monitor *)

Section Retention.
Import RealTimeMonitor MonitorSweep.

Lemma filter_filter_bool {A} (f g : A -> bool) (l : list A) :
  List.filter f (List.filter g l) = List.filter (fun x => f x && g x) l.
Proof.
  induction l as [|x l IH]; [reflexivity|].
  simpl. destruct (g x) eqn:Eg; simpl.
  - destruct (f x); simpl; now rewrite IH.
  - rewrite andb_false_r. exact IH.
Qed.

Lemma filter_ext_bool {A} (f g : A -> bool) (l : list A) :
  (forall x, f x = g x) -> List.filter f l = List.filter g l.
Proof.
  intros H. induction l as [|x l IH]; [reflexivity|]. simpl. now rewrite H, IH.
Qed.

Lemma cleanupOldData_later (clock later : Z) (m : Monitor) :
  clock <= later ->
  cleanupOldData later (cleanupOldData clock m) = cleanupOldData later m.
Proof.
  intros Hle. unfold cleanupOldData. simpl. f_equal.
  - apply map_eq. intros uid. apply option_eq. intros p.
    rewrite !map_lookup_filter_Some. simpl. intuition lia.
  - rewrite filter_filter_bool. apply filter_ext_bool. intros x.
    destruct (later - monitoringWindow (config m) <? timestamp x) eqn:E1; [|reflexivity].
    apply Z.ltb_lt in E1. simpl. apply Z.ltb_lt. lia.
  - apply map_eq. intros uid. apply option_eq. intros p.
    rewrite !map_lookup_filter_Some. simpl. intuition lia.
  - rewrite filter_filter_bool. apply filter_ext_bool. intros x.
    destruct (later - monitoringWindow (config m) <? al_timestamp x) eqn:E1; [|reflexivity].
    apply Z.ltb_lt in E1. simpl. apply Z.ltb_lt. lia.
Qed.

(** X1.  After [cleanupOldData] every stored event and alert is newer
    than the cutoff [clock - monitoringWindow], every remaining profile
    and risk entry was there before and is not older than the cutoff (one
    stamped exactly at the cutoff stays, an event or alert stamped there
    goes), and a later sweep after an earlier one leaves what the later
    sweep alone leaves; in particular the sweep is idempotent. *)
Theorem cleanupOldData_retention :
  forall (clock : Z) (m : Monitor),
    Forall (fun e => clock - monitoringWindow (config m) < timestamp e)
      (eventStream (cleanupOldData clock m))
    /\ Forall (fun a => clock - monitoringWindow (config m) < al_timestamp a)
         (alertQueue (cleanupOldData clock m))
    /\ (forall uid p,
          activeUsers (cleanupOldData clock m) !! uid = Some p <->
          activeUsers m !! uid = Some p /\ clock - monitoringWindow (config m) <= lastActivity p)
    /\ (forall uid r,
          riskScores (cleanupOldData clock m) !! uid = Some r <->
          riskScores m !! uid = Some r /\ clock - monitoringWindow (config m) <= rs_timestamp r)
    /\ (forall later, clock <= later ->
          cleanupOldData later (cleanupOldData clock m) = cleanupOldData later m).
Proof.
  intros clock m. unfold cleanupOldData at 1 2 3 4. simpl.
  split; [|split; [|split; [|split]]].
  - apply List.Forall_forall. intros e He. apply List.filter_In in He as [_ He].
    now apply Z.ltb_lt in He.
  - apply List.Forall_forall. intros a Ha. apply List.filter_In in Ha as [_ Ha].
    now apply Z.ltb_lt in Ha.
  - intros uid p. rewrite map_lookup_filter_Some. simpl. intuition lia.
  - intros uid r. rewrite map_lookup_filter_Some. simpl. intuition lia.
  - intros later Hle. now apply cleanupOldData_later.
Qed.

End Retention.

Section Runs.
Import RealTimeMonitor MonitorSpec MonitorSweep SweepSpec.

Lemma processIncomingEvent_counters calcs env m e0 :
  processedEvents (fst (processIncomingEvent calcs env m e0)) = S (processedEvents m)
  /\ (alertsSent (fst (processIncomingEvent calcs env m e0)) + List.length (alertQueue m)
      = alertsSent m + List.length (alertQueue (fst (processIncomingEvent calcs env m e0))))%nat.
Proof.
  unfold processIncomingEvent, calculateRealTimeRisk. cbv zeta.
  match goal with |- context [if ?c then _ else _] => destruct c end; simpl.
  - split; [reflexivity|]. rewrite List.length_app. simpl. lia.
  - split; reflexivity.
Qed.

Lemma ingest_snoc calcs steps step m :
  ingest calcs (steps ++ [step]) m
  = fst (processIncomingEvent calcs (fst step) (ingest calcs steps m) (snd step)).
Proof. unfold ingest. now rewrite List.fold_left_app. Qed.

(** X2.  Over any run of [processIncomingEvent] from a new monitor,
    [processedEvents] is the number of events ingested and [alertsSent]
    is the length of the alert queue. *)
Theorem ingest_counts :
  forall (calcs : list (string * Calculator)) (c : Config) (steps : list (Env * Event)),
    processedEvents (ingest calcs steps (newMonitor c)) = List.length steps
    /\ alertsSent (ingest calcs steps (newMonitor c))
       = List.length (alertQueue (ingest calcs steps (newMonitor c))).
Proof.
  intros calcs c steps. induction steps as [|step steps [IH1 IH2]] using rev_ind.
  - split; reflexivity.
  - rewrite ingest_snoc.
    destruct (processIncomingEvent_counters calcs (fst step)
                (ingest calcs steps (newMonitor c)) (snd step)) as [H1 H2].
    split.
    + rewrite H1, IH1, List.length_app. simpl. lia.
    + lia.
Qed.

Lemma updateMetricsByType_counters m p e :
  locationChanges (updateMetricsByType m p e)
  = (locationChanges (behaviorMetrics p)
     + if String.eqb (type e) "location_change" then 1 else 0)%nat
  /\ deviceSwitches (updateMetricsByType m p e)
     = (deviceSwitches (behaviorMetrics p)
        + if String.eqb (type e) "device_switch" then 1 else 0)%nat.
Proof.
  unfold updateMetricsByType.
  destruct (String.eqb_spec (type e) "bet_placed") as [Hb|Hb].
  - rewrite Hb. simpl.
    destruct (amount e) as [a|]; [destruct (Qgtb a 1000)|]; simpl; split; lia.
  - destruct (String.eqb_spec (type e) "location_change") as [Hl|Hl].
    + rewrite Hl. simpl.
      destruct (isRapidLocationChange m p e); simpl; split; lia.
    + destruct (String.eqb_spec (type e) "device_switch") as [Hd|Hd].
      * simpl. split; lia.
      * destruct (String.eqb (type e) "login").
        -- destruct (loginAttempts e) as [n|]; [destruct (3 <? n)|]; simpl; split; lia.
        -- split; lia.
Qed.

Lemma processIncomingEvent_profile_counters calcs env m e0 uid :
  countersOf (activeUsers (fst (processIncomingEvent calcs env m e0)) !! uid)
  = if String.eqb (userId e0) uid
    then (S (fst (fst (countersOf (activeUsers m !! uid)))),
          (snd (fst (countersOf (activeUsers m !! uid)))
           + if String.eqb (type e0) "location_change" then 1 else 0)%nat,
          (snd (countersOf (activeUsers m !! uid))
           + if String.eqb (type e0) "device_switch" then 1 else 0)%nat)
    else countersOf (activeUsers m !! uid).
Proof.
  rewrite processIncomingEvent_activeUsers.
  destruct (String.eqb_spec (userId e0) uid) as [<-|Hne].
  - change (userId e0) with (userId (stampEvent env e0)) at 1.
    rewrite updateUserBehavior_lookup. simpl.
    pose proof (updateMetricsByType_counters (windowed env m e0)
      {| up_userId := up_userId (default (newProfile (stampEvent env e0)) (activeUsers m !! userId e0));
         firstSeen := firstSeen (default (newProfile (stampEvent env e0)) (activeUsers m !! userId e0));
         lastActivity := timestamp (stampEvent env e0);
         eventCount := S (eventCount (default (newProfile (stampEvent env e0)) (activeUsers m !! userId e0)));
         behaviorMetrics := behaviorMetrics (default (newProfile (stampEvent env e0)) (activeUsers m !! userId e0));
         riskHistory := riskHistory (default (newProfile (stampEvent env e0)) (activeUsers m !! userId e0)) |}
      (stampEvent env e0)) as [Hl Hd].
    simpl in Hl, Hd. rewrite Hl, Hd.
    destruct (activeUsers m !! userId e0); reflexivity.
  - rewrite updateUserBehavior_other by (simpl; congruence). reflexivity.
Qed.

Lemma eventsOf_snoc uid steps step :
  eventsOf uid (steps ++ [step])
  = (eventsOf uid steps + if String.eqb (userId (snd step)) uid then 1 else 0)%nat.
Proof.
  unfold eventsOf. rewrite List.filter_app, List.length_app. simpl.
  destruct (String.eqb (userId (snd step)) uid); reflexivity.
Qed.

Lemma eventsOfType_snoc uid t steps step :
  eventsOfType uid t (steps ++ [step])
  = (eventsOfType uid t steps
     + if String.eqb (userId (snd step)) uid && String.eqb (type (snd step)) t then 1 else 0)%nat.
Proof.
  unfold eventsOfType. rewrite List.filter_app, List.length_app. simpl.
  destruct (String.eqb (userId (snd step)) uid && String.eqb (type (snd step)) t); reflexivity.
Qed.

Lemma ingest_profile_counters calcs c steps uid :
  countersOf (activeUsers (ingest calcs steps (newMonitor c)) !! uid)
  = (eventsOf uid steps, eventsOfType uid "location_change" steps,
     eventsOfType uid "device_switch" steps).
Proof.
  induction steps as [|step steps IH] using rev_ind.
  - reflexivity.
  - rewrite ingest_snoc, processIncomingEvent_profile_counters, IH.
    rewrite eventsOf_snoc, !eventsOfType_snoc. simpl.
    destruct (String.eqb (userId (snd step)) uid); simpl; f_equal; try f_equal; lia.
Qed.

(** X3.  Over any run of [processIncomingEvent] from a new monitor, a
    user has a profile exactly when the run holds an event of that user,
    and the profile's [eventCount], [locationChanges] and
    [deviceSwitches] are the numbers of that user's events, location
    changes and device switches in the run. *)
Theorem ingest_profile_counts :
  forall (calcs : list (string * Calculator)) (c : Config) (steps : list (Env * Event))
         (uid : string),
    match activeUsers (ingest calcs steps (newMonitor c)) !! uid with
    | Some p =>
        eventCount p = eventsOf uid steps
        /\ (0 < eventsOf uid steps)%nat
        /\ locationChanges (behaviorMetrics p) = eventsOfType uid "location_change" steps
        /\ deviceSwitches (behaviorMetrics p) = eventsOfType uid "device_switch" steps
    | None => eventsOf uid steps = 0%nat
    end.
Proof.
  intros calcs c steps uid.
  pose proof (ingest_profile_counters calcs c steps uid) as H.
  destruct (activeUsers (ingest calcs steps (newMonitor c)) !! uid) as [p|] eqn:Hp.
  - simpl in H. injection H as H1 H2 H3. repeat split; try assumption.
    (* a profile is only created by an event of its user *)
    clear H2 H3. revert p Hp H1.
    induction steps as [|step steps IH] using rev_ind; intros p Hp H1.
    + simpl in Hp. rewrite lookup_empty in Hp. discriminate.
    + rewrite eventsOf_snoc.
      destruct (String.eqb_spec (userId (snd step)) uid) as [He|Hne]; [lia|].
      rewrite ingest_snoc, processIncomingEvent_activeUsers in Hp.
      rewrite updateUserBehavior_other in Hp by (simpl; congruence).
      change (activeUsers (windowed (fst step) (ingest calcs steps (newMonitor c)) (snd step)))
        with (activeUsers (ingest calcs steps (newMonitor c))) in Hp.
      pose proof (ingest_profile_counters calcs c steps uid) as Hc.
      rewrite Hp in Hc. simpl in Hc. injection Hc as Hc _ _.
      specialize (IH p Hp Hc). lia.
  - simpl in H. injection H as H1 _ _. now rewrite <- H1.
Qed.

End Runs.

Section Window.
Import RealTimeMonitor MonitorSpec MonitorSweep SweepSpec.

(** X4.  After [processIncomingEvent] every stored event is newer than
    [windowNow - monitoringWindow]; an event stamped at or before that
    cutoff is therefore dropped from the store in the call that ingests
    it, yet the profile of its user is created or updated all the same,
    with [lastActivity] set to the event's timestamp. *)
Theorem processIncomingEvent_window :
  forall (calcs : list (string * Calculator)) (env : Env) (m : Monitor) (e0 : Event),
    Forall (fun x => windowNow env - monitoringWindow (config m) < timestamp x)
      (eventStream (fst (processIncomingEvent calcs env m e0)))
    /\ (timestamp (stampEvent env e0) <= windowNow env - monitoringWindow (config m) ->
        eventStream (fst (processIncomingEvent calcs env m e0))
        = List.filter (fun x => windowNow env - monitoringWindow (config m) <? timestamp x)
            (eventStream m))
    /\ (exists p,
          activeUsers (fst (processIncomingEvent calcs env m e0)) !! userId e0 = Some p
          /\ lastActivity p = timestamp (stampEvent env e0)
          /\ (0 < eventCount p)%nat).
Proof.
  intros calcs env m e0. split; [|split].
  - rewrite processIncomingEvent_eventStream.
    apply List.Forall_forall. intros x Hx. apply List.filter_In in Hx as [_ Hx].
    now apply Z.ltb_lt in Hx.
  - intros Hstale. rewrite processIncomingEvent_eventStream, List.filter_app.
    cbn [List.filter].
    destruct (windowNow env - monitoringWindow (config m) <? timestamp (stampEvent env e0))
      eqn:E.
    + apply Z.ltb_lt in E. lia.
    + apply List.app_nil_r.
  - rewrite processIncomingEvent_activeUsers.
    change (userId e0) with (userId (stampEvent env e0)).
    rewrite updateUserBehavior_lookup. eexists. split; [reflexivity|].
    simpl. split; [reflexivity | lia].
Qed.

End Window.

Section NonLocationCap.
Import RealTimeMonitor MonitorSpec MonitorSweep SweepSpec.
Local Open Scope Q_scope.

(** In exact arithmetic the score of such an event is at most 4/9. *)
Lemma nonLocation_score_cap (m : Monitor) (e : Event) :
  type e <> "location_change"%string ->
  snd (calculateRealTimeRisk riskCalculators m e) <= 4 # 9.
Proof.
  intros Ht. apply String.eqb_neq in Ht.
  rewrite calculateRealTimeRisk_average.
  change (succeeded riskCalculators m e)
    with [calculateVelocityRisk m e; calculatePatternRisk m e; calculateLocationRisk m e;
          calculateDeviceRisk m e; calculateBehaviorRisk m e].
  unfold calculateVelocityRisk, calculatePatternRisk, calculateLocationRisk,
    calculateDeviceRisk, calculateBehaviorRisk.
  rewrite Ht. cbn [negb].
  destruct (activeUsers m !! userId e) as [p|]; [|vm_compute; discriminate].
  cbv zeta.
  match goal with
  | |- context [{| risk := ?v; weight := 0.25 |}] =>
      pose proof (Q.le_min_r (inject_Z (Z.of_nat (List.length (List.filter (fun e0 => String.eqb (userId e0) (userId e) && (timestamp e - 60000 <? timestamp e0)%Z) (eventStream m)))) / 10) 1) as Hv;
      set (rv := v) in *
  end.
  pose proof (Q.le_min_r (inject_Z (Z.of_nat (List.length (suspiciousActions (behaviorMetrics p)))) / 5) 1) as Hp.
  set (rp := Qmin (inject_Z (Z.of_nat (List.length (suspiciousActions (behaviorMetrics p)))) / 5) 1) in *.
  pose proof (Q.le_min_r (inject_Z (Z.of_nat (deviceSwitches (behaviorMetrics p))) / 2) 1) as Hd.
  set (rd := Qmin (inject_Z (Z.of_nat (deviceSwitches (behaviorMetrics p))) / 2) 1) in *.
  pose proof (Q.le_min_r (inject_Z (Z.of_nat (bettingVelocity (behaviorMetrics p))) / 100) 1) as Hb.
  set (rb := Qmin (inject_Z (Z.of_nat (bettingVelocity (behaviorMetrics p))) / 100) 1) in *.
  unfold weightNormalizedAverage.
  cbn [sumWeight sumRiskWeight List.fold_right risk weight].
  match goal with |- context [Qgtb ?w 0] => destruct (Qgtb w 0) eqn:E end; [|discriminate].
  apply Qle_shift_div_r; [apply Qgtb_true in E; exact E|]. lra.
Qed.

(** X5.  For an event whose type is not [location_change] the composite
    score of the five calculators stays below 1/2: the location
    calculator then adds weight 1 with risk 0, which leaves the other
    four at most 0.8 of a total weight of 1.8.  With an alert threshold
    of 1/2 or more, such as the default 0.7, [processIncomingEvent]
    raises no alert for such an event. *)
Theorem nonLocation_never_alerts :
  forall (env : Env) (m : Monitor) (e0 : Event),
    type e0 <> "location_change"%string ->
    1 # 2 <= alertThreshold (config m) ->
    snd (processIncomingEvent riskCalculators env m e0) < 1 # 2
    /\ alertQueue (fst (processIncomingEvent riskCalculators env m e0)) = alertQueue m.
Proof.
  intros env m e0 Ht Hthr.
  assert (Hcap : snd (processIncomingEvent riskCalculators env m e0) <= 4 # 9).
  { rewrite processIncomingEvent_score. apply nonLocation_score_cap. exact Ht. }
  split; [lra|].
  apply processIncomingEvent_no_alert. lra.
Qed.

Lemma nonLocation_never_alerts_witness :
  snd (processIncomingEvent riskCalculators MonitorExamples.firstBetEnv
         (newMonitor defaultConfig) MonitorExamples.firstBet) < 1 # 2
  /\ alertQueue (fst (processIncomingEvent riskCalculators MonitorExamples.firstBetEnv
                        (newMonitor defaultConfig) MonitorExamples.firstBet))
     = alertQueue (newMonitor defaultConfig).
Proof.
  apply (nonLocation_never_alerts MonitorExamples.firstBetEnv (newMonitor defaultConfig)
           MonitorExamples.firstBet); [discriminate | discriminate].
Defined.

End NonLocationCap.

Section Recommendations.
Import RealTimeMonitor MonitorSpec MonitorSweep SweepSpec.
Local Open Scope Q_scope.

(** X6.  The recommendations of an alert agree with its severity: each
    carries the severity's name as its priority, there is one for a
    critical score (account suspension, without manual review), two for
    a high one, one for a medium one, and none exactly when the severity
    is low. *)
Theorem recommendations_match_severity :
  forall (env : Env) (m : Monitor) (event : Event) (riskScore : Q),
    Forall (fun r => priority r = severityName (getSeverityLevel riskScore))
      (generateRecommendations event riskScore)
    /\ List.length (generateRecommendations event riskScore)
       = match getSeverityLevel riskScore with
         | critical => 1 | high => 2 | medium => 1 | low => 0
         end%nat
    /\ (getSeverityLevel riskScore = critical ->
        List.map action (generateRecommendations event riskScore)
        = ["immediate_account_suspension"%string])
    /\ recommendations (makeAlert env m event riskScore)
       = generateRecommendations event riskScore
    /\ severity (makeAlert env m event riskScore) = getSeverityLevel riskScore.
Proof.
  intros env m event riskScore.
  cut (Forall (fun r => priority r = severityName (getSeverityLevel riskScore))
         (generateRecommendations event riskScore)
       /\ List.length (generateRecommendations event riskScore)
          = match getSeverityLevel riskScore with
            | critical => 1 | high => 2 | medium => 1 | low => 0
            end%nat
       /\ (getSeverityLevel riskScore = critical ->
           List.map action (generateRecommendations event riskScore)
           = ["immediate_account_suspension"%string])).
  { intros (H1 & H2 & H3). repeat split; assumption. }
  unfold generateRecommendations, getSeverityLevel.
  destruct (Qgeb riskScore 0.9); [|destruct (Qgeb riskScore 0.7); [|destruct (Qgeb riskScore 0.5)]].
  - split; [repeat (constructor; [reflexivity|]); constructor|].
    split; reflexivity.
  - split; [repeat (constructor; [reflexivity|]); constructor|].
    split; [reflexivity | discriminate].
  - split; [repeat (constructor; [reflexivity|]); constructor|].
    split; [reflexivity | discriminate].
  - split; [constructor|].
    split; [reflexivity | discriminate].
Qed.

End Recommendations.

Section FirstLocationChange.
Import RealTimeMonitor MonitorSpec MonitorSweep SweepSpec.

Lemma insert_desc_length x l : List.length (insert_desc x l) = S (List.length l).
Proof.
  induction l as [|y l IH]; [reflexivity|].
  simpl. destruct (timestamp y <=? timestamp x); simpl; [reflexivity | now rewrite IH].
Qed.

Lemma sort_desc_length l : List.length (sort_desc l) = List.length l.
Proof.
  induction l as [|x l IH]; [reflexivity|].
  unfold sort_desc in *. simpl. now rewrite insert_desc_length, IH.
Qed.

Lemma filter_and_nil {A} (f g : A -> bool) (l : list A) :
  List.filter f l = [] -> List.filter (fun x => f x && g x) l = [].
Proof.
  induction l as [|x l IH]; [reflexivity|]. simpl.
  destruct (f x); [discriminate|]. simpl. exact IH.
Qed.

(** With fewer than two location changes of the user in the store there
    is no second most recent one to compare with. *)
Lemma isRapidLocationChange_few m p e :
  (List.length
     (List.filter (fun x => String.eqb (userId x) (up_userId p)
                            && String.eqb (type x) "location_change") (eventStream m))
   <= 1)%nat ->
  isRapidLocationChange m p e = false.
Proof.
  intros Hlen. unfold isRapidLocationChange.
  destruct (nth_error _ 1) as [l|] eqn:E; [|reflexivity].
  exfalso. assert (Hlt : (1 < List.length (sort_desc
    (List.filter (fun x => String.eqb (userId x) (up_userId p)
                           && String.eqb (type x) "location_change") (eventStream m))))%nat).
  { apply List.nth_error_Some. rewrite E. discriminate. }
  rewrite sort_desc_length in Hlt. lia.
Qed.

(** X7.  A [location_change] event of a user who has no profile and no
    location change in the store leaves that user with
    [locationChanges = 1] and no suspicious action: with no earlier
    change to compare with, the change is not a rapid one.  The location
    risk of the event is then [min(1/3, 1)]. *)
Theorem first_location_change :
  forall (calcs : list (string * Calculator)) (env : Env) (m : Monitor) (e0 : Event),
    type e0 = "location_change"%string ->
    activeUsers m !! userId e0 = None ->
    locationChangesOf (userId e0) (eventStream m) = [] ->
    exists p,
      activeUsers (fst (processIncomingEvent calcs env m e0)) !! userId e0 = Some p
      /\ locationChanges (behaviorMetrics p) = 1%nat
      /\ suspiciousActions (behaviorMetrics p) = []
      /\ calculateLocationRisk (fst (processIncomingEvent calcs env m e0)) (stampEvent env e0)
         = {| risk := Qmin (inject_Z 1 / 3) 1; weight := 0.2 |}.
Proof.
  intros calcs env m e0 Ht Hnone Hfresh.
  assert (Hfew : isRapidLocationChange (windowed env m e0)
            {| up_userId := userId e0; firstSeen := timestamp (stampEvent env e0);
               lastActivity := timestamp (stampEvent env e0); eventCount := 1;
               behaviorMetrics := behaviorMetrics (newProfile (stampEvent env e0));
               riskHistory := [] |} (stampEvent env e0) = false).
  { apply isRapidLocationChange_few. simpl.
    rewrite filter_filter_bool.
    rewrite List.filter_app, List.length_app.
    assert (H0 : List.filter
      (fun x => (String.eqb (userId x) (userId e0) && String.eqb (type x) "location_change")
                && (windowNow env - monitoringWindow (config m) <? timestamp x))
      (eventStream m) = []).
    { apply filter_and_nil. exact Hfresh. }
    rewrite H0. simpl.
    destruct (_ && _); simpl; lia. }
  assert (Hp : activeUsers (fst (processIncomingEvent calcs env m e0)) !! userId e0
    = Some (updateBehaviorMetrics (windowed env m e0)
        {| up_userId := userId e0; firstSeen := timestamp (stampEvent env e0);
           lastActivity := timestamp (stampEvent env e0); eventCount := 1;
           behaviorMetrics := behaviorMetrics (newProfile (stampEvent env e0));
           riskHistory := [] |} (stampEvent env e0))).
  { rewrite processIncomingEvent_activeUsers.
    change (userId e0) with (userId (stampEvent env e0)) at 1.
    rewrite updateUserBehavior_lookup.
    change (activeUsers (windowed env m e0)) with (activeUsers m).
    change (userId (stampEvent env e0)) with (userId e0). rewrite Hnone. reflexivity. }
  eexists. split; [exact Hp|].
  unfold calculateLocationRisk.
  change (type (stampEvent env e0)) with (type e0).
  change (userId (stampEvent env e0)) with (userId e0).
  rewrite Hp, Ht. cbn [String.eqb negb].
  unfold updateBehaviorMetrics, updateMetricsByType.
  change (type (stampEvent env e0)) with (type e0). rewrite Ht.
  cbn [String.eqb]. rewrite Hfew. simpl. repeat split.
Qed.

Lemma first_location_change_witness :
  exists p,
    activeUsers (fst (processIncomingEvent riskCalculators MonitorExamples.firstBetEnv
                        (newMonitor defaultConfig) firstMove)) !! userId firstMove = Some p
    /\ locationChanges (behaviorMetrics p) = 1%nat
    /\ suspiciousActions (behaviorMetrics p) = []
    /\ calculateLocationRisk
         (fst (processIncomingEvent riskCalculators MonitorExamples.firstBetEnv
                 (newMonitor defaultConfig) firstMove))
         (stampEvent MonitorExamples.firstBetEnv firstMove)
       = {| risk := Qmin (inject_Z 1 / 3) 1; weight := 0.2 |}.
Proof.
  apply (first_location_change riskCalculators MonitorExamples.firstBetEnv
           (newMonitor defaultConfig) firstMove); reflexivity.
Defined.

End FirstLocationChange.

Section Aggregate.
Import RealTimeMonitor MonitorSpec MonitorSweep SweepSpec.
Local Open Scope Q_scope.

Lemma sameButRiskScores_refl m : sameButRiskScores m m.
Proof. repeat split. Qed.

Lemma sameButRiskScores_trans m1 m2 m3 :
  sameButRiskScores m1 m2 -> sameButRiskScores m2 m3 -> sameButRiskScores m1 m3.
Proof.
  intros (A1 & A2 & A3 & A4 & A5 & A6) (B1 & B2 & B3 & B4 & B5 & B6).
  repeat split; congruence.
Qed.

Lemma calculateRealTimeRisk_frame calcs m e :
  sameButRiskScores m (fst (calculateRealTimeRisk calcs m e)).
Proof. repeat split. Qed.

Lemma calculateRealTimeRisk_five_bounds m e :
  0 <= snd (calculateRealTimeRisk riskCalculators m e)
  /\ snd (calculateRealTimeRisk riskCalculators m e) <= 1.
Proof.
  rewrite calculateRealTimeRisk_average.
  apply average_bounded, succeeded_bounded, riskCalculators_bounded.
Qed.

Lemma sumRisks_from (risks : list Q) (a : Q) :
  List.fold_left Qplus risks a == a + sumRisks risks.
Proof.
  unfold sumRisks. revert a. induction risks as [|r risks IH]; intros a; simpl.
  - ring.
  - rewrite IH, (IH (0 + r)). ring.
Qed.

Lemma sumRisks_bounds (risks : list Q) :
  Forall (fun r => 0 <= r /\ r <= 1) risks ->
  0 <= sumRisks risks /\ sumRisks risks <= inject_Z (Z.of_nat (List.length risks)).
Proof.
  induction 1 as [|r risks [H0 H1] _ [IH0 IH1]].
  - split; discriminate.
  - unfold sumRisks. simpl. rewrite sumRisks_from.
    change (inject_Z (Z.of_nat (S (List.length risks))))
      with (inject_Z (Z.of_nat (S (List.length risks)))).
    rewrite Nat2Z.inj_succ. unfold Z.succ. rewrite inject_Z_plus.
    change (inject_Z 1) with 1. split; lra.
Qed.

Lemma aggregateStep_fold events :
  forall m risks,
    Forall (fun r => 0 <= r /\ r <= 1) risks ->
    sameButRiskScores m
      (fst (List.fold_left (aggregateStep riskCalculators) events (m, risks)))
    /\ Forall (fun r => 0 <= r /\ r <= 1)
         (snd (List.fold_left (aggregateStep riskCalculators) events (m, risks)))
    /\ List.length (snd (List.fold_left (aggregateStep riskCalculators) events (m, risks)))
       = (List.length risks + List.length events)%nat.
Proof.
  induction events as [|e events IH]; intros m risks Hr.
  - simpl. split; [apply sameButRiskScores_refl|]. split; [exact Hr | lia].
  - cbn [List.fold_left].
    change (aggregateStep riskCalculators (m, risks) e)
      with (fst (calculateRealTimeRisk riskCalculators m e),
            risks ++ [snd (calculateRealTimeRisk riskCalculators m e)]).
    destruct (IH (fst (calculateRealTimeRisk riskCalculators m e))
                (risks ++ [snd (calculateRealTimeRisk riskCalculators m e)])) as (F & B & L).
    { apply List.Forall_app. split; [exact Hr|]. constructor; [|constructor].
      apply calculateRealTimeRisk_five_bounds. }
    split; [|split].
    + eapply sameButRiskScores_trans; [apply calculateRealTimeRisk_frame | exact F].
    + exact B.
    + rewrite L, List.length_app. simpl. lia.
Qed.

Lemma calculateAggregateRisk_spec m events :
  sameButRiskScores m (fst (calculateAggregateRisk riskCalculators m events))
  /\ 0 <= snd (calculateAggregateRisk riskCalculators m events)
  /\ snd (calculateAggregateRisk riskCalculators m events) <= 1.
Proof.
  destruct events as [|e events].
  - simpl. split; [apply sameButRiskScores_refl|]. split; discriminate.
  - unfold calculateAggregateRisk.
    destruct (aggregateStep_fold (e :: events) m [] (List.Forall_nil _)) as (F & B & L).
    cbv zeta. cbn [fst snd]. split; [exact F|].
    destruct (sumRisks_bounds _ B) as [S0 S1].
    assert (Hpos : 0 < inject_Z (Z.of_nat (List.length
       (snd (List.fold_left (aggregateStep riskCalculators) (e :: events) (m, [])))))).
    { rewrite L. simpl List.length. change 0 with (inject_Z 0). rewrite <- Zlt_Qlt. lia. }
    split.
    + apply Qle_shift_div_l; [exact Hpos|]. now rewrite Qmult_0_l.
    + apply Qle_shift_div_r; [exact Hpos|]. now rewrite Qmult_1_l.
Qed.

Lemma sameButHistory_refl m : sameButHistory m m.
Proof. repeat split. Qed.

Lemma sameButHistory_trans m1 m2 m3 :
  sameButHistory m1 m2 -> sameButHistory m2 m3 -> sameButHistory m1 m3.
Proof.
  intros (A1 & A2 & A3 & A4 & A5 & A6) (B1 & B2 & B3 & B4 & B5 & B6).
  repeat split; congruence.
Qed.

Lemma aggregateUser_frame ck m uid :
  sameButHistory m (aggregateUser riskCalculators ck m uid).
Proof.
  unfold aggregateUser.
  destruct (activeUsers m !! uid) as [p|] eqn:Hp; [|apply sameButHistory_refl].
  destruct (List.filter _ (eventStream m)) as [|e recent] eqn:Er; [apply sameButHistory_refl|].
  cbv zeta.
  destruct (calculateAggregateRisk_spec m (e :: recent)) as ((F1 & F2 & F3 & F4 & F5 & F6) & _).
  split; [exact F1|]. split; [exact F3|]. split; [exact F4|]. split; [exact F6|].
  split; [exact F5|].
  intros uid'. cbn [activeUsers set_activeUsers].
  destruct (decide (uid' = uid)) as [->|Hne].
  - rewrite lookup_insert_eq, Hp. reflexivity.
  - rewrite lookup_insert_ne by congruence. now rewrite F2.
Qed.

(** X8.  [calculateAggregateRisk] over the five calculators returns a
    value in [0,1] (0 for no event) and changes nothing but the live risk
    entries; the periodic [calculateAggregateRisks] changes nothing but
    those entries and the risk histories: it raises no alert, and keeps
    the event store, the set of users and their behaviour metrics. *)
Theorem aggregate_risk_frame :
  forall (clockOf : string -> SweepClock) (m : Monitor) (events : list Event),
    0 <= snd (calculateAggregateRisk riskCalculators m events)
    /\ snd (calculateAggregateRisk riskCalculators m events) <= 1
    /\ snd (calculateAggregateRisk riskCalculators m []) = 0
    /\ sameButRiskScores m (fst (calculateAggregateRisk riskCalculators m events))
    /\ sameButHistory m (calculateAggregateRisks riskCalculators clockOf m).
Proof.
  intros clockOf m events.
  destruct (calculateAggregateRisk_spec m events) as (F & H0 & H1).
  split; [exact H0|]. split; [exact H1|]. split; [reflexivity|]. split; [exact F|].
  unfold calculateAggregateRisks.
  generalize (List.map fst (map_to_list (activeUsers m))). intros uids.
  assert (Hgen : forall acc, sameButHistory m acc ->
    sameButHistory m (List.fold_left
      (fun acc uid => aggregateUser riskCalculators (clockOf uid) acc uid) uids acc)).
  { induction uids as [|uid uids IH]; intros acc Hacc; simpl; [exact Hacc|].
    apply IH. eapply sameButHistory_trans; [exact Hacc | apply aggregateUser_frame]. }
  apply Hgen, sameButHistory_refl.
Qed.

End Aggregate.

(** * Further properties of the network analyzer *)

Section FingerprintSimilarity.
Import NetworkAnalyzer NetworkProfiles.
Local Open Scope Q_scope.

Lemma matchingPositions_sym a b : matchingPositions a b = matchingPositions b a.
Proof.
  revert b. induction a as [|x a IH]; intros [|y b]; simpl; try reflexivity.
  rewrite IH, (Ascii.eqb_sym x y). reflexivity.
Qed.

Lemma matchingPositions_le a b :
  (matchingPositions a b <= Nat.min (String.length a) (String.length b))%nat.
Proof.
  revert b. induction a as [|x a IH]; intros [|y b]; simpl; try lia.
  specialize (IH b). destruct (Ascii.eqb x y); lia.
Qed.

Lemma matchingPositions_full a b :
  matchingPositions a b = Nat.max (String.length a) (String.length b) <-> a = b.
Proof.
  split.
  - revert b. induction a as [|x a IH]; intros [|y b]; simpl; try discriminate; try reflexivity.
    intros H. pose proof (matchingPositions_le a b) as Hle.
    destruct (Ascii.eqb_spec x y) as [->|Hne]; [|lia].
    f_equal. apply IH. lia.
  - intros <-. induction a as [|x a IH]; simpl; [reflexivity|].
    rewrite Ascii.eqb_refl, IH, Nat.max_id. reflexivity.
Qed.

Lemma ratio_one (n t : nat) :
  (0 < t)%nat -> (inject_Z (Z.of_nat n) / inject_Z (Z.of_nat t) == 1 <-> n = t).
Proof.
  intros Ht.
  assert (Hpos : 0 < inject_Z (Z.of_nat t)).
  { change 0 with (inject_Z 0). rewrite <- Zlt_Qlt. lia. }
  split.
  - intros H.
    assert (H' : inject_Z (Z.of_nat n) == inject_Z (Z.of_nat t)).
    { rewrite <- (Qmult_1_l (inject_Z (Z.of_nat t))), <- H. field.
      intros E. rewrite E in Hpos. discriminate. }
    unfold Qeq in H'. simpl in H'. lia.
  - intros ->. field. intros E. rewrite E in Hpos. discriminate.
Qed.

Lemma fingerprint_similarity_bounds_aux a b q :
  calculateFingerprintSimilarity a b = Some q ->
  0 <= q /\ q <= 1 /\ (q == 1 <-> a = b).
Proof.
  unfold calculateFingerprintSimilarity.
  pose proof (matchingPositions_le a b) as Hle.
  pose proof (matchingPositions_full a b) as Hfull.
  destruct (Nat.max (String.length a) (String.length b)) as [|t] eqn:Et; [discriminate|].
  intros [= <-].
  assert (Hpos : 0 < inject_Z (Z.of_nat (S t))).
  { change 0 with (inject_Z 0). rewrite <- Zlt_Qlt. lia. }
  split; [|split].
  - apply Qle_shift_div_l; [exact Hpos|]. rewrite Qmult_0_l.
    change 0 with (inject_Z 0). rewrite <- Zle_Qle. lia.
  - apply Qle_shift_div_r; [exact Hpos|]. rewrite Qmult_1_l.
    rewrite <- Zle_Qle. lia.
  - rewrite ratio_one by lia. exact Hfull.
Qed.

(** X9.  [calculateFingerprintSimilarity] is symmetric; it is [NaN]
    exactly for two empty strings, and otherwise a number in [0,1] that
    is 1 exactly when the two strings are equal. *)
Theorem fingerprint_similarity_range :
  forall (fingerprint1 fingerprint2 : string),
    calculateFingerprintSimilarity fingerprint1 fingerprint2
      = calculateFingerprintSimilarity fingerprint2 fingerprint1
    /\ (calculateFingerprintSimilarity fingerprint1 fingerprint2 = None <->
        fingerprint1 = EmptyString /\ fingerprint2 = EmptyString)
    /\ (forall q, calculateFingerprintSimilarity fingerprint1 fingerprint2 = Some q ->
          0 <= q /\ q <= 1 /\ (q == 1 <-> fingerprint1 = fingerprint2)).
Proof.
  intros a b. unfold calculateFingerprintSimilarity. split; [|split].
  - now rewrite matchingPositions_sym, Nat.max_comm.
  - destruct a as [|x a], b as [|y b]; simpl; split; try discriminate; try tauto;
      intros [? ?]; discriminate.
  - intros q. apply fingerprint_similarity_bounds_aux.
Qed.

(** X10.  [findSimilarFingerprints] returns, in the map's order, exactly
    the recorded fingerprints other than the target whose similarity to
    the target reaches the threshold; the target itself is never among
    them, and with a threshold of 1 or more the result is empty. *)
Theorem findSimilarFingerprints_spec :
  forall (threshold : Q) (deviceFingerprints : list (string * DeviceProfile))
         (target : string),
    (forall r,
       List.In r (findSimilarFingerprints threshold deviceFingerprints target) <->
       exists key d,
         List.In (key, d) deviceFingerprints /\ key <> target
         /\ calculateFingerprintSimilarity target key = Some (sf_similarity r)
         /\ threshold <= sf_similarity r
         /\ sf_fingerprint r = key /\ sf_users r = dev_users d)
    /\ (1 <= threshold -> findSimilarFingerprints threshold deviceFingerprints target = []).
Proof.
  intros threshold fps target. split.
  - intros r. unfold findSimilarFingerprints. rewrite List.in_flat_map. split.
    + intros [[key d] [Hin Hr]]. simpl in Hr.
      destruct (String.eqb_spec key target) as [->|Hne]; [destruct Hr|].
      destruct (calculateFingerprintSimilarity target key) as [q|] eqn:Eq; [|destruct Hr].
      destruct (Qgeb q threshold) eqn:Eg; [|destruct Hr].
      destruct Hr as [<-|[]]. apply Qgeb_true in Eg.
      exists key, d. simpl. repeat split; assumption.
    + intros (key & d & Hin & Hne & Hs & Hq & Hk & Hu).
      exists (key, d). split; [exact Hin|]. simpl.
      apply String.eqb_neq in Hne. rewrite Hne, Hs.
      apply Qgeb_true in Hq. rewrite Hq. left.
      destruct r as [f q u]. simpl in *. now subst.
  - intros Hthr. unfold findSimilarFingerprints.
    induction fps as [|[key d] fps IH]; [reflexivity|]. simpl. rewrite IH.
    destruct (String.eqb_spec key target) as [->|Hne]; [reflexivity|].
    destruct (calculateFingerprintSimilarity target key) as [q|] eqn:Eq; [|reflexivity].
    destruct (Qgeb q threshold) eqn:Eg; [|reflexivity].
    exfalso. apply Qgeb_true in Eg.
    destruct (fingerprint_similarity_bounds_aux target key q Eq) as (_ & H1 & Hone).
    apply Hne. symmetry. apply Hone. apply Qle_antisym; [exact H1 | lra].
Qed.

End FingerprintSimilarity.

Section History.
Import NetworkAnalyzer NetworkProfiles ProfilesSpec.

Lemma capHistory_spec {A} (h : list A) :
  (List.length (capHistory h) <= maxHistorySize)%nat
  /\ capHistory h = skipn (List.length h - maxHistorySize) h
  /\ ((List.length h <= maxHistorySize)%nat -> capHistory h = h)
  /\ List.length (capHistory h) = Nat.min (List.length h) maxHistorySize.
Proof.
  unfold capHistory, sliceLast.
  destruct (Nat.ltb_spec maxHistorySize (List.length h)) as [Hlt|Hle].
  - rewrite List.length_skipn. repeat split; try lia.
  - replace (List.length h - maxHistorySize)%nat with 0%nat by lia.
    simpl. repeat split; try lia.
Qed.

Lemma capHistory_idem {A} (h : list A) : capHistory (capHistory h) = capHistory h.
Proof.
  destruct (capHistory_spec h) as (Hlen & _).
  destruct (capHistory_spec (capHistory h)) as (_ & _ & Hid & _).
  apply Hid. exact Hlen.
Qed.

Lemma capHistory_suffix {A} (h : list A) : capHistory h `suffix_of` h.
Proof.
  destruct (capHistory_spec h) as (_ & -> & _).
  exists (firstn (List.length h - maxHistorySize) h).
  symmetry. apply List.firstn_skipn.
Qed.

Lemma capHistory_snoc {A} (l : list A) (x : A) :
  capHistory (sliceLast maxHistorySize l ++ [x]) = sliceLast maxHistorySize (l ++ [x]).
Proof.
  unfold capHistory, sliceLast. rewrite !List.length_app, List.length_skipn.
  cbn [List.length].
  destruct (Nat.le_gt_cases maxHistorySize (List.length l)) as [Hge|Hlt].
  - destruct (Nat.ltb_spec maxHistorySize
                (List.length l - (List.length l - maxHistorySize) + 1)) as [_|Hle]; [|lia].
    replace (List.length l - (List.length l - maxHistorySize) + 1 - maxHistorySize)%nat
      with 1%nat by lia.
    rewrite !List.skipn_app, List.skipn_skipn, !List.length_skipn.
    replace (1 - (List.length l - (List.length l - maxHistorySize)))%nat with 0%nat
      by (unfold maxHistorySize in *; lia).
    replace (List.length l + 1 - maxHistorySize - List.length l)%nat with 0%nat
      by (unfold maxHistorySize; lia).
    f_equal. f_equal. lia.
  - destruct (Nat.ltb_spec maxHistorySize
                (List.length l - (List.length l - maxHistorySize) + 1)) as [Hc|_]; [lia|].
    replace (List.length l - maxHistorySize)%nat with 0%nat by lia.
    replace (List.length l + 1 - maxHistorySize)%nat with 0%nat by lia.
    reflexivity.
Qed.

(** X11.  [maintainHistorySize] leaves at most 100 entries in each of the
    three histories, keeps of each history exactly its most recent
    entries (a suffix), changes nothing on a profile whose histories are
    within the bound, and is idempotent. *)
Theorem maintainHistorySize_bounds :
  forall (profile : NetworkProfile),
    let kept := maintainHistorySize profile in
    List.length (ipHistory kept) = Nat.min (List.length (ipHistory profile)) 100
    /\ List.length (deviceHistory kept) = Nat.min (List.length (deviceHistory profile)) 100
    /\ List.length (locationHistory kept) = Nat.min (List.length (locationHistory profile)) 100
    /\ ipHistory kept `suffix_of` ipHistory profile
    /\ deviceHistory kept `suffix_of` deviceHistory profile
    /\ locationHistory kept `suffix_of` locationHistory profile
    /\ networkPatterns kept = networkPatterns profile
    /\ maintainHistorySize kept = kept
    /\ ((List.length (ipHistory profile) <= 100)%nat ->
        (List.length (deviceHistory profile) <= 100)%nat ->
        (List.length (locationHistory profile) <= 100)%nat ->
        kept = profile).
Proof.
  intros profile kept. subst kept. unfold maintainHistorySize. simpl.
  repeat split; try apply capHistory_suffix; try apply capHistory_spec.
  - now rewrite !capHistory_idem.
  - intros H1 H2 H3. destruct profile as [u c ih dh lh np]. simpl in *.
    f_equal; apply capHistory_spec; assumption.
Qed.

Lemma updateProfiles_snoc getLocation visits v profiles :
  updateProfiles getLocation (visits ++ [v]) profiles
  = updateUserNetworkProfile getLocation (fst (fst v))
      (updateProfiles getLocation visits profiles) (snd (fst v)) (snd v).
Proof. unfold updateProfiles. now rewrite List.fold_left_app. Qed.

Lemma visitsOf_snoc userId visits v :
  visitsOf userId (visits ++ [v])
  = visitsOf userId visits
    ++ (if String.eqb (snd (fst v)) userId then [(fst (fst v), snd v)] else []).
Proof. unfold visitsOf. rewrite List.flat_map_app. simpl. now rewrite List.app_nil_r. Qed.

Lemma list_to_set_snoc (l : list string) (x : string) :
  list_to_set (l ++ [x]) =@{gset string} list_to_set l ∪ {[ x ]}.
Proof. rewrite list_to_set_app_L. simpl. now rewrite (right_id_L ∅ (∪)). Qed.

Lemma capHistory_sliceLast {A} (l : list A) :
  capHistory (sliceLast maxHistorySize l) = sliceLast maxHistorySize l.
Proof.
  unfold capHistory, sliceLast. rewrite List.length_skipn.
  destruct (Nat.ltb_spec maxHistorySize (List.length l - (List.length l - maxHistorySize)))
    as [Hlt|Hle]; [lia|reflexivity].
Qed.

Lemma profileMatches_step getLocation userId mine ck networkInfo base :
  (mine = [] /\ base = newNetworkProfile ck userId \/ profileMatches getLocation userId mine base) ->
  profileMatches getLocation userId (mine ++ [(ck, networkInfo)])
    (maintainHistorySize
       {| np_userId := np_userId base;
          createdAt := createdAt base;
          ipHistory := ipHistory base ++ [(ni_ipAddress networkInfo, ipNow ck)];
          deviceHistory :=
            deviceHistory base ++ [(ni_browserFingerprint networkInfo, deviceNow ck)];
          locationHistory :=
            match getLocation (ni_ipAddress networkInfo) with
            | Some l => locationHistory base ++ [(l, locationNow ck)]
            | None => locationHistory base
            end;
          networkPatterns :=
            {| preferredIPs :=
                 preferredIPs (networkPatterns base) ∪ {[ ni_ipAddress networkInfo ]};
               preferredDevices :=
                 preferredDevices (networkPatterns base)
                 ∪ {[ ni_browserFingerprint networkInfo ]};
               typicalLocations :=
                 match getLocation (ni_ipAddress networkInfo) with
                 | Some l => typicalLocations (networkPatterns base) ∪ {[ locationKey l ]}
                 | None => typicalLocations (networkPatterns base)
                 end |} |}).
Proof.
  intros Hbase.
  assert (H : profileMatches getLocation userId mine base).
  { destruct Hbase as [[-> ->]|H]; [|exact H]. repeat split. }
  clear Hbase. destruct H as (Hu & Hip & Hdev & Hloc & Hpi & Hpd & Htl).
  unfold profileMatches, maintainHistorySize.
  cbn [np_userId ipHistory deviceHistory locationHistory networkPatterns
       preferredIPs preferredDevices typicalLocations].
  rewrite Hip, Hdev, Hloc, Hpi, Hpd, Htl.
  unfold locationsOf. rewrite !List.map_app, List.flat_map_app. cbn [List.map List.flat_map fst snd].
  change 100%nat with maxHistorySize.
  rewrite !capHistory_snoc, !list_to_set_snoc.
  split; [exact Hu|]. split; [reflexivity|]. split; [reflexivity|].
  destruct (getLocation (ni_ipAddress networkInfo)) as [l|].
  - rewrite capHistory_snoc. simpl. rewrite List.map_app. simpl.
    rewrite list_to_set_snoc. repeat split.
  - simpl. rewrite !List.app_nil_r, capHistory_sliceLast. repeat split.
Qed.

(** X12.  After any run of [updateUserNetworkProfile] that starts with no
    profiles, a user has a profile exactly when one of the visits was
    theirs.  Its IP, device and location histories are then the last 100
    of that user's visits, in order, and the preferred addresses,
    devices and typical locations are those of all the user's visits,
    also of visits no longer in the histories. *)
Theorem updateProfiles_history :
  forall (getLocation : string -> option Location)
         (visits : list (ProfileClock * string * NetworkInfo)) (userId : string),
    match updateProfiles getLocation visits ∅ !! userId with
    | Some p =>
        0 < Z.of_nat (List.length (visitsOf userId visits))
        /\ profileMatches getLocation userId (visitsOf userId visits) p
    | None => visitsOf userId visits = []
    end.
Proof.
  intros getLocation visits userId.
  induction visits as [|[[ck uid] info] visits IH] using List.rev_ind.
  - reflexivity.
  - rewrite updateProfiles_snoc, visitsOf_snoc. cbn [fst snd].
    unfold updateUserNetworkProfile.
    destruct (String.eqb_spec uid userId) as [->|Hne].
    + rewrite lookup_insert_eq. rewrite List.length_app. simpl.
      split; [lia|]. apply profileMatches_step.
      destruct (updateProfiles getLocation visits ∅ !! userId) as [p|].
      * right. apply IH.
      * left. split; [exact IH|reflexivity].
    + rewrite lookup_insert_ne by exact Hne. rewrite List.app_nil_r. exact IH.
Qed.

End History.

Section Clusters.
Import NetworkAnalyzer NetworkProfiles ProfilesSpec.

Lemma getCluster_setCluster_eq ip c clusters :
  getCluster ip (setCluster ip c clusters) = Some c.
Proof.
  induction clusters as [|[k old] rest IH]; simpl.
  - now rewrite String.eqb_refl.
  - destruct (String.eqb k ip) eqn:E; simpl; rewrite E; [reflexivity | exact IH].
Qed.

Lemma getCluster_setCluster_ne ip other c clusters :
  other <> ip -> getCluster other (setCluster ip c clusters) = getCluster other clusters.
Proof.
  intros Hne. induction clusters as [|[k old] rest IH]; simpl.
  - destruct (String.eqb_spec ip other) as [->|_]; [contradiction | reflexivity].
  - destruct (String.eqb_spec k ip) as [->|Hk]; simpl.
    + destruct (String.eqb_spec ip other) as [->|_]; [contradiction | reflexivity].
    + now rewrite IH.
Qed.

Lemma analyzeIPBehavior_users threshold detector ck clusters userId ip :
  usersAt ip (fst (analyzeIPBehavior threshold detector ck clusters userId ip))
  = usersAt ip clusters ∪ {[ userId ]}.
Proof.
  unfold usersAt, analyzeIPBehavior. cbn [fst]. rewrite getCluster_setCluster_eq.
  destruct (getCluster ip clusters) as [c|]; simpl; [reflexivity|].
  now rewrite (left_id_L ∅ (∪)).
Qed.

Lemma visitAll_users threshold detector ck ip users :
  forall clusters,
    usersAt ip (visitAll threshold detector ck ip users clusters)
    = usersAt ip clusters ∪ list_to_set users.
Proof.
  induction users as [|u users IH]; intros clusters.
  - simpl. now rewrite (right_id_L ∅ (∪)).
  - unfold visitAll in *. cbn [List.fold_left]. rewrite IH, analyzeIPBehavior_users.
    simpl. now rewrite (assoc_L (∪)).
Qed.

Lemma visitAll_other threshold detector ck ip other users :
  other <> ip ->
  forall clusters,
    getCluster other (visitAll threshold detector ck ip users clusters)
    = getCluster other clusters.
Proof.
  intros Hne. induction users as [|u users IH]; intros clusters; [reflexivity|].
  unfold visitAll in *. cbn [List.fold_left]. rewrite IH.
  unfold analyzeIPBehavior. cbn [fst]. now apply getCluster_setCluster_ne.
Qed.

(** X13.  The [sharedUsers] that [analyzeIPBehavior] reports for an
    address is the number of distinct users seen at it so far, whatever
    the number and order of their visits: a user who returns is not
    counted again.  [isSharedIP] holds exactly when that number exceeds
    the threshold, and the clusters of other addresses are untouched. *)
Theorem analyzeIPBehavior_distinct_users :
  forall (suspiciousNetworkThreshold : Z) (detector : DetectorAnswers) (ck : ClusterClock)
         (clusters : list (string * IPCluster)) (ipAddress : string)
         (earlier : list string) (userId : string),
    let seen := visitAll suspiciousNetworkThreshold detector ck ipAddress earlier clusters in
    let result := analyzeIPBehavior suspiciousNetworkThreshold detector ck seen userId ipAddress in
    let everyone := usersAt ipAddress clusters ∪ list_to_set earlier ∪ {[ userId ]} in
    ia_sharedUsers (snd result) = size everyone
    /\ ia_isSharedIP (snd result) = (suspiciousNetworkThreshold <? Z.of_nat (size everyone))
    /\ usersAt ipAddress (fst result) = everyone
    /\ (userId ∈ usersAt ipAddress clusters ∪ list_to_set earlier ->
        ia_sharedUsers (snd result)
        = size (usersAt ipAddress clusters ∪ list_to_set earlier))
    /\ (forall other, other <> ipAddress ->
          getCluster other (fst result) = getCluster other clusters).
Proof.
  intros threshold detector ck clusters ip earlier userId seen result everyone.
  assert (Hall : usersAt ip (fst result) = everyone).
  { subst result everyone seen. now rewrite analyzeIPBehavior_users, visitAll_users. }
  assert (Hsize : ia_sharedUsers (snd result) = size everyone).
  { rewrite <- Hall. subst result. unfold analyzeIPBehavior, usersAt. cbn [fst snd ia_sharedUsers].
    now rewrite getCluster_setCluster_eq. }
  split; [exact Hsize|]. split; [|split; [exact Hall|split]].
  - rewrite <- Hsize. reflexivity.
  - intros Hin. rewrite Hsize. subst everyone.
    replace (usersAt ip clusters ∪ list_to_set earlier ∪ {[ userId ]})
      with (usersAt ip clusters ∪ list_to_set earlier); [reflexivity|].
    symmetry. rewrite (comm_L (∪) _ {[ userId ]}). apply subseteq_union_1_L.
    now apply singleton_subseteq_l.
  - intros other Hne. subst result. unfold analyzeIPBehavior. cbn [fst].
    rewrite getCluster_setCluster_ne by exact Hne.
    subst seen. now apply visitAll_other.
Qed.

Local Open Scope Q_scope.

(** X14.  The category risk that [calculateCategoryRisk] gives to the
    analysis returned by [analyzeIPBehavior] under the default threshold
    of 5: an address with more than five users scores 0.7 from sharing
    alone (0.3 for [isSharedIP] and 0.4 for [sharedUsers > 5], which then
    hold together), to which the detector's answers add 0.4, 0.3 and 0.8,
    capped at 1. *)
Theorem shared_ip_category_risk :
  forall (detector : DetectorAnswers) (ck : ClusterClock)
         (clusters : list (string * IPCluster)) (userId ipAddress : string),
    let a := snd (analyzeIPBehavior 5 detector ck clusters userId ipAddress) in
    calculateCategoryRisk (Some (ipIndicators a))
    == Qmin ((if (5 <? ia_sharedUsers a)%nat then 0.7 else 0)
             + (if da_isProxy detector then 0.4 else 0)
             + (if da_isVPN detector then 0.3 else 0)
             + (if da_isTor detector then 0.8 else 0)) 1.
Proof.
  intros detector ck clusters userId ip a. subst a.
  unfold analyzeIPBehavior. cbn [snd ia_sharedUsers].
  set (n := size _).
  unfold calculateCategoryRisk, ipIndicators.
  cbn [isSharedIP isProxy isVPN isTor sharedUsers automationSigns spoofingIndicators
       impossibleTravel rapidMovement isCoordinated coordinationScore
       ia_isSharedIP ia_isProxy ia_isVPN ia_isTor ia_sharedUsers nonEmpty gtSome].
  assert (Hgt : Qgtb (inject_Z (Z.of_nat n)) 5 = (5 <? n)%nat).
  { destruct (Nat.ltb_spec 5 n) as [H|H].
    - apply Qgtb_true. change 5 with (inject_Z 5). rewrite <- Zlt_Qlt. lia.
    - apply Qgtb_false. change 5 with (inject_Z 5). rewrite <- Zle_Qle. lia. }
  assert (Hz : (5 <? Z.of_nat n)%Z = (5 <? n)%nat).
  { destruct (Nat.ltb_spec 5 n), (Z.ltb_spec 5 (Z.of_nat n)); try reflexivity; lia. }
  rewrite Hgt, Hz.
  destruct (5 <? n)%nat, (da_isProxy detector), (da_isVPN detector), (da_isTor detector);
    reflexivity.
Qed.

Lemma addIf_pos_iff c x risk :
  0 < x -> 0 <= risk -> (0 < addIf c x risk <-> c = true \/ 0 < risk).
Proof.
  intros Hx Hr. unfold addIf. destruct c.
  - split; [intros _; left; reflexivity | intros _; lra].
  - split; [intros H; right; exact H | intros [H|H]; [discriminate | exact H]].
Qed.

Lemma calculateCategoryRisk_positive (indicators : option Indicators) :
  0 < calculateCategoryRisk indicators <-> quietIndicators indicators = false.
Proof.
  destruct indicators as [i|]; simpl; [|split; [intros H; discriminate H | discriminate]].
  set (base := addIf (isCoordinated i) 0.7
           (addIf (rapidMovement i) 0.4
              (addIf (impossibleTravel i) 0.8
                 (addIf (nonEmpty (spoofingIndicators i)) 0.5
                    (addIf (automationSigns i) 0.6
                       (addIf (gtSome (sharedUsers i) 5) 0.4
                          (addIf (isTor i) 0.8
                             (addIf (isVPN i) 0.3
                                (addIf (isProxy i) 0.4 (addIf (isSharedIP i) 0.3 0)))))))))).
  assert (Hbase0 : 0 <= base).
  { subst base. repeat (apply addIf_nonneg; [discriminate|]). apply Qle_refl. }
  assert (Hbase : 0 < base <->
            negb (isSharedIP i) && negb (isProxy i) && negb (isVPN i) && negb (isTor i)
            && negb (gtSome (sharedUsers i) 5) && negb (automationSigns i)
            && negb (nonEmpty (spoofingIndicators i)) && negb (impossibleTravel i)
            && negb (rapidMovement i) && negb (isCoordinated i) = false).
  { subst base. unfold addIf.
    destruct (isSharedIP i), (isProxy i), (isVPN i), (isTor i),
      (gtSome (sharedUsers i) 5), (automationSigns i), (nonEmpty (spoofingIndicators i)),
      (impossibleTravel i), (rapidMovement i), (isCoordinated i);
      cbn [negb andb]; split; intros H; first [reflexivity | discriminate H]. }
  set (flags := negb (isSharedIP i) && negb (isProxy i) && negb (isVPN i) && negb (isTor i)
            && negb (gtSome (sharedUsers i) 5) && negb (automationSigns i)
            && negb (nonEmpty (spoofingIndicators i)) && negb (impossibleTravel i)
            && negb (rapidMovement i) && negb (isCoordinated i)) in *.
  assert (Hmin : forall r, 0 <= r -> (0 < Qmin r 1 <-> 0 < r)).
  { intros r Hr. split; intros H.
    - eapply Qlt_le_trans; [exact H | apply Q.le_min_l].
    - apply Q.min_glb_lt; [exact H | reflexivity]. }
  destruct (coordinationScore i) as [s|]; cbn [gtSome].
  - unfold addIf at 1. destruct (Qgtb s 0.5) eqn:E; cbn [negb].
    + rewrite andb_false_r. apply Qgtb_true in E.
      split; [reflexivity|]. intros _. apply Hmin; nra.
    + rewrite andb_true_r. rewrite Hmin by exact Hbase0. exact Hbase.
  - cbn [negb]. rewrite andb_true_r. rewrite Hmin by exact Hbase0. exact Hbase.
Qed.

Lemma network_score_nonneg l : 0 <= calculateNetworkRiskScore l.
Proof.
  unfold calculateNetworkRiskScore.
  pose proof (networkStep_invariant l 0 0 (Qle_refl 0) (Qle_refl 0)) as Hinv.
  destruct (List.fold_left networkStep l (Some (0, 0))) as [[r w]|]; [|discriminate].
  destruct Hinv as [Hr Hw].
  destruct (Qgtb w 0) eqn:E; [|discriminate].
  apply Qgtb_true in E. apply Qle_shift_div_l; [exact E|]. now rewrite Qmult_0_l.
Qed.

Lemma networkStep_positive l :
  Forall (fun entry => exists w, weightOf (fst entry) = Some w) l ->
  forall r w, 0 <= r -> 0 <= w ->
    exists r' w', List.fold_left networkStep l (Some (r, w)) = Some (r', w')
      /\ r <= r' /\ w <= w'
      /\ (0 < r' <-> 0 < r \/ Exists (fun entry => 0 < calculateCategoryRisk (snd entry)) l).
Proof.
  induction 1 as [|entry l (wt & Hw) _ IH]; intros r w Hr Hwt.
  - exists r, w. simpl. split; [reflexivity|]. split; [lra|]. split; [lra|]. split.
    + intros H. left. exact H.
    + intros [H|H]; [exact H | inversion H].
  - cbn [List.fold_left]. unfold networkStep at 2. rewrite Hw.
    apply weightOf_positive in Hw.
    destruct (calculateCategoryRisk_bounds (snd entry)) as [Hc0 Hc1].
    destruct (IH (r + calculateCategoryRisk (snd entry) * wt) (w + wt))
      as (r' & w' & Hf & Ha & Hb & Hc); try nra.
    exists r', w'. split; [exact Hf|]. split; [nra|]. split; [lra|].
    rewrite Hc. split.
    + intros [H|H].
      * destruct (Qlt_le_dec 0 r) as [Hr'|Hr']; [left; exact Hr'|].
        right. apply Exists_cons_hd. nra.
      * right. now apply Exists_cons_tl.
    + intros [H|H]; [left; nra|].
      inversion H as [? ? Hx|? ? Hx]; subst; [left; nra | right; exact Hx].
Qed.

(** X15.  [calculateCategoryRisk] is 0 exactly for an analysis that raises
    none of the indicators it reads, and positive otherwise.  For
    categories none of which is named like an inherited property,
    [calculateNetworkRiskScore] is 0 exactly when every category is
    quiet in that sense, and positive as soon as one is not. *)
Theorem network_score_zero_iff_quiet :
  forall (fraudIndicators : list (string * option Indicators)),
    Forall (fun entry => exists w, weightOf (fst entry) = Some w) fraudIndicators ->
    (forall indicators,
       (calculateCategoryRisk indicators == 0 <-> quietIndicators indicators = true)
       /\ (0 < calculateCategoryRisk indicators <-> quietIndicators indicators = false))
    /\ (calculateNetworkRiskScore fraudIndicators == 0 <->
        Forall (fun entry => quietIndicators (snd entry) = true) fraudIndicators)
    /\ (0 < calculateNetworkRiskScore fraudIndicators <->
        Exists (fun entry => quietIndicators (snd entry) = false) fraudIndicators).
Proof.
  intros l Hall.
  assert (Hcat : forall indicators,
            (calculateCategoryRisk indicators == 0 <-> quietIndicators indicators = true)
            /\ (0 < calculateCategoryRisk indicators <-> quietIndicators indicators = false)).
  { intros ind. pose proof (calculateCategoryRisk_positive ind) as Hp.
    destruct (calculateCategoryRisk_bounds ind) as [H0 _]. split; [|exact Hp].
    destruct (quietIndicators ind); split; intros H; try reflexivity.
    - destruct (Qlt_le_dec 0 (calculateCategoryRisk ind)) as [Hlt|Hle].
      + apply Hp in Hlt. discriminate.
      + lra.
    - exfalso. assert (Hlt : 0 < calculateCategoryRisk ind) by now apply Hp. lra.
    - discriminate. }
  split; [exact Hcat|].
  assert (Hpos : 0 < calculateNetworkRiskScore l <->
                 Exists (fun entry => quietIndicators (snd entry) = false) l).
  { unfold calculateNetworkRiskScore.
    pose proof (networkStep_invariant l 0 0 (Qle_refl 0) (Qle_refl 0)) as Hinv.
    destruct (networkStep_positive l Hall 0 0) as (r & w & Hf & Hr & Hw & Hiff); try lra.
    rewrite Hf in *. destruct Hinv as [_ Hrw].
    assert (Hiff' : 0 < r <-> Exists (fun entry => 0 < calculateCategoryRisk (snd entry)) l).
    { rewrite Hiff. split; [intros [H|H]; [discriminate H | exact H] | intros H; right; exact H]. }
    clear Hiff.
    assert (Hex : Exists (fun entry => 0 < calculateCategoryRisk (snd entry)) l
                  <-> Exists (fun entry => quietIndicators (snd entry) = false) l).
    { split; apply List.Exists_impl; intros entry H; now apply Hcat. }
    rewrite <- Hex.
    destruct (Qgtb w 0) eqn:E.
    - apply Qgtb_true in E. split.
      + intros H. apply Hiff'.
        assert (Hm : r == r / w * w) by (field; lra). nra.
      + intros H. assert (Hr' : 0 < r) by (apply Hiff'; exact H).
        apply Qlt_shift_div_l; [exact E | lra].
    - apply Qgtb_false in E. split; [intros H; discriminate H|].
      intros H. exfalso.
      assert (Hr' : 0 < r) by (apply Hiff'; exact H). lra. }
  split; [|exact Hpos].
  pose proof (network_score_nonneg l) as Hn.
  split.
  - intros Hz. apply List.Forall_forall. intros entry Hin.
    destruct (quietIndicators (snd entry)) eqn:Eq; [reflexivity|]. exfalso.
    assert (Hlt : 0 < calculateNetworkRiskScore l).
    { apply Hpos. apply List.Exists_exists. exists entry. split; assumption. }
    lra.
  - intros Hq. destruct (Qlt_le_dec 0 (calculateNetworkRiskScore l)) as [Hlt|Hle]; [|lra].
    exfalso. apply Hpos in Hlt. apply List.Exists_exists in Hlt as (entry & Hin & Hf).
    rewrite List.Forall_forall in Hq. rewrite (Hq entry Hin) in Hf. discriminate.
Qed.

Lemma network_score_zero_iff_quiet_witness :
  (forall indicators,
     (calculateCategoryRisk indicators == 0 <-> quietIndicators indicators = true)
     /\ (0 < calculateCategoryRisk indicators <-> quietIndicators indicators = false))
  /\ (calculateNetworkRiskScore crowdedIndicators == 0 <->
      Forall (fun entry => quietIndicators (snd entry) = true) crowdedIndicators)
  /\ (0 < calculateNetworkRiskScore crowdedIndicators <->
      Exists (fun entry => quietIndicators (snd entry) = false) crowdedIndicators).
Proof.
  apply (network_score_zero_iff_quiet crowdedIndicators).
  repeat (constructor; [eexists; reflexivity|]). constructor.
Defined.

End Clusters.

(** * Further properties of the biometric helpers *)

Section DataWindow.
Import BiometricsHelpers.

(** X16.  [maintainDataWindow] keeps the most recent [3 * minDataPoints]
    samples: the result is a suffix of the array of that length (the
    whole array when it is shorter), so a sample pushed just before the
    call is kept whenever [minDataPoints] is positive; with
    [minDataPoints = 0] every sample is dropped. *)
Theorem maintainDataWindow_keeps_recent :
  forall (A : Type) (minDataPoints : nat) (dataArray : list A) (sample : A),
    List.length (maintainDataWindow minDataPoints dataArray)
      = Nat.min (List.length dataArray) (3 * minDataPoints)
    /\ maintainDataWindow minDataPoints dataArray `suffix_of` dataArray
    /\ maintainDataWindow minDataPoints (maintainDataWindow minDataPoints dataArray)
       = maintainDataWindow minDataPoints dataArray
    /\ (if (0 <? minDataPoints)%nat
        then exists kept,
               maintainDataWindow minDataPoints (dataArray ++ [sample]) = kept ++ [sample]
               /\ kept `suffix_of` dataArray
        else maintainDataWindow minDataPoints (dataArray ++ [sample]) = []).
Proof.
  intros A n data sample.
  assert (Hskip : forall l : list A,
            maintainDataWindow n l = skipn (List.length l - n * 3) l).
  { intros l. unfold maintainDataWindow.
    destruct (Nat.ltb_spec (n * 3) (List.length l)) as [H|H]; [reflexivity|].
    replace (List.length l - n * 3)%nat with 0%nat by lia. reflexivity. }
  assert (Hlen : forall l : list A,
            List.length (maintainDataWindow n l) = Nat.min (List.length l) (3 * n)).
  { intros l. rewrite Hskip, List.length_skipn. lia. }
  split; [apply Hlen|]. split; [|split].
  - rewrite Hskip. exists (firstn (List.length data - n * 3) data).
    symmetry. apply List.firstn_skipn.
  - rewrite (Hskip (maintainDataWindow n data)), Hlen.
    replace (Nat.min (List.length data) (3 * n) - n * 3)%nat with 0%nat by lia.
    reflexivity.
  - rewrite Hskip, List.length_app. cbn [List.length].
    destruct (Nat.ltb_spec 0 n) as [Hpos|Hzero].
    + rewrite List.skipn_app.
      replace (List.length data + 1 - n * 3 - List.length data)%nat with 0%nat by lia.
      eexists. split; [reflexivity|].
      exists (firstn (List.length data + 1 - n * 3) data).
      symmetry. apply List.firstn_skipn.
    + replace (List.length data + 1 - n * 3)%nat with (List.length (data ++ [sample])).
      * apply List.skipn_all.
      * rewrite List.length_app. simpl. lia.
Qed.

End DataWindow.

Section KeystrokeTiming.
Import BiometricsHelpers.

Lemma findLast_snoc {A} (test : A -> bool) (data : list A) (x : A) :
  findLast test (data ++ [x]) = if test x then Some x else findLast test data.
Proof. unfold findLast. rewrite List.rev_app_distr. reflexivity. Qed.

Lemma findLast_spec {A} (test : A -> bool) (data : list A) :
  match findLast test data with
  | Some x => exists pre post, data = pre ++ x :: post /\ test x = true
                               /\ Forall (fun y => test y = false) post
  | None => Forall (fun y => test y = false) data
  end.
Proof.
  induction data as [|x data IH] using List.rev_ind.
  - constructor.
  - rewrite findLast_snoc. destruct (test x) eqn:E.
    + exists data, []. repeat split; [exact E | constructor].
    + destruct (findLast test data) as [y|].
      * destruct IH as (pre & post & -> & Hy & Hpost).
        exists pre, (post ++ [x]). rewrite <- List.app_assoc. repeat split; [exact Hy|].
        apply Forall_app. split; [exact Hpost|]. constructor; [exact E | constructor].
      * apply Forall_app. split; [exact IH|]. constructor; [exact E | constructor].
Qed.

(** X17.  [calculateDwellTime] answers only a [keyup]: with the time
    elapsed since the most recent stored [keydown] of the same key, and
    with [null] when no such [keydown] is stored.  [calculateFlightTime]
    answers only a [keydown]: with the time elapsed since the most recent
    stored [keyup] of any key, and with [null] when there is none. *)
Theorem keystroke_timing_last_match :
  forall (keystrokeData : list KeystrokeRecord) (currentEvent : KeystrokeEvent),
    match calculateDwellTime keystrokeData currentEvent with
    | Some dwell =>
        ke_type currentEvent = "keyup"%string
        /\ exists earlier down later,
             keystrokeData = earlier ++ down :: later
             /\ ks_key down = ke_key currentEvent /\ ks_type down = "keydown"%string
             /\ dwell = ke_timestamp currentEvent - ks_timestamp down
             /\ Forall (fun k => ks_key k = ke_key currentEvent -> ks_type k <> "keydown"%string)
                  later
    | None =>
        ke_type currentEvent <> "keyup"%string
        \/ Forall (fun k => ks_key k = ke_key currentEvent -> ks_type k <> "keydown"%string)
             keystrokeData
    end
    /\ match calculateFlightTime keystrokeData currentEvent with
       | Some flight =>
           ke_type currentEvent = "keydown"%string
           /\ exists earlier up later,
                keystrokeData = earlier ++ up :: later
                /\ ks_type up = "keyup"%string
                /\ flight = ke_timestamp currentEvent - ks_timestamp up
                /\ Forall (fun k => ks_type k <> "keyup"%string) later
       | None =>
           ke_type currentEvent <> "keydown"%string
           \/ Forall (fun k => ks_type k <> "keyup"%string) keystrokeData
       end.
Proof.
  intros data ev. split.
  - unfold calculateDwellTime.
    destruct (String.eqb_spec (ke_type ev) "keyup") as [Hup|Hup]; simpl; [|left; exact Hup].
    pose proof (findLast_spec
      (fun event => String.eqb (ks_key event) (ke_key ev)
                    && String.eqb (ks_type event) "keydown") data) as Hspec.
    assert (Hno : forall l,
      Forall (fun y => String.eqb (ks_key y) (ke_key ev)
                       && String.eqb (ks_type y) "keydown" = false) l ->
      Forall (fun k => ks_key k = ke_key ev -> ks_type k <> "keydown"%string) l).
    { intros l. apply List.Forall_impl. intros k Hk Hkey Hty.
      apply String.eqb_eq in Hkey, Hty. rewrite Hkey, Hty in Hk. discriminate. }
    destruct (findLast _ data) as [down|].
    + destruct Hspec as (pre & post & -> & Ht & Hpost).
      apply andb_true_iff in Ht as [Hk Hd].
      apply String.eqb_eq in Hk, Hd.
      split; [exact Hup|]. exists pre, down, post. repeat split; try assumption.
      now apply Hno.
    + right. now apply Hno.
  - unfold calculateFlightTime.
    destruct (String.eqb_spec (ke_type ev) "keydown") as [Hdown|Hdown]; simpl;
      [|left; exact Hdown].
    pose proof (findLast_spec (fun event => String.eqb (ks_type event) "keyup") data) as Hspec.
    assert (Hno : forall l,
      Forall (fun y => String.eqb (ks_type y) "keyup" = false) l ->
      Forall (fun k => ks_type k <> "keyup"%string) l).
    { intros l. apply List.Forall_impl. intros k Hk. now apply String.eqb_neq. }
    destruct data as [|k0 data']; [right; constructor|]. cbn [List.length Nat.eqb].
    destruct (findLast _ (k0 :: data')) as [up|].
    + destruct Hspec as (pre & post & -> & Ht & Hpost).
      apply String.eqb_eq in Ht.
      split; [exact Hdown|]. exists pre, up, post. repeat split; try assumption.
      now apply Hno.
    + right. now apply Hno.
Qed.

End KeystrokeTiming.

Section Averages.
Import BiometricsHelpers KeystrokeSpec.
Local Open Scope Q_scope.





Lemma filter_idem {A} (f : A -> bool) (l : list A) :
  List.filter f (List.filter f l) = List.filter f l.
Proof.
  induction l as [|x l IH]; [reflexivity|]. cbn [List.filter].
  destruct (f x) eqn:E; [|exact IH]. cbn [List.filter]. now rewrite E, IH.
Qed.

Lemma filter_positive (mouseData : list Q) :
  Forall (fun v => 0 < v) (List.filter (fun v => Qgtb v 0) mouseData).
Proof.
  apply List.Forall_forall. intros v Hin. apply List.filter_In in Hin as [_ H].
  now apply Qgtb_true.
Qed.

Lemma sum_positive (l : list Q) :
  Forall (fun v => 0 < v) l -> forall a, a <= List.fold_left Qplus l a.
Proof.
  induction 1 as [|x l Hx _ IH]; intros a; cbn [List.fold_left]; [lra|].
  specialize (IH (a + x)). lra.
Qed.

(** X19.  [calculateAverageVelocity] divides the sum of the positive
    velocities by their number, and answers 0 when no velocity is
    positive: samples with a zero or negative velocity do not enter it,
    and the result is positive exactly when some sample is. *)
Theorem calculateAverageVelocity_positive_samples :
  forall (mouseData : list Q),
    calculateAverageVelocity mouseData
    = calculateAverageVelocity (positiveVelocities mouseData)
    /\ calculateAverageVelocity mouseData
       == match positiveVelocities mouseData with
          | [] => 0
          | _ :: _ => totalVelocity mouseData
                      / inject_Z (Z.of_nat (List.length (positiveVelocities mouseData)))
          end
    /\ (0 < calculateAverageVelocity mouseData <-> Exists (fun v => 0 < v) mouseData)
    /\ (calculateAverageVelocity mouseData == 0 <-> Forall (fun v => v <= 0) mouseData).
Proof.
  intros mouseData.
  assert (Hval : calculateAverageVelocity mouseData
       == match positiveVelocities mouseData with
          | [] => 0
          | _ :: _ => totalVelocity mouseData
                      / inject_Z (Z.of_nat (List.length (positiveVelocities mouseData)))
          end).
  { unfold calculateAverageVelocity, totalVelocity, positiveVelocities.
    destruct (List.filter (fun v => Qgtb v 0) mouseData); reflexivity. }
  assert (Hex : Exists (fun v => 0 < v) mouseData <-> positiveVelocities mouseData <> []).
  { unfold positiveVelocities. rewrite List.Exists_exists. split.
    - intros (v & Hin & Hv) E.
      assert (Hin' : List.In v (List.filter (fun v => Qgtb v 0) mouseData)).
      { apply List.filter_In. split; [exact Hin | now apply Qgtb_true]. }
      rewrite E in Hin'. destruct Hin'.
    - intros Hne. destruct (List.filter (fun v => Qgtb v 0) mouseData) as [|v l] eqn:E;
        [congruence|].
      assert (Hin : List.In v (List.filter (fun v => Qgtb v 0) mouseData))
        by (rewrite E; left; reflexivity).
      apply List.filter_In in Hin as [Hin Hv]. exists v. split; [exact Hin|].
      now apply Qgtb_true. }
  assert (Hpos : 0 < calculateAverageVelocity mouseData <-> Exists (fun v => 0 < v) mouseData).
  { rewrite Hex, Hval. unfold totalVelocity.
    pose proof (filter_positive mouseData) as Hp. fold (positiveVelocities mouseData) in Hp.
    destruct (positiveVelocities mouseData) as [|v l].
    - split; [intros H; discriminate H | congruence].
    - split; [discriminate|]. intros _.
      apply Forall_cons_1 in Hp as [Hv Hl].
      cbn [List.fold_left]. pose proof (sum_positive l Hl (0 + v)) as Hs.
      apply Qlt_shift_div_l.
      + change 0 with (inject_Z 0). rewrite <- Zlt_Qlt. simpl. lia.
      + rewrite Qmult_0_l. lra. }
  split; [|split; [exact Hval|split; [exact Hpos|]]].
  - unfold calculateAverageVelocity, positiveVelocities. now rewrite filter_idem.
  - split.
    + intros Hz. apply List.Forall_forall. intros v Hin.
      destruct (Qlt_le_dec 0 v) as [Hlt|Hle]; [|exact Hle]. exfalso.
      assert (H : 0 < calculateAverageVelocity mouseData).
      { apply Hpos. apply List.Exists_exists. exists v. split; assumption. }
      lra.
    + intros Hall. rewrite Hval.
      destruct (positiveVelocities mouseData) as [|v l] eqn:E; [reflexivity|]. exfalso.
      assert (Hin : List.In v (positiveVelocities mouseData)) by (rewrite E; left; reflexivity).
      apply List.filter_In in Hin as [Hin Hv]. apply Qgtb_true in Hv.
      rewrite List.Forall_forall in Hall. specialize (Hall v Hin). lra.
Qed.

End Averages.

Section TypingSpeed.
Import BiometricsHelpers KeystrokeSpec.
Local Open Scope Q_scope.


End TypingSpeed.

Section TypingRhythm.
Import BiometricsHelpers.
Local Open Scope R_scope.

Lemma intervalsOf_length (timestamps : list Z) :
  List.length (intervalsOf timestamps) = (List.length timestamps - 1)%nat.
Proof.
  induction timestamps as [|a [|b rest] IH]; try reflexivity.
  change (intervalsOf (a :: b :: rest)) with ((b - a)%Z :: intervalsOf (b :: rest)).
  cbn [List.length] in *. lia.
Qed.

Lemma squares_fold (g : R -> R) (l : list R) :
  (forall x, 0 <= g x) ->
  forall a, a <= List.fold_left (fun sum i => sum + g i) l a
            /\ (List.fold_left (fun sum i => sum + g i) l a = a <->
                Forall (fun i => g i = 0) l).
Proof.
  intros Hg. induction l as [|x l IH]; intros a; cbn [List.fold_left].
  - split; [lra|]. split; [constructor | reflexivity].
  - destruct (IH (a + g x)) as [H1 H2]. specialize (Hg x). split; [lra|]. split.
    + intros H. assert (Hx : g x = 0) by lra.
      constructor; [exact Hx|]. apply H2. lra.
    + intros H. apply Forall_cons_1 in H as [Hx Hl]. apply H2 in Hl. lra.
Qed.

Lemma sum_constant (c : R) (l : list R) :
  Forall (fun i => i = c) l ->
  forall a, List.fold_left Rplus l a = a + INR (List.length l) * c.
Proof.
  induction 1 as [|x l -> _ IH]; intros a.
  - simpl. lra.
  - cbn [List.fold_left]. rewrite IH. rewrite length_cons, S_INR. lra.
Qed.

(** X21.  [calculateTypingRhythm] is 0 for fewer than three keystrokes
    and otherwise lies in (0,1]; it is 1 exactly when the keystrokes are
    evenly spaced, that is when all the intervals between consecutive
    timestamps are equal. *)
Theorem calculateTypingRhythm_range :
  forall (keystrokeData : list KeystrokeRecord),
    let intervals := intervalsOf (List.map ks_timestamp keystrokeData) in
    0 <= calculateTypingRhythm keystrokeData <= 1
    /\ (calculateTypingRhythm keystrokeData = 0 <-> (List.length keystrokeData < 3)%nat)
    /\ (calculateTypingRhythm keystrokeData = 1 <->
        (3 <= List.length keystrokeData)%nat
        /\ exists gap, Forall (fun i => i = gap) intervals).
Proof.
  intros data intervals.
  assert (Hlen : List.length (List.map IZR intervals) = (List.length data - 1)%nat).
  { subst intervals. now rewrite List.length_map, intervalsOf_length, List.length_map. }
  unfold calculateTypingRhythm. fold intervals. rewrite Hlen.
  destruct (Nat.ltb_spec (List.length data - 1) 2) as [Hshort|Hlong].
  - split; [lra|]. split; [split; [lia | reflexivity]|].
    split; [lra | lia].
  - set (n := INR (List.length data - 1)).
    assert (Hn : 0 < n) by (subst n; apply lt_0_INR; lia).
    set (avg := List.fold_left Rplus (List.map IZR intervals) 0 / n).
    set (total := List.fold_left (fun sum i => sum + (i - avg) ^ 2) (List.map IZR intervals) 0).
    destruct (squares_fold (fun i => (i - avg) ^ 2) (List.map IZR intervals)
                (fun x => pow2_ge_0 (x - avg)) 0) as [Htot Hzero].
    fold total in Htot, Hzero.
    assert (Hvar : 0 <= total / n).
    { apply Rmult_le_pos; [exact Htot|]. left. now apply Rinv_0_lt_compat. }
    pose proof (sqrt_pos (total / n)) as Hsq.
    assert (Hden : 0 < 1 + sqrt (total / n)) by lra.
    assert (Hpos : 0 < 1 / (1 + sqrt (total / n))).
    { apply Rdiv_lt_0_compat; lra. }
    assert (Hle : 1 / (1 + sqrt (total / n)) <= 1).
    { apply Rmult_le_reg_r with (1 + sqrt (total / n)); [exact Hden|].
      field_simplify; lra. }
    split; [lra|]. split; [split; [lra | lia]|].
    assert (Hone : 1 / (1 + sqrt (total / n)) = 1 <-> total = 0).
    { split.
      - intros H.
        assert (Hs : sqrt (total / n) = 0).
        { assert (H' : (1 + sqrt (total / n)) * (1 / (1 + sqrt (total / n))) = 1)
            by (field; lra).
          rewrite H in H'. lra. }
        apply sqrt_eq_0 in Hs; [|exact Hvar].
        assert (total = total / n * n) by (field; lra). nra.
      - intros ->. unfold Rdiv at 2. rewrite Rmult_0_l, sqrt_0. field. }
    rewrite Hone. split.
    + intros H0. split; [lia|].
      apply Hzero in H0.
      destruct intervals as [|gap rest] eqn:Ei; [simpl in Hlen; lia|].
      exists gap. cbn [List.map] in H0.
      apply Forall_cons_1 in H0 as [Hg Hrest].
      assert (Havg : IZR gap = avg) by nra.
      constructor; [reflexivity|].
      apply List.Forall_forall. intros i Hi.
      rewrite List.Forall_forall in Hrest.
      specialize (Hrest (IZR i) (List.in_map IZR rest i Hi)). cbn beta in Hrest.
      apply eq_IZR. nra.
    + intros [_ [gap Hgap]]. apply Hzero.
      assert (Hgap' : Forall (fun i => i = IZR gap) (List.map IZR intervals)).
      { apply List.Forall_forall. intros x Hx. apply List.in_map_iff in Hx as (i & <- & Hi).
        rewrite List.Forall_forall in Hgap. now rewrite (Hgap i Hi). }
      assert (Havg : avg = IZR gap).
      { subst avg. rewrite (sum_constant (IZR gap) _ Hgap' 0), Hlen. fold n. field. lra. }
      eapply List.Forall_impl; [|exact Hgap'].
      intros x ->. rewrite Havg. simpl. ring.
Qed.

End TypingRhythm.

(** * Properties of the detector's composite score *)

Section DetectorScore.
Import MLDetector DetectorSpec.
Local Open Scope Q_scope.

Lemma scoreWeight_positive type w : scoreWeight type = Some w -> 0 < w.
Proof.
  unfold scoreWeight, scoreWeights. simpl. intros E.
  repeat match type of E with
  | (if ?c then _ else _) = _ => destruct c; [injection E as <-; reflexivity|]
  end.
  discriminate.
Qed.

Lemma compositeStep_None l : List.fold_left compositeStep l None = None.
Proof.
  induction l as [|x l IH]; [reflexivity|]. cbn [List.fold_left].
  unfold compositeStep at 2. destruct (snd x); exact IH.
Qed.

Lemma compositeStep_unit l :
  Forall (fun entry => match snd entry with
                       | Some score => 0 <= score /\ score <= 1
                       | None => True
                       end) l ->
  forall r w, 0 <= r -> r <= w ->
    match List.fold_left compositeStep l (Some (r, w)) with
    | Some (r', w') => 0 <= r' /\ r' <= w'
    | None => True
    end.
Proof.
  induction 1 as [|entry l Hentry _ IH]; intros r w H0 H1.
  - simpl. split; assumption.
  - cbn [List.fold_left]. unfold compositeStep at 2.
    destruct (snd entry) as [score|]; [|now apply IH].
    destruct (scoreWeight (fst entry)) as [wt|] eqn:Hw.
    + apply scoreWeight_positive in Hw. destruct Hentry as [Hs0 Hs1]. apply IH; nra.
    + now rewrite compositeStep_None.
Qed.

Lemma compositeStep_totals l :
  Forall (fun entry => snd entry <> None -> exists w, scoreWeight (fst entry) = Some w) l ->
  forall r w,
    List.fold_left compositeStep l (Some (r, w))
    = Some (List.fold_left
              (fun acc entry =>
                 match snd entry, scoreWeight (fst entry) with
                 | Some score, Some wt => acc + score * wt
                 | _, _ => acc
                 end) l r,
            List.fold_left
              (fun acc entry =>
                 match snd entry, scoreWeight (fst entry) with
                 | Some _, Some wt => acc + wt
                 | _, _ => acc
                 end) l w).
Proof.
  induction 1 as [|entry l Hentry _ IH]; intros r w; [reflexivity|].
  cbn [List.fold_left]. unfold compositeStep at 2.
  destruct (snd entry) as [score|]; [|apply IH].
  assert (Hs : Some score <> @None Q) by discriminate.
  destruct (Hentry Hs) as (wt & ->). apply IH.
Qed.

Lemma weight_fold_grows (l : list (string * option Q)) :
  forall w,
    w <= List.fold_left
           (fun acc entry =>
              match snd entry, scoreWeight (fst entry) with
              | Some _, Some wt => acc + wt
              | _, _ => acc
              end) l w
    /\ (Exists (fun entry => snd entry <> None /\ exists wt, scoreWeight (fst entry) = Some wt) l ->
        w < List.fold_left
              (fun acc entry =>
                 match snd entry, scoreWeight (fst entry) with
                 | Some _, Some wt => acc + wt
                 | _, _ => acc
                 end) l w).
Proof.
  induction l as [|entry l IH]; intros w; cbn [List.fold_left].
  - split; [lra|]. intros H. inversion H.
  - destruct (snd entry) as [score|] eqn:Es.
    + destruct (scoreWeight (fst entry)) as [wt|] eqn:Hw.
      * apply scoreWeight_positive in Hw. destruct (IH (w + wt)) as [H1 H2].
        split; [lra|]. intros _. lra.
      * destruct (IH w) as [H1 H2]. split; [exact H1|].
        intros H. apply H2. inversion H as [? ? [_ (wt & Hx)]|? ? Hx]; subst; [|exact Hx].
        congruence.
    + destruct (IH w) as [H1 H2]. split; [exact H1|].
      intros H. apply H2. inversion H as [? ? [Hx _]|? ? Hx]; subst; [|exact Hx].
      congruence.
Qed.

(** X22.  When every score that is present lies between 0 and 1,
    [calculateCompositeScore] lies between 0 and 1, whatever the names
    and whichever scores are missing.  When moreover the present scores
    go by the five analysis names and at least one is present, it is the
    quotient of the weighted sum of the present scores by the sum of
    their weights: missing scores are left out of both. *)
Theorem calculateCompositeScore_unit_range :
  forall (scores : list (string * option Q)),
    Forall (fun entry => match snd entry with
                         | Some score => 0 <= score /\ score <= 1
                         | None => True
                         end) scores ->
    0 <= calculateCompositeScore scores
    /\ calculateCompositeScore scores <= 1
    /\ (Forall (fun entry => snd entry <> None -> exists w, scoreWeight (fst entry) = Some w)
          scores ->
        Exists (fun entry => snd entry <> None) scores ->
        calculateCompositeScore scores == weightedTotal scores / weightTotal scores).
Proof.
  intros scores Hall. split; [|split].
  - unfold calculateCompositeScore.
    pose proof (compositeStep_unit scores Hall 0 0 (Qle_refl 0) (Qle_refl 0)) as Hinv.
    destruct (List.fold_left compositeStep scores (Some (0, 0))) as [[r w]|]; [|discriminate].
    destruct Hinv as [Hr Hw].
    destruct (Qgtb w 0) eqn:E; [|discriminate].
    apply Qgtb_true in E. apply Qle_shift_div_l; [exact E|]. now rewrite Qmult_0_l.
  - unfold calculateCompositeScore.
    pose proof (compositeStep_unit scores Hall 0 0 (Qle_refl 0) (Qle_refl 0)) as Hinv.
    destruct (List.fold_left compositeStep scores (Some (0, 0))) as [[r w]|]; [|discriminate].
    destruct Hinv as [Hr Hw].
    destruct (Qgtb w 0) eqn:E; [|discriminate].
    apply Qgtb_true in E. apply Qle_shift_div_r; [exact E|]. now rewrite Qmult_1_l.
  - intros Hknown Hex. unfold calculateCompositeScore, weightedTotal, weightTotal.
    rewrite (compositeStep_totals scores Hknown).
    destruct (weight_fold_grows scores 0) as [_ Hgrow].
    assert (Hpos : 0 < List.fold_left
              (fun acc entry =>
                 match snd entry, scoreWeight (fst entry) with
                 | Some _, Some wt => acc + wt
                 | _, _ => acc
                 end) scores 0).
    { apply Hgrow. apply List.Exists_exists in Hex as (entry & Hin & Hp).
      apply List.Exists_exists. exists entry. split; [exact Hin|]. split; [exact Hp|].
      rewrite List.Forall_forall in Hknown. now apply Hknown. }
    apply Qgtb_true in Hpos. rewrite Hpos. reflexivity.
Qed.

Lemma calculateCompositeScore_unit_range_witness :
  0 <= calculateCompositeScore
         [("anomaly"%string, Some 0.2); ("behavior"%string, None); ("network"%string, Some 0.9)]
  /\ calculateCompositeScore
       [("anomaly"%string, Some 0.2); ("behavior"%string, None); ("network"%string, Some 0.9)]
     <= 1
  /\ (Forall (fun entry => snd entry <> None -> exists w, scoreWeight (fst entry) = Some w)
        [("anomaly"%string, Some 0.2); ("behavior"%string, None); ("network"%string, Some 0.9)] ->
      Exists (fun entry => snd entry <> None)
        [("anomaly"%string, Some 0.2); ("behavior"%string, None); ("network"%string, Some 0.9)] ->
      calculateCompositeScore
        [("anomaly"%string, Some 0.2); ("behavior"%string, None); ("network"%string, Some 0.9)]
      == weightedTotal
           [("anomaly"%string, Some 0.2); ("behavior"%string, None); ("network"%string, Some 0.9)]
         / weightTotal
             [("anomaly"%string, Some 0.2); ("behavior"%string, None);
              ("network"%string, Some 0.9)]).
Proof.
  apply (calculateCompositeScore_unit_range
           [("anomaly"%string, Some 0.2); ("behavior"%string, None); ("network"%string, Some 0.9)]).
  repeat (constructor; [first [exact I | split; discriminate]|]). constructor.
Defined.

Lemma compositeStep_unscored l acc :
  Forall (fun entry => snd entry = None) l -> List.fold_left compositeStep l acc = acc.
Proof.
  intros H. revert acc. induction H as [|entry l Hentry _ IH]; intros acc; [reflexivity|].
  cbn [List.fold_left]. unfold compositeStep at 2. rewrite Hentry. apply IH.
Qed.

Lemma compositeStep_unknown l type score :
  scoreWeight type = None -> List.In (type, Some score) l ->
  forall acc, List.fold_left compositeStep l acc = None.
Proof.
  intros Hw. induction l as [|entry l IH]; intros Hin acc; [destruct Hin|].
  cbn [List.fold_left]. destruct Hin as [->|Hin].
  - unfold compositeStep at 2. cbn [fst snd]. rewrite Hw.
    destruct acc as [[? ?]|]; apply compositeStep_None.
  - now apply IH.
Qed.

(** X23.  [calculateCompositeScore] answers the neutral 0.5 when no
    score is present, and also when a single score is present under a
    name that is not one of the five analysis names, whatever the other
    scores are. *)
Theorem calculateCompositeScore_neutral :
  forall (scores : list (string * option Q)),
    Forall (fun entry => snd entry = None) scores
    \/ (exists type score, scoreWeight type = None /\ List.In (type, Some score) scores) ->
    calculateCompositeScore scores = 0.5.
Proof.
  intros scores [Hnone|(type & score & Hw & Hin)]; unfold calculateCompositeScore.
  - rewrite compositeStep_unscored by exact Hnone. reflexivity.
  - rewrite (compositeStep_unknown scores type score Hw Hin). reflexivity.
Qed.

Lemma calculateCompositeScore_neutral_witness :
  calculateCompositeScore
    [("anomaly"%string, Some 1); ("behaviour"%string, Some 1); ("network"%string, Some 1)]
  = 0.5.
Proof.
  apply calculateCompositeScore_neutral. right.
  exists "behaviour"%string, 1. split; [reflexivity|]. right. left. reflexivity.
Defined.

Lemma Qgeb_Qgtb_ne a b : ~ a == b -> Qgeb a b = Qgtb a b.
Proof.
  intros Hne. destruct (Qgtb a b) eqn:E.
  - apply Qgtb_true in E. apply Qgeb_true. lra.
  - apply Qgtb_false in E. apply Qgeb_false. lra.
Qed.

Lemma Qgeb_Qgtb_eq a b : a == b -> Qgeb a b = true /\ Qgtb a b = false.
Proof.
  intros E. split; [apply Qgeb_true | apply Qgtb_false]; lra.
Qed.

(** X24.  For increasing thresholds, [generateRecommendations] gives the
    recommendations of the level that [getRiskLevel] reports, except for
    a score that is exactly one of the thresholds: [getRiskLevel] compares
    with [>=] and [generateRecommendations] with [>], so there the
    recommendations are those of the level below the reported one. *)
Theorem recommendations_lag_on_threshold :
  forall (t : RiskThresholds) (score : Q),
    th_low t < th_medium t -> th_medium t < th_high t -> th_high t < th_critical t ->
    generateRecommendations t score
    = recommendationsFor (if onThreshold t score
                          then levelBelow (getRiskLevel t score)
                          else getRiskLevel t score).
Proof.
  intros t score H1 H2 H3. unfold onThreshold, generateRecommendations, getRiskLevel.
  destruct (Qeq_bool score (th_low t)) eqn:El;
    [apply Qeq_bool_iff in El | apply Qeq_bool_false_iff in El];
  (destruct (Qeq_bool score (th_medium t)) eqn:Em;
    [apply Qeq_bool_iff in Em | apply Qeq_bool_false_iff in Em]);
  (destruct (Qeq_bool score (th_high t)) eqn:Eh;
    [apply Qeq_bool_iff in Eh | apply Qeq_bool_false_iff in Eh]);
  (destruct (Qeq_bool score (th_critical t)) eqn:Ec;
    [apply Qeq_bool_iff in Ec | apply Qeq_bool_false_iff in Ec]);
  try (exfalso; lra); cbn [orb].
  - destruct (Qgeb_Qgtb_eq _ _ El) as [-> ->].
    rewrite (proj2 (Qgtb_false _ _)), (proj2 (Qgtb_false _ _)), (proj2 (Qgtb_false _ _)) by lra.
    rewrite (proj2 (Qgeb_false _ _)), (proj2 (Qgeb_false _ _)), (proj2 (Qgeb_false _ _)) by lra.
    reflexivity.
  - destruct (Qgeb_Qgtb_eq _ _ Em) as [-> ->].
    rewrite (proj2 (Qgtb_false _ _)), (proj2 (Qgtb_false _ _)) by lra.
    rewrite (proj2 (Qgeb_false _ _)), (proj2 (Qgeb_false _ _)) by lra.
    rewrite (proj2 (Qgtb_true _ _)) by lra.
    reflexivity.
  - destruct (Qgeb_Qgtb_eq _ _ Eh) as [-> ->].
    rewrite (proj2 (Qgtb_false _ _)) by lra.
    rewrite (proj2 (Qgeb_false _ _)) by lra.
    rewrite (proj2 (Qgtb_true _ _)) by lra.
    reflexivity.
  - destruct (Qgeb_Qgtb_eq _ _ Ec) as [-> ->].
    rewrite (proj2 (Qgtb_true _ _)) by lra.
    reflexivity.
  - rewrite !Qgeb_Qgtb_ne by assumption.
    destruct (Qgtb score (th_critical t)); [reflexivity|].
    destruct (Qgtb score (th_high t)); [reflexivity|].
    destruct (Qgtb score (th_medium t)); [reflexivity|].
    destruct (Qgtb score (th_low t)); reflexivity.
Qed.

Lemma recommendations_lag_on_threshold_witness :
  generateRecommendations riskThresholds 0.9
  = recommendationsFor (if onThreshold riskThresholds 0.9
                        then levelBelow (getRiskLevel riskThresholds 0.9)
                        else getRiskLevel riskThresholds 0.9).
Proof.
  apply (recommendations_lag_on_threshold riskThresholds 0.9); reflexivity.
Defined.

End DetectorScore.
